(** * Campus notice pipeline: ingestion, matching and alert fan-out

    A shallow embedding of the notice scrapers ([modules/scraper_ptu.py],
    [modules/scraper_gndec.py]), the alert matcher and immediate notifier
    ([modules/alerts.py]) and the daily digest ([scheduler.py]), followed
    by the properties of the specification that were checked against it.

    Conventions.
    - A Python [str] is a sequence of Unicode code points: the type
      [string] below, a list of code points, whose literals are read as
      UTF-8.  [len] counts code points.  The Standard Library's strings
      of bytes are not loaded; the names of their operations are kept
      for the operations on code points.
    - What Python takes from the Unicode character database (white
      space, decimal digits, alphanumerics, case mapping) is fixed on the
      ASCII range and is a parameter, [Unicode], above it: the tables
      are not part of the sources.
    - A nullable column or a [dict.get] result is an [option].
    - The data store, the messaging channels and the web are an
      environment [Env]: every [run_query] call, every send and every
      page fetch asks the environment, by call number, whether it works. *)

From Stdlib Require Import ZArith NArith List Bool Lia PeanoNat.
From Stdlib.Strings Require Byte.
Import ListNotations.

(** ** Text: sequences of code points *)

(** A code point. *)
Definition char : Set := N.
Bind Scope N_scope with char.

Inductive string : Set :=
| EmptyString : string
| String : char -> string -> string.

Declare Scope string_scope.
Delimit Scope string_scope with string.
Bind Scope string_scope with string.

(** The reading of a literal: its bytes decoded as UTF-8. *)
Module Utf8.
Local Open Scope N_scope.

Fixpoint decode_from (need : nat) (acc : N) (bs : list N) : string :=
  match bs with
  | [] => EmptyString
  | b :: bs' =>
      match need with
      | O =>
          if b <? 128 then String b (decode_from 0 0 bs')
          else if b <? 224 then decode_from 1 (b - 192) bs'
          else if b <? 240 then decode_from 2 (b - 224) bs'
          else decode_from 3 (b - 240) bs'
      | S O => String (acc * 64 + (b - 128)) (decode_from 0 0 bs')
      | S n => decode_from n (acc * 64 + (b - 128)) bs'
      end
  end.

Definition decode (bs : list Byte.byte) : string :=
  decode_from 0 0 (map Byte.to_N bs).

Definition byte_of (n : N) : Byte.byte :=
  match Byte.of_N n with Some b => b | None => Byte.x3f end.

Definition encode_char (c : N) : list Byte.byte :=
  if c <? 128 then [byte_of c]
  else if c <? 2048 then [byte_of (192 + c / 64); byte_of (128 + c mod 64)]
  else if c <? 65536 then
    [byte_of (224 + c / 4096); byte_of (128 + (c / 64) mod 64);
     byte_of (128 + c mod 64)]
  else
    [byte_of (240 + c / 262144); byte_of (128 + (c / 4096) mod 64);
     byte_of (128 + (c / 64) mod 64); byte_of (128 + c mod 64)].

Fixpoint encode (s : string) : list Byte.byte :=
  match s with
  | EmptyString => []
  | String c s' => encode_char c ++ encode s'
  end.

End Utf8.

String Notation string Utf8.decode Utf8.encode : string_scope.

Module String.

(** [s == t]. *)
Fixpoint eqb (s t : string) : bool :=
  match s, t with
  | EmptyString, EmptyString => true
  | String a s', String b t' => N.eqb a b && eqb s' t'
  | _, _ => false
  end.

(** [len(s)]: the number of code points. *)
Fixpoint length (s : string) : nat :=
  match s with
  | EmptyString => O
  | String _ s' => S (length s')
  end.

(** [s + t]. *)
Fixpoint append (s t : string) : string :=
  match s with
  | EmptyString => t
  | String c s' => String c (append s' t)
  end.

(** [s[n:]], [s[:m]] and [s[n:n+m]]. *)
Fixpoint drop (n : nat) (s : string) : string :=
  match n, s with
  | S n', String _ s' => drop n' s'
  | _, _ => s
  end.

Fixpoint take (m : nat) (s : string) : string :=
  match m, s with
  | S m', String c s' => String c (take m' s')
  | _, _ => EmptyString
  end.

Definition substring (n m : nat) (s : string) : string := take m (drop n s).

Fixpoint chars (s : string) : list char :=
  match s with
  | EmptyString => []
  | String c s' => c :: chars s'
  end.

Fixpoint of_chars (l : list char) : string :=
  match l with
  | [] => EmptyString
  | c :: l' => String c (of_chars l')
  end.

End String.

Import String.
Infix "++" := append (right associativity, at level 60) : string_scope.
Local Open Scope string_scope.
Local Open Scope bool_scope.

(** ** Python strings *)

Module PyStr.

(** The Unicode character database of the Python that runs the program,
    for the code points above 127: [u_space] is [str.isspace] (the class
    [\s]), [u_decimal] the value of a decimal digit ([str.isdecimal], the
    class [\d], and what [int] reads), [u_alnum] is [str.isalnum] (the
    class [\w] but for the underscore), [u_lower] and [u_upper] give
    [str.lower] and [str.upper] of a text that has such a code point, as
    the first code point and the rest (no text but the empty one has an
    empty image), and [u_fold a c] tells whether the code point [c]
    matches the pattern character [a] under [re.IGNORECASE], when one of
    the two is above 127. *)
Record Unicode : Type := mkUnicode {
  u_space : char -> bool;
  u_decimal : char -> option N;
  u_alnum : char -> bool;
  u_lower : string -> char * string;
  u_upper : string -> char * string;
  u_fold : char -> char -> bool
}.

Definition between (lo hi : N) (c : char) : bool :=
  (lo <=? c)%N && (c <=? hi)%N.

Definition is_ascii_char (c : char) : bool := (c <? 128)%N.

(** The classes [A-Z], [a-z] and [A-Za-z]. *)
Definition is_upper : char -> bool := between 65 90.
Definition is_lower : char -> bool := between 97 122.
Definition is_alpha (c : char) : bool := is_upper c || is_lower c.

Definition lower_char (c : char) : char :=
  if is_upper c then (c + 32)%N else c.

Definition upper_char (c : char) : char :=
  if is_lower c then (c - 32)%N else c.

Fixpoint map_chars (f : char -> char) (s : string) : string :=
  match s with
  | EmptyString => EmptyString
  | String c s' => String (f c) (map_chars f s')
  end.

Fixpoint is_ascii (s : string) : bool :=
  match s with
  | EmptyString => true
  | String c s' => is_ascii_char c && is_ascii s'
  end.

(** [s.startswith(p)]. *)
Fixpoint startswith (s p : string) : bool :=
  match p, s with
  | EmptyString, _ => true
  | String a p', String b s' => N.eqb a b && startswith s' p'
  | String _ _, EmptyString => false
  end.

(** [s.endswith(p)]. *)
Definition rev_string (s : string) : string := of_chars (rev (chars s)).

Definition endswith (s p : string) : bool :=
  startswith (rev_string s) (rev_string p).

(** [p in s]: substring containment. *)
Fixpoint contains (s p : string) : bool :=
  startswith s p ||
  match s with
  | EmptyString => false
  | String _ s' => contains s' p
  end.

(** Truthiness of a string: [if s:]. *)
Definition nonempty (s : string) : bool :=
  match s with EmptyString => false | _ => true end.

(** [x or ""] for a value that may be [None]. *)
Definition or_empty (o : option string) : string :=
  match o with Some s => s | None => "" end.

(** [s.zfill(w)] on a string of digits. *)
Fixpoint zeros (n : nat) : string :=
  match n with O => "" | S n' => String 48 (zeros n') end.

Definition zfill (w : nat) (s : string) : string :=
  zeros (w - String.length s) ++ s.

(** [str(x)] for a value that may be [None]. *)
Definition str_opt (o : option string) : string :=
  match o with Some s => s | None => "None" end.

Section Tables.
Variable U : Unicode.

(** The value of a decimal digit: [0] to [9] on the ASCII range. *)
Definition decimal_value (c : char) : option N :=
  if is_ascii_char c then
    if between 48 57 c then Some (c - 48)%N else None
  else u_decimal U c.

(** [str.isdecimal], the class [\d]. *)
Definition is_digit (c : char) : bool :=
  match decimal_value c with Some _ => true | None => false end.

(** [str.isspace], the class [\s]: on the ASCII range TAB..CR, FS..US and
    the blank. *)
Definition is_space (c : char) : bool :=
  if is_ascii_char c then
    between 9 13 c || between 28 31 c || (c =? 32)%N
  else u_space U c.

(** The class [\w]: alphanumerics and the underscore. *)
Definition is_word (c : char) : bool :=
  if is_ascii_char c then is_alpha c || between 48 57 c || (c =? 95)%N
  else u_alnum U c.

(** The text character [c] matches the pattern character [a] when case is
    ignored. *)
Definition fold_eqb (a c : char) : bool :=
  if is_ascii_char a && is_ascii_char c
  then N.eqb (lower_char c) (lower_char a)
  else u_fold U a c.

(** [s.lower()] and [s.upper()]. *)
Definition lower (s : string) : string :=
  if is_ascii s then map_chars lower_char s
  else String (fst (u_lower U s)) (snd (u_lower U s)).

Definition upper (s : string) : string :=
  if is_ascii s then map_chars upper_char s
  else String (fst (u_upper U s)) (snd (u_upper U s)).

(** [s.lstrip()], [s.rstrip()] and [s.strip()]. *)
Fixpoint lstrip (s : string) : string :=
  match s with
  | String c s' => if is_space c then lstrip s' else s
  | EmptyString => EmptyString
  end.

Fixpoint rstrip (s : string) : string :=
  match s with
  | EmptyString => EmptyString
  | String c s' =>
      match rstrip s' with
      | EmptyString => if is_space c then EmptyString else String c EmptyString
      | r => String c r
      end
  end.

Definition strip (s : string) : string := rstrip (lstrip s).

End Tables.

End PyStr.

(** ** Regular expressions: the fragment of [re] the scrapers use

    Classes, [\b], sequence, ordered alternation, greedy bounded repetition
    of a class and capture groups, matched by backtracking in the order
    Python's engine explores.  Groups are numbered in the order in which
    they close, which in the patterns below (no nested groups) is the order
    in which they open. *)

Module Re.
Import PyStr.

Inductive re : Type :=
| Eps
| Chr (p : char -> bool)
| Bnd
| Seq (a b : re)
| Alt (a b : re)
| Rep (p : char -> bool) (lo : nat) (hi : option nat)
| Grp (a : re).

Record cursor : Type := mkCursor {
  prev : option char;           (* the character before the cursor *)
  rest : string;                (* the text from the cursor on *)
  pos : nat;                    (* the index of the cursor *)
  caps : list (nat * nat)       (* spans of the groups closed so far *)
}.

Definition below (n : nat) (hi : option nat) : bool :=
  match hi with Some h => (n <? h)%nat | None => true end.

Section Matcher.
Variable U : Unicode.
Context {R : Type}.

Definition word_before (c : cursor) : bool :=
  match prev c with Some a => is_word U a | None => false end.

Definition word_after (c : cursor) : bool :=
  match rest c with String a _ => is_word U a | EmptyString => false end.

(** Greedy [p{lo,hi}]: take one more character when allowed, and give it
    back when the rest of the pattern fails. *)
Fixpoint rep (p : char -> bool) (lo : nat) (hi : option nat)
    (k : cursor -> option R) (n : nat)
    (pv : option char) (s : string) (i : nat) (cs : list (nat * nat))
    {struct s} : option R :=
  let stop := if (lo <=? n)%nat then k (mkCursor pv s i cs) else None in
  match s with
  | String c s' =>
      if p c && below n hi then
        match rep p lo hi k (S n) (Some c) s' (S i) cs with
        | Some r => Some r
        | None => stop
        end
      else stop
  | EmptyString => stop
  end.

Fixpoint exec (r : re) (k : cursor -> option R) (c : cursor) : option R :=
  match r with
  | Eps => k c
  | Chr p =>
      match rest c with
      | String a s' =>
          if p a then k (mkCursor (Some a) s' (S (pos c)) (caps c)) else None
      | EmptyString => None
      end
  | Bnd => if xorb (word_before c) (word_after c) then k c else None
  | Seq a b => exec a (exec b k) c
  | Alt a b =>
      match exec a k c with
      | Some x => Some x
      | None => exec b k c
      end
  | Rep p lo hi => rep p lo hi k 0 (prev c) (rest c) (pos c) (caps c)
  | Grp a =>
      exec a (fun c' =>
        k (mkCursor (prev c') (rest c') (pos c')
             (caps c' ++ [(pos c, pos c')]))) c
  end.

End Matcher.

(** A match: the span of the whole match and the spans of its groups. *)
Record span_match : Type := mkSpans {
  m_start : nat;
  m_end : nat;
  m_caps : list (nat * nat)
}.

(** A match object: [group(0)] and the numbered groups. *)
Record match_obj : Type := mkMatch {
  group0 : string;
  groups : list string;
  m_stop : nat
}.

Definition slice (s : string) (se : nat * nat) : string :=
  substring (fst se) (snd se - fst se) s.

Definition realise (s : string) (m : span_match) : match_obj :=
  mkMatch (slice s (m_start m, m_end m)) (map (slice s) (m_caps m)) (m_end m).

(** [m.group(i)] for [i >= 1]. *)
Definition group (m : match_obj) (i : nat) : string :=
  nth (i - 1) (groups m) "".

(** Pattern builders. *)
Definition lit (a : string) : re :=
  match a with
  | String c _ => Chr (N.eqb c)
  | EmptyString => Eps
  end.
Definition one_of (s : string) : re :=
  Chr (fun c => existsb (N.eqb c) (chars s)).

Fixpoint seqs (rs : list re) : re :=
  match rs with
  | [] => Eps
  | [r] => r
  | r :: rs' => Seq r (seqs rs')
  end.

Fixpoint alts (rs : list re) : re :=
  match rs with
  | [] => Chr (fun _ => false)
  | [r] => r
  | r :: rs' => Alt r (alts rs')
  end.

Section Classes.
Variable U : Unicode.

Definition match_here (r : re) (pv : option char) (s : string) (i : nat)
  : option span_match :=
  exec U r (fun c => Some (mkSpans i (pos c) (caps c))) (mkCursor pv s i []).

Fixpoint search_from (r : re) (pv : option char) (s : string) (i : nat)
  : option span_match :=
  match match_here r pv s i with
  | Some m => Some m
  | None =>
      match s with
      | String c s' => search_from r (Some c) s' (S i)
      | EmptyString => None
      end
  end.

(** [re.search(r, s)] and [re.match(r, s)]. *)
Definition search (r : re) (s : string) : option match_obj :=
  option_map (realise s) (search_from r None s 0).

Definition match_ (r : re) (s : string) : option match_obj :=
  option_map (realise s) (match_here r None s 0).

(** The classes [\d] and [\s]. *)
Definition digit : re := Chr (is_digit U).
Definition digits (lo hi : nat) : re := Rep (is_digit U) lo (Some hi).
Definition spaces1 : re := Rep (is_space U) 1 None.
Definition spaces0 : re := Rep (is_space U) 0 None.

(** A word matched without regard to case (the [IGNORECASE] flag). *)
Fixpoint word_ci (w : string) : re :=
  match w with
  | EmptyString => Eps
  | String a w' => Seq (Chr (fold_eqb U a)) (word_ci w')
  end.

End Classes.

End Re.

(** ** Calendar dates: the arithmetic of Python's [datetime] module *)

Module Calendar.
Local Open Scope Z_scope.

Record date : Type := mkDate { year : Z; month : Z; day : Z }.

(** A naive [datetime]: a date and the seconds elapsed since its midnight. *)
Record datetime : Type := mkDatetime { dt_date : date; dt_seconds : Z }.

Definition MINYEAR : Z := 1.
Definition MAXYEAR : Z := 9999.
Definition MAXORDINAL : Z := 3652059.

Definition is_leap (y : Z) : bool :=
  (y mod 4 =? 0) && (negb (y mod 100 =? 0) || (y mod 400 =? 0)).

Definition DAYS_IN_MONTH (m : Z) : Z :=
  nth (Z.to_nat m) [-1; 31; 28; 31; 30; 31; 30; 31; 31; 30; 31; 30; 31] 0.

Definition DAYS_BEFORE_MONTH (m : Z) : Z :=
  nth (Z.to_nat m) [-1; 0; 31; 59; 90; 120; 151; 181; 212; 243; 273; 304; 334] 0.

Definition days_in_month (y m : Z) : Z :=
  if (m =? 2) && is_leap y then 29 else DAYS_IN_MONTH m.

Definition days_before_year (y : Z) : Z :=
  let p := y - 1 in p * 365 + p / 4 - p / 100 + p / 400.

Definition days_before_month (y m : Z) : Z :=
  DAYS_BEFORE_MONTH m + (if (2 <? m) && is_leap y then 1 else 0).

Definition ymd2ord (y m d : Z) : Z :=
  days_before_year y + days_before_month y m + d.

Definition ord2ymd (ordinal : Z) : date :=
  let n := ordinal - 1 in
  let n400 := n / 146097 in
  let n := n mod 146097 in
  let y := n400 * 400 + 1 in
  let n100 := n / 36524 in
  let n := n mod 36524 in
  let n4 := n / 1461 in
  let n := n mod 1461 in
  let n1 := n / 365 in
  let n := n mod 365 in
  let y := y + n100 * 100 + n4 * 4 + n1 in
  if (n1 =? 4) || (n100 =? 4) then mkDate (y - 1) 12 31
  else
    let leapyear := (n1 =? 3) && (negb (n4 =? 24) || (n100 =? 3)) in
    let m := Z.shiftr (n + 50) 5 in
    let preceding :=
      DAYS_BEFORE_MONTH m + (if (2 <? m) && leapyear then 1 else 0) in
    if n <? preceding then
      let m := m - 1 in
      let preceding :=
        preceding - (DAYS_IN_MONTH m + (if (m =? 2) && leapyear then 1 else 0)) in
      mkDate y m (n - preceding + 1)
    else mkDate y m (n - preceding + 1).

Definition toordinal (d : date) : Z := ymd2ord (year d) (month d) (day d).

(** [date(y, m, d)]: the constructor checks its fields ([ValueError] is
    [None]). *)
Definition make_date (y m d : Z) : option date :=
  if (MINYEAR <=? y) && (y <=? MAXYEAR) && (1 <=? m) && (m <=? 12)
     && (1 <=? d) && (d <=? days_in_month y m)
  then Some (mkDate y m d) else None.

(** Comparison of dates: the comparison of the triples (year, month, day). *)
Definition date_compare (a b : date) : comparison :=
  match year a ?= year b with
  | Eq => match month a ?= month b with
          | Eq => day a ?= day b
          | c => c
          end
  | c => c
  end.

Definition date_ltb (a b : date) : bool :=
  match date_compare a b with Lt => true | _ => false end.

Definition date_leb (a b : date) : bool :=
  match date_compare a b with Gt => false | _ => true end.

Definition date_eqb (a b : date) : bool :=
  match date_compare a b with Eq => true | _ => false end.

(** [d - timedelta(days=n)]; [None] is the [OverflowError] raised when the
    result leaves the supported range. *)
Definition sub_days (d : date) (n : Z) : option date :=
  let o := toordinal d - n in
  if (0 <? o) && (o <=? MAXORDINAL) then Some (ord2ymd o) else None.

(** [(now - timedelta(days=n)).date()]: the time of day is kept by the
    subtraction and dropped by [.date()]. *)
Definition datetime_sub_days_date (now : datetime) (n : Z) : option date :=
  sub_days (dt_date now) n.

(** Decimal digits of a natural number, least significant digit last. *)
Fixpoint digits_fuel (fuel : nat) (n : nat) (acc : string) : string :=
  match fuel with
  | O => acc
  | S f =>
      let acc' := String (N.of_nat (48 + n mod 10)) acc in
      if (n / 10 =? 0)%nat then acc' else digits_fuel f (n / 10) acc'
  end.

Definition decimal (z : Z) : string :=
  let n := Z.to_nat z in digits_fuel (S n) n "".

(** [str(d)], the ISO form [YYYY-MM-DD]. *)
Definition isoformat (d : date) : string :=
  (PyStr.zfill 4 (decimal (year d)) ++ "-" ++
   PyStr.zfill 2 (decimal (month d)) ++ "-" ++
   PyStr.zfill 2 (decimal (day d)))%string.

Definition str_date_opt (o : option date) : string :=
  match o with Some d => isoformat d | None => "None" end.

End Calendar.

(** ** [datetime.strptime] for the directives the scrapers use

    As in the library, the format is turned into a regular expression that
    is matched, ignoring case, at the start of the text; text left over
    after the match is an error, and so is a field combination that is not
    a date.  An error ([ValueError]) is [None]. *)

Module Strptime.
Import PyStr Re Calendar.
Local Open Scope Z_scope.

Inductive directive : Type :=
| Dd | Dm | DY | DB | Db            (* %d %m %Y %B %b *)
| Dws                               (* a run of white space in the format *)
| Dlit (c : char)                   (* any other character *)
| Dbad.                             (* a directive the model does not know *)

(** The directive a percent sign and the character [x] make. *)
Definition directive_of (x : char) : directive :=
  match x with
  | 100%N (* d *) => Dd
  | 109%N (* m *) => Dm
  | 89%N (* Y *) => DY
  | 66%N (* B *) => DB
  | 98%N (* b *) => Db
  | _ => Dbad
  end.

Definition f_month : list string :=
  ["january"; "february"; "march"; "april"; "may"; "june"; "july";
   "august"; "september"; "october"; "november"; "december"].

Definition a_month : list string :=
  ["jan"; "feb"; "mar"; "apr"; "may"; "jun"; "jul"; "aug"; "sep"; "oct";
   "nov"; "dec"].

(** The alternation of a name table lists the longest names first, names
    of one length in table order. *)
Fixpoint insert_by_length (w : string) (ws : list string) : list string :=
  match ws with
  | [] => [w]
  | x :: ws' =>
      if (String.length x <? String.length w)%nat then w :: x :: ws'
      else x :: insert_by_length w ws'
  end.

Definition longest_first (ws : list string) : list string :=
  fold_left (fun acc w => insert_by_length w acc) ws [].

Fixpoint index_of (w : string) (ws : list string) (i : Z) : Z :=
  match ws with
  | [] => 0
  | x :: ws' => if String.eqb x w then i else index_of w ws' (i + 1)
  end.

Record fields : Type := mkFields { f_year : Z; f_month_no : Z; f_day : Z }.

Section Parse.
Variable U : Unicode.

Fixpoint parse_format (f : string) : list directive :=
  match f with
  | EmptyString => []
  | String 37%N (* % *) (String x f') => directive_of x :: parse_format f'
  | String c f' =>
      if is_space U c then
        match parse_format f' with
        | Dws :: ds => Dws :: ds
        | ds => Dws :: ds
        end
      else Dlit c :: parse_format f'
  end.

Definition names_re (ws : list string) : re :=
  Grp (alts (map (word_ci U) (longest_first ws))).

Definition directive_re (d : directive) : re :=
  match d with
  | Dd => Grp (alts [Seq (lit "3") (one_of "01");
                     Seq (one_of "12") (digit U);
                     Seq (lit "0") (Chr (between 49 57));
                     Chr (between 49 57);
                     Seq (lit " ") (Chr (between 49 57))])
  | Dm => Grp (alts [Seq (lit "1") (one_of "012");
                     Seq (lit "0") (Chr (between 49 57));
                     Chr (between 49 57)])
  | DY => Grp (seqs [digit U; digit U; digit U; digit U])
  | DB => names_re f_month
  | Db => names_re a_month
  | Dws => spaces1 U
  | Dlit c => Chr (fold_eqb U c)
  | Dbad => Chr (fun _ => false)
  end.

Definition format_re (ds : list directive) : re := seqs (map directive_re ds).

(** [int(s)] for a field: decimal digits, blanks around them ignored. *)
Definition int_of (s : string) : Z :=
  fold_left
    (fun acc c =>
       match decimal_value U c with
       | Some v => acc * 10 + Z.of_N v
       | None => acc
       end)
    (chars s) 0.

(** The groups of a match, read in the order of the directives. *)
Fixpoint read_fields (ds : list directive) (gs : list string) (acc : fields)
  : fields :=
  match ds, gs with
  | Dd :: ds', g :: gs' =>
      read_fields ds' gs' (mkFields (f_year acc) (f_month_no acc) (int_of g))
  | Dm :: ds', g :: gs' =>
      read_fields ds' gs' (mkFields (f_year acc) (int_of g) (f_day acc))
  | DY :: ds', g :: gs' =>
      read_fields ds' gs' (mkFields (int_of g) (f_month_no acc) (f_day acc))
  | DB :: ds', g :: gs' =>
      read_fields ds' gs'
        (mkFields (f_year acc) (index_of (lower U g) f_month 1) (f_day acc))
  | Db :: ds', g :: gs' =>
      read_fields ds' gs'
        (mkFields (f_year acc) (index_of (lower U g) a_month 1) (f_day acc))
  | _ :: ds', _ => read_fields ds' gs acc
  | [], _ => acc
  end.

(** [datetime.strptime(s, fmt).date()]. *)
Definition strptime (s fmt : string) : option date :=
  let ds := parse_format fmt in
  match match_ U (format_re ds) s with
  | Some m =>
      if (m_stop m =? String.length s)%nat then
        let f := read_fields ds (groups m) (mkFields 1900 1 1) in
        make_date (f_year f) (f_month_no f) (f_day f)
      else None
  | None => None
  end.

(** The first format of the list that parses the text. *)
Fixpoint first_format (s : string) (fmts : list string) : option date :=
  match fmts with
  | [] => None
  | f :: fmts' =>
      match strptime s f with
      | Some d => Some d
      | None => first_format s fmts'
      end
  end.

End Parse.

End Strptime.

(** ** Parsed pages, as the scrapers observe them

    BeautifulSoup is a library; a page is modelled by what the scrapers
    ask of it. *)

Module Html.

(** A [<td>]: its text, [td.get_text(" ", strip=True)], and the [href]
    values of the anchors carrying one inside it, in document order. *)
Record Cell : Type := mkCell { cell_text : string; cell_hrefs : list string }.

(** A [<tr>]: [tr.find_all("td")] and the [href] values of
    [tr.find_all("a", href=True)]. *)
Record Row : Type := mkRow { tds : list Cell; row_hrefs : list string }.

(** An [<a>]: its text, its [href] attribute if any, and the texts of the
    [span], [time], [small] and [p] elements found under its parent. *)
Record Anchor : Type := mkAnchor {
  anchor_text : string;
  anchor_href : option string;
  anchor_nearby : list string
}.

(** The listing page: [soup.select(sel)] and [soup.find_all("a", href=True)]. *)
Record Soup : Type := mkSoup {
  select : string -> list Anchor;
  find_all_a_href : list Anchor
}.

(** A [<meta>] tag: its [content] and [value] attributes and its text. *)
Record MetaTag : Type := mkMeta {
  meta_content : option string;
  meta_value : option string;
  meta_text : string
}.

(** The page of one notice, as [get_notice_date_from_page] reads it: the
    first [<time>] (its [datetime] attribute and its text), the [<meta>]
    found for an attribute name and value, the [span], [div] and [p]
    elements with text (class list and text), and the text of the page. *)
Record NoticePage : Type := mkNoticePage {
  time_tag : option (option string * string);
  find_meta : string -> string -> option MetaTag;
  text_blocks : list (list string * string);
  page_text : string
}.

End Html.

(** ** The data store, the channels and the clock *)

Module Database.
Import PyStr Calendar Html.
Local Open Scope Z_scope.

(** A row of [notices]. *)
Record Notice : Type := mkNotice {
  n_id : Z;
  n_title : option string;
  n_link : option string;
  n_date : option date;
  n_source : option string
}.

(** A row of [alerts]. *)
Record Alert : Type := mkAlert {
  a_id : Z;
  a_user_identifier : option string;
  a_channel : option string;
  a_keyword : option string;
  a_source : option string;
  a_frequency : option string;
  a_active : Z
}.

(** One call of a channel's send function and its result. *)
Record Delivery : Type := mkDelivery {
  d_channel : string;
  d_to : option string;
  d_text : string;
  d_ok : bool
}.

(** What the pipeline does not control.  [db_up k] tells whether the
    [k]-th [run_query] call reaches the server and executes ([run_query]
    returns [None] otherwise); [send_ok k] is the result of the [k]-th
    send; [web k url] is the page obtained by the [k]-th fetch; [clock k]
    is the [k]-th reading of [datetime.now()].  [urljoin] is the library
    function.  [sent_unique] tells whether [alerts_sent] rejects a second
    row for one (alert, notice) pair: the schema is not part of the
    sources.  [ucd] is the Unicode character database of the
    interpreter. *)
Record Env : Type := mkEnv {
  db_up : nat -> bool;
  send_ok : nat -> bool;
  web : nat -> string -> option NoticePage;
  clock : nat -> datetime;
  urljoin : string -> string -> string;
  sent_unique : bool;
  ucd : Unicode
}.

(** The state the pipeline acts on: the three tables, the next
    auto-increment key of [notices], and the history of the exchanges with
    the environment. *)
Record World : Type := mkWorld {
  notices : list Notice;
  alerts : list Alert;
  alerts_sent : list (Z * Z);
  next_id : Z;
  queries : nat;
  outbox : list Delivery;
  fetches : nat;
  clock_reads : nat
}.

Definition set_notices (w : World) (ns : list Notice) (nid : Z) : World :=
  mkWorld ns (alerts w) (alerts_sent w) nid (queries w) (outbox w)
    (fetches w) (clock_reads w).

Definition set_alerts_sent (w : World) (l : list (Z * Z)) : World :=
  mkWorld (notices w) (alerts w) l (next_id w) (queries w) (outbox w)
    (fetches w) (clock_reads w).

Definition set_queries (w : World) (q : nat) : World :=
  mkWorld (notices w) (alerts w) (alerts_sent w) (next_id w) q (outbox w)
    (fetches w) (clock_reads w).

Definition set_outbox (w : World) (o : list Delivery) : World :=
  mkWorld (notices w) (alerts w) (alerts_sent w) (next_id w) (queries w) o
    (fetches w) (clock_reads w).

Definition set_fetches (w : World) (f : nat) : World :=
  mkWorld (notices w) (alerts w) (alerts_sent w) (next_id w) (queries w)
    (outbox w) f (clock_reads w).

Definition set_clock_reads (w : World) (c : nat) : World :=
  mkWorld (notices w) (alerts w) (alerts_sent w) (next_id w) (queries w)
    (outbox w) (fetches w) c.

(** Computations that read and change the world. *)
Definition M (A : Type) : Type := World -> A * World.

Definition ret {A} (a : A) : M A := fun w => (a, w).

Definition bind {A B} (c : M A) (k : A -> M B) : M B :=
  fun w => let r := c w in k (fst r) (snd r).

Definition exec_M {A} (c : M A) (w : World) : World := snd (c w).

Notation "x <- c ;; k" := (bind c (fun x => k))
  (at level 61, c at next level, right associativity).
Notation "c ;;; k" := (bind c (fun _ => k))
  (at level 61, right associativity).

(** [for x in xs: body(x)]. *)
Fixpoint for_each {A} (body : A -> M unit) (xs : list A) : M unit :=
  match xs with
  | [] => ret tt
  | x :: xs' => body x ;;; for_each body xs'
  end.

(** [bool(rows)] for the result of a query. *)
Definition found {A} (r : option (list A)) : bool :=
  match r with Some (_ :: _) => true | _ => false end.

(** [rows or []]. *)
Definition or_nil {A} (r : option (list A)) : list A :=
  match r with Some l => l | None => [] end.

(** [column = %s] for a nullable text column.  Equality of text is
    equality of strings. *)
Definition col_eqb (col : option string) (v : string) : bool :=
  match col with Some s => String.eqb s v | None => false end.

Definition pair_eqb (p q : Z * Z) : bool :=
  (fst p =? fst q) && (snd p =? snd q).

(** [ORDER BY date DESC]: rows of one date keep the order of the table. *)
Definition date_after (a b : Notice) : bool :=
  match n_date a, n_date b with
  | Some x, Some y => date_ltb y x
  | Some _, None => true
  | _, _ => false
  end.

Fixpoint insert_desc (n : Notice) (l : list Notice) : list Notice :=
  match l with
  | [] => [n]
  | x :: l' => if date_after n x then n :: x :: l' else x :: insert_desc n l'
  end.

Definition order_by_date_desc (l : list Notice) : list Notice :=
  fold_left (fun acc n => insert_desc n acc) l [].

(** *** The statements *)

(** [SELECT id FROM notices WHERE link=%s OR title=%s]. *)
Definition select_by_link_or_title (link title : string) (w : World) : list Z :=
  map n_id
    (filter (fun n => col_eqb (n_link n) link || col_eqb (n_title n) title)
       (notices w)).

(** [SELECT id FROM notices WHERE link=%s]. *)
Definition select_by_link (link : string) (w : World) : list Z :=
  map n_id (filter (fun n => col_eqb (n_link n) link) (notices w)).

(** [INSERT INTO notices (title, link, date, source) VALUES (...)]. *)
Definition insert_notice (title link : string) (d : date) (source : string)
    (w : World) : World :=
  set_notices w
    (notices w ++ [mkNotice (next_id w) (Some title) (Some link) (Some d)
                     (Some source)])
    (next_id w + 1).

(** [SELECT * FROM alerts WHERE active=1]. *)
Definition select_active_alerts (w : World) : list Alert :=
  filter (fun a => a_active a =? 1) (alerts w).

(** [SELECT * FROM alerts WHERE frequency='daily' AND active=1]. *)
Definition select_daily_alerts (w : World) : list Alert :=
  filter (fun a => col_eqb (a_frequency a) "daily" && (a_active a =? 1))
    (alerts w).

(** [SELECT id, title, link, date, source FROM notices WHERE date >= %s
    ORDER BY date DESC]. *)
Definition dated_since (since : date) (n : Notice) : bool :=
  match n_date n with Some d => date_leb since d | None => false end.

Definition select_recent (since : date) (w : World) : list Notice :=
  order_by_date_desc (filter (dated_since since) (notices w)).

(** [SELECT id FROM alerts_sent WHERE alert_id=%s AND notice_id=%s]. *)
Definition select_sent (aid nid : Z) (w : World) : list (Z * Z) :=
  filter (pair_eqb (aid, nid)) (alerts_sent w).

Section Store.
Variable E : Env.

(** [INSERT INTO alerts_sent (alert_id, notice_id) VALUES (%s, %s)]. *)
Definition insert_sent (aid nid : Z) (w : World) : World :=
  if sent_unique E && existsb (pair_eqb (aid, nid)) (alerts_sent w) then w
  else set_alerts_sent w (alerts_sent w ++ [(aid, nid)]).

(** [run_query(stmt, params, fetch=True)]: the rows, or [None] when the
    connection or the statement fails. *)
Definition run_query_fetch {A} (stmt : World -> list A) : M (option (list A)) :=
  fun w =>
    let w' := set_queries w (S (queries w)) in
    if db_up E (queries w) then (Some (stmt w), w') else (None, w').

(** [run_query(stmt, params)]: the statement is executed and committed, or
    nothing happens when the connection or the statement fails; the call
    returns [None] in both cases. *)
Definition run_query (stmt : World -> World) : M unit :=
  fun w =>
    let w' := if db_up E (queries w) then stmt w else w in
    (tt, set_queries w' (S (queries w'))).

(** [datetime.now()]. *)
Definition now : M datetime :=
  fun w => (clock E (clock_reads w), set_clock_reads w (S (clock_reads w))).

(** [requests.get] of a notice page, parsed; [None] when the fetch fails. *)
Definition fetch_notice_page (url : string) : M (option NoticePage) :=
  fun w => (web E (fetches w) url, set_fetches w (S (fetches w))).

End Store.

End Database.

(** ** [modules/alerts.py] *)

Module Alerts.
Import PyStr Calendar Database.
Local Open Scope Z_scope.

Definition nl : string := String 10 "".

(** [x or d] for a text value that may be [None]. *)
Definition or_default (o : option string) (d : string) : string :=
  match o with
  | Some s => if nonempty s then s else d
  | None => d
  end.

(** The message of the immediate path. *)
Definition notice_message (source title link : string) (d : option date)
  : string :=
  "📢 New [" ++ source ++ "] Notice:" ++ nl ++ title ++ nl ++ link ++ nl
  ++ "🗓 " ++ str_date_opt d.

Section Alerts.
Variable E : Env.

(** The two filters of the loop of [notify_if_matches]: [true] when the
    alert is skipped ([continue]). *)
Definition source_rejects (alert_source source : string) : bool :=
  nonempty alert_source && negb (String.eqb alert_source source).

Definition keyword_rejects (kw t_title : string) : bool :=
  nonempty kw && negb (contains t_title (lower (ucd E) kw)).

(** The alert filter of the immediate path, on an alert and a notice. *)
Definition matches (a : Alert) (n : Notice) : bool :=
  negb (source_rejects (upper (ucd E) (or_empty (a_source a)))
          (upper (ucd E) (or_empty (n_source n))))
  && negb (keyword_rejects (strip (ucd E) (or_empty (a_keyword a)))
             (lower (ucd E) (or_empty (n_title n)))).

Definition get_active_alerts : M (list Alert) :=
  rows <- run_query_fetch E select_active_alerts ;;
  ret (or_nil rows).

Definition already_sent (alert_id notice_id : Z) : M bool :=
  res <- run_query_fetch E (select_sent alert_id notice_id) ;;
  ret (found res).

Definition mark_sent (alert_id notice_id : Z) : M unit :=
  run_query E (insert_sent E alert_id notice_id).

(** A channel's send function: the call is recorded with its result. *)
Definition send (channel : string) (to : option string) (text : string)
  : M bool :=
  fun w =>
    let ok := send_ok E (List.length (outbox w)) in
    (ok, set_outbox w (outbox w ++ [mkDelivery channel to text ok])).

Definition send_whatsapp : option string -> string -> M bool := send "whatsapp".
Definition send_telegram : option string -> string -> M bool := send "telegram".

(** The body of the loop of [notify_if_matches] for one alert. *)
Definition notify_alert (notice_id : Z) (source t_title message : string)
    (a : Alert) : M unit :=
  let alert_source := upper (ucd E) (or_empty (a_source a)) in
  if source_rejects alert_source source then ret tt else
  let kw := strip (ucd E) (or_empty (a_keyword a)) in
  if keyword_rejects kw t_title then ret tt else
  let freq := or_default (a_frequency a) "immediate" in
  if negb (String.eqb freq "immediate") then ret tt else
  let alert_id := a_id a in
  dup <- already_sent alert_id notice_id ;;
  if dup then ret tt else
  let user_ident := a_user_identifier a in
  let channel := a_channel a in
  sent <- (if col_eqb channel "whatsapp" then send_whatsapp user_ident message
           else if col_eqb channel "telegram" then send_telegram user_ident message
           else ret false) ;;
  if sent then mark_sent alert_id notice_id else ret tt.

Definition notify_if_matches (notice_row : Notice) : M unit :=
  let notice_id := n_id notice_row in
  let title := or_empty (n_title notice_row) in
  let link := or_empty (n_link notice_row) in
  let source := upper (ucd E) (or_empty (n_source notice_row)) in
  let message := notice_message source title link (n_date notice_row) in
  active_alerts <- get_active_alerts ;;
  let t_title := lower (ucd E) title in
  for_each (notify_alert notice_id source t_title message) active_alerts.

End Alerts.

End Alerts.

(** ** [modules/scraper_ptu.py] *)

Module ScraperPtu.
Import PyStr Re Calendar Strptime Html Database Alerts.
Local Open Scope Z_scope.

Definition PTU_BASE : string := "https://ptu.ac.in".
Definition MAX_AGE_DAYS : Z := 30.
Definition MAX_ROWS : nat := 100.

Section Run.
Variable E : Env.

(** [\d{lo,hi}] and [\s+], with the tables of the interpreter. *)
Definition d (lo hi : nat) : re := digits (ucd E) lo hi.
Definition s1 : re := spaces1 (ucd E).

Definition date_regexes : list re :=
  [ (* \b(\d{1,2})[/-](\d{1,2})[/-](\d{4})\b *)
    seqs [Bnd; Grp (d 1 2); one_of "/-"; Grp (d 1 2); one_of "/-";
          Grp (d 4 4); Bnd];
    (* \b(\d{1,2})\s+([A-Za-z]+)\s+(\d{4})\b *)
    seqs [Bnd; Grp (d 1 2); s1; Grp (Rep is_alpha 1 None); s1; Grp (d 4 4);
          Bnd];
    (* \b(\d{4})[/-](\d{1,2})[/-](\d{1,2})\b *)
    seqs [Bnd; Grp (d 4 4); one_of "/-"; Grp (d 1 2); one_of "/-";
          Grp (d 1 2); Bnd] ].

Definition date_regex (i : nat) : re := nth i date_regexes Eps.

(** [a], or [b] when [a] gave nothing. *)
Definition or_else {A} (a b : option A) : option A :=
  match a with Some x => Some x | None => b end.

Definition try_parse_date (text : string) : option date :=
  if negb (nonempty text) then None else
  let t := strip (ucd E) text in
  or_else
    (match search (ucd E) (date_regex 0) t with
     | Some m =>
         let d := zfill 2 (group m 1) ++ "-" ++ zfill 2 (group m 2) ++ "-"
                  ++ group m 3 in
         strptime (ucd E) d "%d-%m-%Y"
     | None => None
     end)
  (or_else
    (match search (ucd E) (date_regex 1) t with
     | Some m =>
         or_else (strptime (ucd E) (group0 m) "%d %B %Y")
                 (strptime (ucd E) (group0 m) "%d %b %Y")
     | None => None
     end)
  (or_else
    (match search (ucd E) (date_regex 2) t with
     | Some m => strptime (ucd E) (group0 m) "%Y-%m-%d"
     | None => None
     end)
    (first_format (ucd E) t
       ["%d-%m-%Y"; "%d/%m/%Y"; "%d %b %Y"; "%d %B %Y"; "%Y-%m-%d"]))).

Definition has_date (td : Cell) : bool :=
  match try_parse_date (cell_text td) with Some _ => true | None => false end.

(** The position of the first cell that holds a date. *)
Fixpoint find_date_td (cells : list Cell) (i : nat) : option nat :=
  match cells with
  | [] => None
  | td :: cells' => if has_date td then Some i else find_date_td cells' (S i)
  end.

Definition is_td (i : nat) (date_td : option nat) : bool :=
  match date_td with Some j => (i =? j)%nat | None => false end.

(** The cell with the longest text, the date cell left out; the first one
    among cells of one length. *)
Fixpoint pick_candidate (cells : list Cell) (i : nat) (date_td : option nat)
    (max_len : nat) (candidate : option Cell) : option Cell :=
  match cells with
  | [] => candidate
  | td :: cells' =>
      if is_td i date_td then
        pick_candidate cells' (S i) date_td max_len candidate
      else if (max_len <? String.length (cell_text td))%nat then
        pick_candidate cells' (S i) date_td (String.length (cell_text td))
          (Some td)
      else pick_candidate cells' (S i) date_td max_len candidate
  end.

(** Truthiness of a link that may be [None]. *)
Definition truthy (o : option string) : bool := nonempty (or_empty o).

Definition likely_notice (href : string) : bool :=
  contains (lower (ucd E) href) "notice" || endswith (lower (ucd E) href) ".pdf"
  || startswith href "http".

Fixpoint first_date (texts : list string) : option date :=
  match texts with
  | [] => None
  | t :: texts' => or_else (try_parse_date t) (first_date texts')
  end.

Definition best_title_and_link_from_row (tr : Row)
  : option string * option string * option date :=
  match tds tr with
  | [] => (None, None, None)
  | cells =>
      let date_td := find_date_td cells 0 in
      let candidate := pick_candidate cells 0 date_td 0 None in
      let title := option_map cell_text candidate in
      let link :=
        match candidate with
        | Some td => hd_error (cell_hrefs td)
        | None => None
        end in
      let link :=
        if truthy link then link else
        let anchors := row_hrefs tr in
        let link := or_else (find likely_notice anchors) link in
        if truthy link then link
        else match anchors with
             | first :: _ => Some first
             | [] => link
             end in
      let date_val :=
        match date_td with
        | Some j => try_parse_date (cell_text (nth j cells (mkCell "" [])))
        | None => None
        end in
      let date_val :=
        match date_val with
        | Some d => Some d
        | None => first_date (map cell_text cells)
        end in
      (title, link, date_val)
  end.

(** What [run] gets from the network: nothing, or the parsed page with the
    rows of its first table, if it has one. *)
Inductive page : Type :=
| FetchFailed
| Parsed (table : option (list Row)).

(** The end of the loop body of [run]: the duplicate check, the insert and
    the notification for a row that passed the filters.  The result tells
    whether the row was counted as saved. *)
Definition check_and_insert (title link : string) (date_val : date) : M bool :=
  existing <- run_query_fetch E (select_by_link_or_title link title) ;;
  if found existing then ret false else
  run_query E (insert_notice title link date_val "PTU") ;;;
  res <- run_query_fetch E (select_by_link link) ;;
  match res with
  | Some (nid :: _) =>
      notify_if_matches E
        (mkNotice nid (Some title) (Some link) (Some date_val) (Some "PTU")) ;;;
      ret true
  | _ => ret true
  end.

(** The loop body of [run] for one table row. *)
Definition process_row (limit_date : date) (tr : Row) : M bool :=
  let '(title, link, date_val) := best_title_and_link_from_row tr in
  match title with
  | None => ret false
  | Some title =>
      if negb (nonempty title) || String.eqb (strip (ucd E) title) ""
      then ret false
      else if negb (truthy link) then ret false
      else
        let link := urljoin E PTU_BASE (or_empty link) in
        match date_val with
        | None => ret false
        | Some date_val =>
            if date_ltb date_val limit_date then ret false
            else check_and_insert title link date_val
        end
  end.

(** [for tr in data_rows], counting the rows saved. *)
Fixpoint scan_rows (limit_date : date) (rows : list Row) (saved : nat)
  : M nat :=
  match rows with
  | [] => ret saved
  | tr :: rows' =>
      ok <- process_row limit_date tr ;;
      scan_rows limit_date rows' (if ok then S saved else saved)
  end.

(** [run()], on the page it fetched; the result is the number of notices
    saved, [None] when the run stopped before the scan.  An overflow of the
    date subtraction leaves the run like the other early exits. *)
Definition run (fetched : page) : M (option nat) :=
  match fetched with
  | FetchFailed => ret None
  | Parsed None => ret None
  | Parsed (Some rows) =>
      if (List.length rows <=? 1)%nat then ret None else
      let data_rows := firstn MAX_ROWS (skipn 1 rows) in
      t <- now E ;;
      match sub_days (dt_date t) MAX_AGE_DAYS with
      | None => ret None
      | Some limit_date =>
          saved <- scan_rows limit_date data_rows 0 ;;
          ret (Some saved)
      end
  end.

End Run.

End ScraperPtu.

(** ** [modules/scraper_gndec.py] *)

Module ScraperGndec.
Import PyStr Re Calendar Strptime Html Database Alerts.
Local Open Scope Z_scope.

Definition GNDEC_URL : string := "https://erp.gndec.ac.in/notice".

Definition or_else {A} (a b : option A) : option A :=
  match a with Some x => Some x | None => b end.

Section Extract.
Variable E : Env.

(** [\d{lo,hi}], [\s+] and [\s*], with the tables of the interpreter. *)
Definition d (lo hi : nat) : re := digits (ucd E) lo hi.
Definition s1 : re := spaces1 (ucd E).
Definition s0 : re := spaces0 (ucd E).

Definition patterns : list re :=
  [ (* (\d{1,2}\s+[A-Za-z]{3,9}\s+\d{4}) *)
    Grp (seqs [d 1 2; s1; Rep is_alpha 3 (Some 9%nat); s1; d 4 4]);
    (* (\d{1,2}-\d{1,2}-\d{4}) *)
    Grp (seqs [d 1 2; lit "-"; d 1 2; lit "-"; d 4 4]);
    (* (\d{4}-\d{1,2}-\d{1,2}) *)
    Grp (seqs [d 4 4; lit "-"; d 1 2; lit "-"; d 1 2]);
    (* (\d{1,2}/\d{1,2}/\d{4}) *)
    Grp (seqs [d 1 2; lit "/"; d 1 2; lit "/"; d 4 4]);
    (* ([A-Za-z]{3,9}\s+\d{1,2},\s*\d{4}) *)
    Grp (seqs [Rep is_alpha 3 (Some 9%nat); s1; d 1 2; lit ","; s0; d 4 4]) ].

Definition formats : list string :=
  ["%d %B %Y"; "%d-%m-%Y"; "%Y-%m-%d"; "%d/%m/%Y"; "%B %d, %Y"; "%b %d, %Y";
   "%d %b %Y"].

Fixpoint try_patterns (pats : list re) (text : string) : option date :=
  match pats with
  | [] => None
  | pat :: pats' =>
      match search (ucd E) pat text with
      | Some m =>
          or_else (first_format (ucd E) (group m 1) formats)
            (try_patterns pats' text)
      | None => try_patterns pats' text
      end
  end.

Definition try_extract_date_from_text (text : string) : option date :=
  if negb (nonempty text) then None else try_patterns patterns text.

(** [a or b] on text that may be [None]. *)
Definition or_text (a : option string) (b : string) : string :=
  match a with
  | Some s => if nonempty s then s else b
  | None => b
  end.

Definition meta_names : list (string * string) :=
  [("property", "article:published_time"); ("name", "pubdate");
   ("name", "publish-date"); ("name", "publish_date");
   ("property", "og:published_time")].

Fixpoint meta_date (p : NoticePage) (names : list (string * string))
  : option date :=
  match names with
  | [] => None
  | (attr, v) :: names' =>
      match find_meta p attr v with
      | Some tag =>
          let val :=
            or_text (meta_content tag) (or_text (meta_value tag) (meta_text tag)) in
          or_else (try_extract_date_from_text val) (meta_date p names')
      | None => meta_date p names'
      end
  end.

(** [" ".join(classes)]. *)
Fixpoint join_blank (ws : list string) : string :=
  match ws with
  | [] => ""
  | [w] => w
  | w :: ws' => w ++ " " ++ join_blank ws'
  end.

Definition date_like_class (classes : list string) : bool :=
  let cl := lower (ucd E) (join_blank classes) in
  existsb (contains cl) ["date"; "posted"; "publish"; "time"; "meta"].

Fixpoint block_date (blocks : list (list string * string)) : option date :=
  match blocks with
  | [] => None
  | (classes, text) :: blocks' =>
      if date_like_class classes then
        or_else (try_extract_date_from_text text) (block_date blocks')
      else block_date blocks'
  end.

(** The date read off a fetched notice page. *)
Definition date_of_page (p : NoticePage) : option date :=
  or_else
    (match time_tag p with
     | Some (attr, text) => try_extract_date_from_text (or_text attr text)
     | None => None
     end)
  (or_else (meta_date p meta_names)
  (or_else (block_date (text_blocks p))
     (try_extract_date_from_text (page_text p)))).

Definition selectors : list string :=
  ["table tbody tr td a"; "div.noticeboard_list a"; "div.notice a";
   "ul.notice-list a"; "div.card a"; "div.page a[href*='/notice/']";
   "a[href*='notice']"; "a[href*='/notice/']"; ".post .entry-title a";
   ".widget_recent_entries a"].

Definition non_navigable (href : string) : bool :=
  startswith (lower (ucd E) href) "javascript:"
  || startswith (lower (ucd E) href) "mailto:".

(** The date found next to a link: the first of at most four elements of
    its parent whose text holds one. *)
Fixpoint first_date (texts : list string) : option date :=
  match texts with
  | [] => None
  | t :: texts' => or_else (try_extract_date_from_text t) (first_date texts')
  end.

Definition nearby_date (a : Anchor) : option date :=
  first_date (firstn 4 (anchor_nearby a)).

Definition item : Type := (string * string * option date)%type.

(** What one anchor found by a selector adds to [notices]. *)
Definition from_selected (base_url : string) (a : Anchor) : list item :=
  let title := anchor_text a in
  match anchor_href a with
  | None => []
  | Some href =>
      if negb (nonempty title) || negb (nonempty href) then []
      else if non_navigable href then []
      else [(title, urljoin E base_url href, nearby_date a)]
  end.

(** The heuristic of the fallback pass. *)
Definition looks_like_notice (text href : string) : bool :=
  (30 <? String.length text)%nat || contains (lower (ucd E) href) "pdf"
  || contains (lower (ucd E) href) "notice"
  || contains (lower (ucd E) href) "circular".

(** What one anchor of the fallback pass adds to [notices]. *)
Definition from_fallback (base_url : string) (a : Anchor) : list item :=
  let text := anchor_text a in
  match anchor_href a with
  | None => []
  | Some href =>
      if negb (nonempty text) then []
      else if looks_like_notice text href then
        if non_navigable href then []
        else [(text, urljoin E base_url href, None)]
      else []
  end.

(** The loop over the selectors: [inl] is the list returned from inside
    the loop, [inr] the list [notices] when the loop runs out. *)
Fixpoint scan_selectors (soup : Soup) (base_url : string) (sels : list string)
    (notices : list item) : list item + list item :=
  match sels with
  | [] => inr notices
  | sel :: sels' =>
      match select soup sel with
      | [] => scan_selectors soup base_url sels' notices
      | found =>
          let notices := (notices ++ flat_map (from_selected base_url) found)%list in
          match notices with
          | _ :: _ => inl notices
          | [] => scan_selectors soup base_url sels' notices
          end
      end
  end.

Definition extract_notices_from_soup (soup : Soup) (base_url : string)
  : list item :=
  match scan_selectors soup base_url selectors [] with
  | inl notices => notices
  | inr notices =>
      (notices ++ flat_map (from_fallback base_url) (find_all_a_href soup))%list
  end.

Definition get_notice_date_from_page (url : string) : M (option date) :=
  html <- fetch_notice_page E url ;;
  match html with
  | None => ret None
  | Some p => ret (date_of_page p)
  end.

(** The loop body of [save_notices] for one item; the result tells whether
    the item was counted as saved. *)
Definition save_item (it : item) : M bool :=
  let '(title, href, date_hint) := it in
  existing <- run_query_fetch E (select_by_link_or_title href title) ;;
  if found existing then ret false else
  date_val <-
    match date_hint with
    | Some d => ret d
    | None =>
        page_date <- get_notice_date_from_page href ;;
        match page_date with
        | Some d => ret d
        | None => t <- now E ;; ret (dt_date t)
        end
    end ;;
  run_query E (insert_notice title href date_val "GNDEC") ;;;
  res <- run_query_fetch E (select_by_link href) ;;
  match res with
  | Some (nid :: _) =>
      notify_if_matches E
        (mkNotice nid (Some title) (Some href) (Some date_val) (Some "GNDEC")) ;;;
      ret true
  | _ => ret true
  end.

Fixpoint save_notices_from (notice_items : list item) (saved : nat) : M nat :=
  match notice_items with
  | [] => ret saved
  | it :: items' =>
      ok <- save_item it ;;
      save_notices_from items' (if ok then S saved else saved)
  end.

Definition save_notices (notice_items : list item) : M nat :=
  save_notices_from notice_items 0.

(** [run()], on the page [find_valid_page] obtained; the result is the
    number of notices saved, [None] when the run stopped early. *)
Definition run (page : option Soup) : M (option nat) :=
  match page with
  | None => ret None
  | Some soup =>
      match extract_notices_from_soup soup GNDEC_URL with
      | [] => ret None
      | items => saved <- save_notices items ;; ret (Some saved)
      end
  end.

End Extract.

End ScraperGndec.

(** ** [scheduler.py] *)

Module Scheduler.
Import PyStr Calendar Html Database Alerts.
Local Open Scope Z_scope.

Definition digest_header : string :=
  "ðŸ“¬ Daily Digest â€” matching notices:" ++ nl ++ nl.

Definition digest_line (m : Notice) : string :=
  "- " ++ str_opt (n_title m) ++ nl ++ str_opt (n_link m) ++ nl
  ++ "ðŸ—“ " ++ str_date_opt (n_date m) ++ nl ++ nl.

(** The text of a digest: the header, then one entry per notice. *)
Definition digest_text (matched : list Notice) : string :=
  fold_left (fun text m => text ++ digest_line m) matched digest_header.

Section Jobs.
Variable E : Env.

(** The filters of the matching loop of [daily_digest]: [true] when the
    notice passes both. *)
Definition matches (a : Alert) (n : Notice) : bool :=
  let kw := lower (ucd E) (strip (ucd E) (or_empty (a_keyword a))) in
  let alert_source := upper (ucd E) (or_empty (a_source a)) in
  let n_source := upper (ucd E) (or_empty (n_source n)) in
  negb (nonempty alert_source && negb (String.eqb alert_source n_source))
  && negb (nonempty kw
           && negb (contains (lower (ucd E) (or_empty (n_title n))) kw)).

(** The scraping job: the PTU scraper, then the GNDEC scraper. *)
Definition run_all_scrapers (ptu : ScraperPtu.page) (gndec : option Soup)
  : M unit :=
  ScraperPtu.run E ptu ;;;
  ScraperGndec.run E gndec ;;;
  ret tt.

Definition fetch_recent_notices (since_date : date) : M (list Notice) :=
  rows <- run_query_fetch E (select_recent since_date) ;;
  ret (or_nil rows).

(** The matching loop for one alert: the notices that pass the filters and
    are not recorded as sent. *)
Fixpoint collect_matched (a : Alert) (recent_notices : list Notice)
  : M (list Notice) :=
  match recent_notices with
  | [] => ret []
  | n :: rest =>
      if negb (matches a n) then collect_matched a rest
      else
        dup <- already_sent E (a_id a) (n_id n) ;;
        if dup then collect_matched a rest
        else
          matched <- collect_matched a rest ;;
          ret (n :: matched)
  end.

(** The body of the loop over the daily alerts. *)
Definition digest_alert (recent_notices : list Notice) (a : Alert) : M unit :=
  let aid := a_id a in
  let user_ident := a_user_identifier a in
  let channel := a_channel a in
  matched <- collect_matched a recent_notices ;;
  match matched with
  | [] => ret tt
  | _ =>
      let text := digest_text matched in
      sent <- (if col_eqb channel "telegram"
               then send_telegram E user_ident text
               else if col_eqb channel "whatsapp"
               then send_whatsapp E user_ident text
               else ret false) ;;
      if sent then for_each (fun m => mark_sent E aid (n_id m)) matched
      else ret tt
  end.

(** [daily_digest()].  An overflow of the date subtraction leaves the job
    before its first query. *)
Definition daily_digest : M unit :=
  t <- now E ;;
  match datetime_sub_days_date t 1 with
  | None => ret tt
  | Some since =>
      rows <- run_query_fetch E select_daily_alerts ;;
      match or_nil rows with
      | [] => ret tt
      | daily =>
          recent_notices <- fetch_recent_notices since ;;
          match recent_notices with
          | [] => ret tt
          | _ => for_each (digest_alert recent_notices) daily
          end
      end
  end.

End Jobs.

End Scheduler.

(** ** The properties, in the words of the specification *)

Module Spec.
Import PyStr Calendar Html Database.
Local Open Scope Z_scope.

(** A filter that is absent or empty. *)
Definition absent_or_empty (o : option string) : Prop :=
  o = None \/ o = Some "".

Section Matching.
Variable E : Env.

(** Equality and containment of text without regard to case: the texts
    are equal once put in upper case, the one occurs in the other once
    both are put in lower case. *)
Definition equal_ignoring_case (s t : string) : Prop :=
  upper (ucd E) s = upper (ucd E) t.

Definition substring_ignoring_case (k t : string) : Prop :=
  exists pre post, lower (ucd E) t = pre ++ lower (ucd E) k ++ post.

(** The matcher as the specification words it: the keyword is compared as
    it is stored. *)
Definition matches_as_stated (a : Alert) (n : Notice) : Prop :=
  (absent_or_empty (a_source a)
   \/ equal_ignoring_case (or_empty (a_source a)) (or_empty (n_source n)))
  /\ (absent_or_empty (a_keyword a)
      \/ substring_ignoring_case (or_empty (a_keyword a)) (or_empty (n_title n))).

(** The matcher with the keyword taken without the white space around it. *)
Definition matches_stripped (a : Alert) (n : Notice) : Prop :=
  (absent_or_empty (a_source a)
   \/ equal_ignoring_case (or_empty (a_source a)) (or_empty (n_source n)))
  /\ (strip (ucd E) (or_empty (a_keyword a)) = ""
      \/ substring_ignoring_case (strip (ucd E) (or_empty (a_keyword a)))
           (or_empty (n_title n))).

End Matching.

(** An alert whose channel is one of the two channels of the data model. *)
Definition known_channel (a : Alert) : Prop :=
  a_channel a = Some "telegram" \/ a_channel a = Some "whatsapp".

(** The environment in which every query is served. *)
Definition store_up (E : Env) : Prop := forall k, db_up E k = true.

(** The send an alert would get in world [w] fails: its channel is not a
    known one, or the channel reports failure. *)
Definition send_fails (E : Env) (a : Alert) (w : World) : Prop :=
  ~ known_channel a \/ send_ok E (List.length (outbox w)) = false.

(** Nothing but the ledger, the outbox and the query count differs. *)
Definition same_store (w w' : World) : Prop :=
  notices w' = notices w /\ alerts w' = alerts w /\ next_id w' = next_id w
  /\ fetches w' = fetches w /\ clock_reads w' = clock_reads w.

(** A delivery that backs a ledger record of alert [a]: a successful send
    of [text] to the alert's recipient over the alert's channel. *)
Definition backs (a : Alert) (text : string) (d : Delivery) : Prop :=
  d_ok d = true /\ d_to d = a_user_identifier a
  /\ a_channel a = Some (d_channel d) /\ d_text d = text.

(** The step of one alert from [w] to [w']: the ledger is as it was, or
    the step made one send, a successful one of [text] to alert [a], and
    the records it appended to the ledger pair [a] with notices among
    [nids]. *)
Definition records_after_send (a : Alert) (text : string) (nids : list Z)
    (w w' : World) : Prop :=
  alerts_sent w' = alerts_sent w
  \/ exists d added,
       outbox w' = (outbox w ++ [d])%list /\ backs a text d
       /\ alerts_sent w' = (alerts_sent w ++ added)%list
       /\ forall p, In p added -> fst p = a_id a /\ In (snd p) nids.

(** The text the immediate path sends for notice [n]. *)
Definition announcement (E : Env) (n : Notice) : string :=
  Alerts.notice_message (upper (ucd E) (or_empty (n_source n)))
    (or_empty (n_title n)) (or_empty (n_link n)) (n_date n).

(** What a text sent to alert [a] has to do with the notice [nid].  In the
    immediate path for notice [n]: [nid] is [n] and the text is the
    announcement of [n].  In the daily path: the text is the digest of
    stored notices that match the alert, the notice [nid] among them. *)
Definition announces (E : Env) (n : Notice) (a : Alert) (nid : Z)
    (text : string) : Prop :=
  nid = n_id n /\ text = announcement E n.

Definition digests (E : Env) (w : World) (a : Alert) (nid : Z)
    (text : string) : Prop :=
  exists matched,
    text = Scheduler.digest_text matched
    /\ In nid (map n_id matched)
    /\ forall m, In m matched ->
         In m (notices w) /\ Scheduler.matches E a m = true.

(** From [w] to [w'] the outbox grew by [new] and the ledger by [added],
    and every record added pairs an alert of the store with a notice for
    which [new] holds a successful delivery to that alert, of a text that
    is about that notice. *)
Definition ledger_backed (about : Alert -> Z -> string -> Prop)
    (w w' : World) : Prop :=
  exists new added,
    outbox w' = (outbox w ++ new)%list
    /\ alerts_sent w' = (alerts_sent w ++ added)%list
    /\ forall p, In p added ->
         exists a d text,
           In a (alerts w) /\ a_id a = fst p /\ In d new
           /\ backs a text d /\ about a (snd p) text.

(** The pair (alert, notice) is recorded in the ledger. *)
Definition recorded (w : World) (aid nid : Z) : bool :=
  existsb (pair_eqb (aid, nid)) (alerts_sent w).

(** The store holds a notice with this link or with this title. *)
Definition stored (w : World) (title link : string) : Prop :=
  exists n, In n (notices w) /\ (n_link n = Some link \/ n_title n = Some title).

(** The world after a query that changed nothing. *)
Definition after_query (w : World) : World := set_queries w (S (queries w)).

(** The recent notices that match alert [a] and are not recorded as sent
    to it in world [w]. *)
Definition pending_for (E : Env) (a : Alert) (recent : list Notice)
    (w : World) : list Notice :=
  filter
    (fun n => Scheduler.matches E a n && negb (recorded w (a_id a) (n_id n)))
    recent.

(** The world of the daily job once the clock and its two queries are
    read. *)
Definition digest_start (w : World) : World :=
  set_queries (set_clock_reads w (S (clock_reads w))) (S (S (queries w))).

(** The digest rule as the specification words it, for one alert reached
    in world [w1]: an empty set of pending notices means no message; a
    non-empty set means one more message in the outbox and, when its send
    succeeded, a ledger record for every notice of the set. *)
Definition digest_rule_as_stated (E : Env) (recent : list Notice) (a : Alert)
    (w1 : World) : Prop :=
  let w2 := snd (Scheduler.digest_alert E recent a w1) in
  let pending := pending_for E a recent w1 in
  (pending = [] -> outbox w2 = outbox w1)
  /\ (pending <> [] ->
      exists d,
        outbox w2 = (outbox w1 ++ [d])%list
        /\ (d_ok d = true ->
            forall m, In m pending -> In (a_id a, n_id m) (alerts_sent w2))).

(** Seconds from the start of the calendar to an instant, and to the
    midnight that opens a day. *)
Definition instant (t : datetime) : Z :=
  toordinal (dt_date t) * 86400 + dt_seconds t.

Definition day_start (d : date) : Z := toordinal d * 86400.

(** The day [d] has an instant in the 24 hours that end at [t]. *)
Definition within_prior_24h (t : datetime) (d : date) : bool :=
  (day_start d <=? instant t) && (instant t - 86400 <? day_start d + 86400).

(** The candidates of a digest run as the specification words them: the
    stored notices whose date falls within the prior 24 hours. *)
Definition candidates_as_stated (E : Env) (w : World) (since : date) : Prop :=
  forall n,
    In n (select_recent since w)
    <-> In n (notices w)
        /\ exists d, n_date n = Some d
                     /\ within_prior_24h (clock E (clock_reads w)) d = true.



End Spec.

(** ** Sample data *)

Module Sample.
Import PyStr Calendar Html Database.
Local Open Scope Z_scope.

(** A simple join: an absolute link stays, a path is put after the base. *)
Definition join (base link : string) : string :=
  if startswith link "http" then link else base ++ link.

(** A Unicode database that knows nothing above the ASCII range: every
    code point there is an uncased symbol. *)
Definition split_first (s : string) : char * string :=
  match s with
  | String c s' => (c, s')
  | EmptyString => (0%N, EmptyString)
  end.

Definition basic_latin : Unicode :=
  mkUnicode (fun _ => false) (fun _ => None) (fun _ => false) split_first
    split_first (fun a c => N.eqb a c).

(** A Unicode database that knows, above the ASCII range, the no-break
    space, the letters of Latin-1 with their case, and the full-width
    digits. *)
Definition latin1_upper (c : char) : bool :=
  between 192 214 c || between 216 222 c.

Definition latin1_lower (c : char) : bool :=
  between 224 246 c || between 248 254 c.

Definition lower_wide (c : char) : char :=
  if latin1_upper c then (c + 32)%N else lower_char c.

Definition upper_wide (c : char) : char :=
  if latin1_lower c then (c - 32)%N else upper_char c.

Definition wide_digit (c : char) : option N :=
  if between 65296 65305 c then Some (c - 65296)%N else None.

Definition wide : Unicode :=
  mkUnicode (fun c => N.eqb c 160) wide_digit
    (fun c => latin1_upper c || latin1_lower c || between 65296 65305 c)
    (fun s => split_first (map_chars lower_wide s))
    (fun s => split_first (map_chars upper_wide s))
    (fun a c => N.eqb (lower_wide c) (lower_wide a)).

(** 28 December 2025, 18:00. *)
Definition evening : datetime := mkDatetime (mkDate 2025 12 28) 64800.

(** Everything works; no notice page has a date. *)
Definition env_up : Env :=
  mkEnv (fun _ => true) (fun _ => true) (fun _ _ => None) (fun _ => evening)
    join true basic_latin.

(** Everything works, with the richer Unicode database. *)
Definition env_wide : Env :=
  mkEnv (fun _ => true) (fun _ => true) (fun _ _ => None) (fun _ => evening)
    join true wide.

(** Everything works except the channels. *)
Definition env_mute : Env :=
  mkEnv (fun _ => true) (fun _ => false) (fun _ _ => None) (fun _ => evening)
    join true basic_latin.

(** The store serves the first [n] queries of a run and none after. *)
Definition env_serving (n : nat) : Env :=
  mkEnv (fun k => (k <? n)%nat) (fun _ => true) (fun _ _ => None)
    (fun _ => evening) join true basic_latin.

(** The store serves every query but the first of a run. *)
Definition env_late : Env :=
  mkEnv (fun k => (0 <? k)%nat) (fun _ => true) (fun _ _ => None)
    (fun _ => evening) join true basic_latin.

Definition alert_exam : Alert :=
  mkAlert 1 (Some "42") (Some "telegram") (Some "exam") (Some "PTU") None 1.

Definition alert_padded : Alert :=
  mkAlert 2 (Some "43") (Some "telegram") (Some "exam ") None None 1.

Definition alert_daily : Alert :=
  mkAlert 3 (Some "44") (Some "whatsapp") None None (Some "daily") 1.

Definition alert_weekly : Alert :=
  mkAlert 4 (Some "45") (Some "telegram") None None (Some "weekly") 1.

Definition notice_exam : Notice :=
  mkNotice 7 (Some "Mid-term Exam") (Some "https://ptu.ac.in/files/a.pdf")
    (Some (mkDate 2025 12 28)) (Some "PTU").

Definition notice_fees : Notice :=
  mkNotice 8 (Some "Fee notice") (Some "https://ptu.ac.in/files/b.pdf")
    (Some (mkDate 2025 12 27)) (Some "PTU").

Definition notice_future : Notice :=
  mkNotice 9 (Some "Convocation") (Some "https://ptu.ac.in/files/c.pdf")
    (Some (mkDate 2026 1 15)) (Some "PTU").

Definition empty_world : World := mkWorld [] [] [] 1 0 [] 0 0.

Definition world_immediate : World :=
  mkWorld [] [alert_exam] [] 1 0 [] 0 0.

Definition world_exam : World :=
  mkWorld [notice_exam] [alert_exam] [] 8 0 [] 0 0.

Definition world_daily : World :=
  mkWorld [notice_exam; notice_fees] [alert_daily] [] 9 0 [] 0 0.

(** The store of [world_daily] once the digest of both notices went out. *)
Definition world_digested : World :=
  mkWorld [notice_exam; notice_fees] [alert_daily] [(3, 7); (3, 8)] 9 0 [] 0
    0.

Definition world_weekly : World :=
  mkWorld [notice_exam] [alert_weekly] [] 8 0 [] 0 0.

Definition world_future : World :=
  mkWorld [notice_future] [alert_daily] [] 10 0 [] 0 0.

Definition row_boundary : Row :=
  mkRow [mkCell "28/11/2025" []; mkCell "Mid-term Exam" ["/files/a.pdf"]]
    ["/files/a.pdf"].

Definition row_old : Row :=
  mkRow [mkCell "27/11/2025" []; mkCell "Old circular" ["/files/o.pdf"]]
    ["/files/o.pdf"].

Definition row_undated : Row :=
  mkRow [mkCell "Undated circular" ["/files/u.pdf"]] ["/files/u.pdf"].

Definition anchor_image : Anchor := mkAnchor "" (Some "/docs/a.pdf") [].

Definition anchor_script : Anchor :=
  mkAnchor "Open the notice" (Some "javascript:open()") [].

Definition anchor_notice : Anchor :=
  mkAnchor "Result notice" (Some "https://erp.gndec.ac.in/notice/12")
    ["29-11-2025"].

Definition soup_bare : Soup := mkSoup (fun _ => []) [anchor_image].

Definition soup_listed : Soup :=
  mkSoup (fun sel => if String.eqb sel "div.notice a"
                     then [anchor_script; anchor_notice]
                     else if String.eqb sel "a[href*='notice']"
                     then [anchor_notice; anchor_notice]
                     else [])
    [anchor_image; anchor_notice].

End Sample.

(** ** Further notions the properties are stated with *)

Module Notions.
Import PyStr Re Calendar Html Database Alerts.
Local Open Scope Z_scope.

Section Digits.
Variable U : Unicode.


(** A pattern that cannot match without consuming a decimal digit. *)
Fixpoint needs_digit (r : re) : Prop :=
  match r with
  | Eps | Bnd => False
  | Chr p => forall c, p c = true -> is_digit U c = true
  | Seq a b => needs_digit a \/ needs_digit b
  | Alt a b => needs_digit a /\ needs_digit b
  | Rep p lo hi =>
      (1 <= lo)%nat /\ forall c, p c = true -> is_digit U c = true
  | Grp a => needs_digit a
  end.


End Digits.

(** The environment in which every send succeeds, and the one in which no
    query is served. *)
Definition channels_up (E : Env) : Prop := forall k, send_ok E k = true.

Definition store_down (E : Env) : Prop := forall k, db_up E k = false.

(** A sample environment whose store serves no query. *)
Definition env_down : Env :=
  mkEnv (fun _ => false) (fun _ => true) (fun _ _ => None)
    (fun _ => Sample.evening) Sample.join true Sample.basic_latin.

(** The length of the text of a table cell. *)
Definition text_length (td : Cell) : nat := String.length (cell_text td).

(** No two stored notices share a link, and no two share a title. *)
Definition keys_distinct (w : World) : Prop :=
  NoDup (map n_link (notices w)) /\ NoDup (map n_title (notices w)).

(** From [w] to [w'] notices were only appended, the alerts were left
    alone, the ledger lost nothing and the outbox was only appended to. *)
Definition grows (w w' : World) : Prop :=
  (exists new, notices w' = (notices w ++ new)%list)
  /\ alerts w' = alerts w
  /\ (forall p, In p (alerts_sent w) -> In p (alerts_sent w'))
  /\ (exists sent, outbox w' = (outbox w ++ sent)%list).

(** The tables and the outbox of [w'] are those of [w]. *)
Definition untouched (w w' : World) : Prop :=
  notices w' = notices w /\ alerts w' = alerts w
  /\ alerts_sent w' = alerts_sent w /\ outbox w' = outbox w.

(** From [w] to [w'] exactly [k] notices were appended, all of them with
    a title, a link, a date and the source [src]. *)
Definition adds (src : string) (k : nat) (w w' : World) : Prop :=
  exists new,
    notices w' = (notices w ++ new)%list /\ List.length new = k
    /\ forall n, In n new ->
         n_source n = Some src /\ n_title n <> None /\ n_link n <> None
         /\ n_date n <> None.

(** The number of notices a run reports as saved; a run that stopped early
    reports none. *)
Definition saved_count (r : option nat) : nat :=
  match r with Some k => k | None => O end.

(** A computation that only lets the world grow, whatever world it starts
    in. *)
Definition keeps_growing {A} (c : M A) : Prop :=
  forall w, grows w (snd (c w)).

(** The ledger of [w'] holds every record of the ledger of [w]. *)
Definition ledger_kept (w w' : World) : Prop :=
  forall p, In p (alerts_sent w) -> In p (alerts_sent w').

(** The immediate path owes alert [a] a send for the notice: the filters
    pass, the frequency is immediate, the channel is a known one and the
    pair is not in the ledger. *)
Definition due (E : Env) (nid : Z) (source t_title : string) (a : Alert)
    (w : World) : bool :=
  negb (source_rejects (upper (ucd E) (or_empty (a_source a))) source)
  && negb (keyword_rejects E (strip (ucd E) (or_empty (a_keyword a))) t_title)
  && String.eqb (or_default (a_frequency a) "immediate") "immediate"
  && (col_eqb (a_channel a) "whatsapp" || col_eqb (a_channel a) "telegram")
  && negb (existsb (pair_eqb (a_id a, nid)) (alerts_sent w)).

(** The digest owes alert [a] a message: its channel is a known one and
    some recent notice matches it and is not in the ledger. *)
Definition digest_due (E : Env) (recent : list Notice) (a : Alert) (w : World)
  : bool :=
  (col_eqb (a_channel a) "telegram" || col_eqb (a_channel a) "whatsapp")
  && existsb
       (fun n => Scheduler.matches E a n
                 && negb (existsb (pair_eqb (a_id a, n_id n)) (alerts_sent w)))
       recent.

End Notions.

(** * Properties *)

(** ** Text *)

Module TextFacts.
Import PyStr.

Lemma string_eqb_eq (s t : string) : String.eqb s t = true <-> s = t.
Proof.
  revert t. induction s as [|a s IH]; intros [|b t]; simpl;
    try (split; [discriminate | intros H; discriminate H]);
    [split; reflexivity|].
  rewrite andb_true_iff, N.eqb_eq, IH. split.
  - intros [-> ->]. reflexivity.
  - intros H. injection H as -> ->. now split.
Qed.

Lemma string_eqb_refl (s : string) : String.eqb s s = true.
Proof. now apply string_eqb_eq. Qed.

Lemma string_eqb_neq (s t : string) : String.eqb s t = false <-> s <> t.
Proof.
  rewrite <- string_eqb_eq. destruct (String.eqb s t); split; congruence.
Qed.

Lemma nonempty_false (s : string) : nonempty s = false <-> s = "".
Proof. destruct s; simpl; split; intros H; congruence. Qed.

Lemma nonempty_true (s : string) : nonempty s = true <-> s <> "".
Proof. destruct s; simpl; split; intros H; congruence. Qed.

Lemma nonempty_map_chars (f : char -> char) (s : string) :
  nonempty (map_chars f s) = nonempty s.
Proof. destruct s; reflexivity. Qed.

(** Case mapping keeps a text empty or not empty. *)
Lemma nonempty_lower (U : Unicode) (s : string) :
  nonempty (lower U s) = nonempty s.
Proof.
  unfold lower. destruct (is_ascii s) eqn:Ha; [apply nonempty_map_chars|].
  destruct s; [discriminate Ha | reflexivity].
Qed.

Lemma nonempty_upper (U : Unicode) (s : string) :
  nonempty (upper U s) = nonempty s.
Proof.
  unfold upper. destruct (is_ascii s) eqn:Ha; [apply nonempty_map_chars|].
  destruct s; [discriminate Ha | reflexivity].
Qed.

Lemma startswith_spec (s p : string) :
  startswith s p = true <-> exists post, s = p ++ post.
Proof.
  revert s; induction p as [|a p IH]; intros s.
  - split; [intros _; now exists s | intros _; destruct s; reflexivity].
  - destruct s as [|b s]; simpl.
    + split; [discriminate | intros [post H]; discriminate].
    + rewrite andb_true_iff, IH. split.
      * intros [Hab [post ->]]. apply N.eqb_eq in Hab. subst. now exists post.
      * intros [post H]. injection H as -> ->.
        split; [apply N.eqb_refl | now exists post].
Qed.

(** [contains s p] decides whether [p] occurs in [s]. *)
Lemma contains_spec (s p : string) :
  contains s p = true <-> exists pre post, s = pre ++ p ++ post.
Proof.
  induction s as [|c s IH].
  - unfold contains. rewrite orb_false_r, startswith_spec. split.
    + intros [post H]. now exists "", post.
    + intros [pre [post H]]. destruct pre; simpl in H; [now exists post|discriminate].
  - change (contains (String c s) p)
      with (startswith (String c s) p || contains s p).
    rewrite orb_true_iff, startswith_spec, IH. split.
    + intros [[post H] | [pre [post H]]].
      * now exists "", post.
      * exists (String c pre), post. simpl. now rewrite H.
    + intros [pre [post H]]. destruct pre as [|c' pre]; simpl in H.
      * left. now exists post.
      * right. injection H as _ H. now exists pre, post.
Qed.

Lemma or_empty_empty (o : option string) :
  or_empty o = "" <-> (o = None \/ o = Some "").
Proof.
  destruct o as [s|]; simpl; split; intros H.
  - right. now subst.
  - destruct H as [H|H]; congruence.
  - now left.
  - reflexivity.
Qed.

End TextFacts.
(** ** The date resolvers on the literal formats *)

Module DateFacts.
Import Calendar Database.

(** C6.  Each of the four literal formats, "28/11/2025", "28-11-2025",
    "2025-11-28" and "28 November 2025", resolves to 28 November 2025, by
    the resolver of the PTU scraper ([try_parse_date]) and by the resolver
    of the GNDEC scraper ([try_extract_date_from_text]) alike, whatever
    the interpreter's tables say above the ASCII range. *)
Theorem literal_formats_resolve_to_one_date (E : Env) :
  Forall
    (fun text =>
       ScraperPtu.try_parse_date E text = Some (mkDate 2025 11 28)
       /\ ScraperGndec.try_extract_date_from_text E text
          = Some (mkDate 2025 11 28))
    ["28/11/2025"; "28-11-2025"; "2025-11-28"; "28 November 2025"].
Proof. repeat constructor; vm_compute; reflexivity. Qed.

(** White space, word characters and digits beyond ASCII, with a Unicode
    database that knows the no-break space, the letters of Latin-1 and the
    full-width digits.  Both resolvers read a date whose parts are
    separated by no-break spaces and a year written in full-width digits.
    After a letter there is no word boundary: the PTU resolver finds no
    date in "é28/11/2025", and the GNDEC resolver, whose patterns ask for
    no boundary, does. *)
Example dates_beyond_ascii :
  let nbsp := String 160 "" in
  let spaced := "28" ++ nbsp ++ "November" ++ nbsp ++ "2025" in
  let day := Some (mkDate 2025 11 28) in
  ScraperPtu.try_parse_date Sample.env_wide spaced = day
  /\ ScraperGndec.try_extract_date_from_text Sample.env_wide spaced = day
  /\ ScraperPtu.try_parse_date Sample.env_wide "28/11/２０２５" = day
  /\ ScraperGndec.try_extract_date_from_text Sample.env_wide "28/11/２０２５"
     = day
  /\ ScraperPtu.try_parse_date Sample.env_wide "é28/11/2025" = None
  /\ ScraperGndec.try_extract_date_from_text Sample.env_wide "é28/11/2025"
     = day.
Proof. vm_compute. repeat split. Qed.

End DateFacts.

(** ** The alert matcher *)

Module MatcherFacts.
Import PyStr Database Alerts Spec TextFacts.

Section Matcher.
Variable E : Env.

Lemma source_rejects_false (a n : string) :
  source_rejects (upper (ucd E) a) (upper (ucd E) n) = false
  <-> (a = "" \/ equal_ignoring_case E a n).
Proof.
  unfold source_rejects, equal_ignoring_case.
  rewrite nonempty_upper.
  destruct (nonempty a) eqn:Ha; simpl.
  - rewrite negb_false_iff, string_eqb_eq.
    apply nonempty_true in Ha. intuition.
  - apply nonempty_false in Ha. intuition.
Qed.

Lemma keyword_rejects_false (kw title : string) :
  keyword_rejects E kw (lower (ucd E) title) = false
  <-> (kw = "" \/ substring_ignoring_case E kw title).
Proof.
  unfold keyword_rejects, substring_ignoring_case.
  rewrite <- contains_spec.
  destruct (nonempty kw) eqn:Hk; simpl.
  - rewrite negb_false_iff. apply nonempty_true in Hk. intuition.
  - apply nonempty_false in Hk. intuition.
Qed.

(** The filters of the two paths are one function. *)
Lemma daily_matches_eq (a : Alert) (n : Notice) :
  Scheduler.matches E a n = Alerts.matches E a n.
Proof.
  unfold Scheduler.matches, Alerts.matches, source_rejects, keyword_rejects.
  rewrite nonempty_lower. reflexivity.
Qed.

Lemma matches_true_iff (a : Alert) (n : Notice) :
  Alerts.matches E a n = true <-> matches_stripped E a n.
Proof.
  unfold Alerts.matches, matches_stripped.
  rewrite andb_true_iff, !negb_true_iff.
  rewrite source_rejects_false, keyword_rejects_false.
  unfold absent_or_empty. rewrite <- or_empty_empty. reflexivity.
Qed.

(** An alert the filters reject is passed over by the immediate path. *)
Lemma notify_alert_unmatched (a : Alert) (n : Notice)
    (message : string) (w : World) :
  Alerts.matches E a n = false ->
  notify_alert E (n_id n) (upper (ucd E) (or_empty (n_source n)))
    (lower (ucd E) (or_empty (n_title n))) message a w = (tt, w).
Proof.
  unfold Alerts.matches, notify_alert. intros H.
  destruct (source_rejects _ _); [reflexivity|].
  destruct (keyword_rejects _ _ _); [reflexivity|discriminate].
Qed.

End Matcher.

(** C2, as the code has it.  The matcher accepts an alert and a notice if
    and only if the source filter is absent, empty or equal to the
    notice's source without regard to case, and the keyword, taken without
    the white space around it, is empty or occurs in the title without
    regard to case.  An alert with no source and no keyword matches every
    notice; the daily digest applies the same predicate as the immediate
    path, and the immediate path passes over an alert the predicate
    rejects. *)
Theorem matcher_accepts_iff_stripped_filters (E : Env) (a : Alert) (n : Notice) :
  (Alerts.matches E a n = true <-> matches_stripped E a n)
  /\ Scheduler.matches E a n = Alerts.matches E a n
  /\ (absent_or_empty (a_source a) /\ absent_or_empty (a_keyword a)
      -> Alerts.matches E a n = true)
  /\ (Alerts.matches E a n = false ->
      forall message w,
        notify_alert E (n_id n) (upper (ucd E) (or_empty (n_source n)))
          (lower (ucd E) (or_empty (n_title n))) message a w = (tt, w)).
Proof.
  split; [apply matches_true_iff|].
  split; [apply daily_matches_eq|].
  split.
  - intros [Hs Hk]. apply matches_true_iff. split; [now left|].
    left. apply or_empty_empty in Hk. rewrite Hk. reflexivity.
  - intros H message w. now apply notify_alert_unmatched.
Qed.

(** The truth table of the specification: the alert for source "PTU" and
    keyword "exam" matches the PTU notice "Mid-term Exam Schedule" and not
    the GNDEC notice "Exam Schedule". *)
Example matcher_truth_table (E : Env) :
  Alerts.matches E Sample.alert_exam
    (mkNotice 1 (Some "Mid-term Exam Schedule") None None (Some "PTU")) = true
  /\ Alerts.matches E Sample.alert_exam
       (mkNotice 2 (Some "Exam Schedule") None None (Some "GNDEC")) = false
  /\ Alerts.matches E Sample.alert_daily
       (mkNotice 2 (Some "Exam Schedule") None None (Some "GNDEC")) = true.
Proof. vm_compute. repeat split. Qed.

(** Case and white space beyond ASCII, with a Unicode database that knows
    Latin-1: the keyword "résultat" matches the title "RÉSULTAT Exam
    2025", and a keyword padded with a no-break space is stripped. *)
Example matcher_beyond_ascii :
  let n := mkNotice 1 (Some "RÉSULTAT Exam 2025") None None (Some "PTU") in
  let accented := mkAlert 1 None (Some "telegram") (Some "résultat") None None 1 in
  let padded :=
    mkAlert 2 None (Some "telegram") (Some (String 160 "exam" ++ String 160 ""))
      (Some "ptu") None 1 in
  Alerts.matches Sample.env_wide accented n = true
  /\ Scheduler.matches Sample.env_wide accented n = true
  /\ Alerts.matches Sample.env_wide padded n = true
  /\ Scheduler.matches Sample.env_wide padded n = true.
Proof. vm_compute. repeat split. Qed.

(** C2, as stated, fails on a keyword stored with white space around it:
    the alert with keyword "exam " matches the notice "Mid-term Exam",
    whose title does not contain "exam ". *)
Lemma matcher_as_stated_fails_on_padded_keyword :
  ~ (forall E a n, Alerts.matches E a n = true <-> matches_as_stated E a n).
Proof.
  intros H.
  destruct (H Sample.env_up Sample.alert_padded Sample.notice_exam) as [H1 _].
  specialize (H1 eq_refl). destruct H1 as [_ [Hk | Hk]].
  - destruct Hk as [Hk | Hk]; discriminate Hk.
  - apply contains_spec in Hk. vm_compute in Hk. discriminate Hk.
Qed.

End MatcherFacts.

(** ** The store and the two delivery paths *)

Module DeliveryFacts.
Import PyStr Calendar Html Database Alerts Scheduler Spec TextFacts.
Local Open Scope Z_scope.

Lemma pair_eqb_eq (p q : Z * Z) : pair_eqb p q = true <-> p = q.
Proof.
  destruct p as [a b], q as [c d]. unfold pair_eqb; simpl.
  rewrite andb_true_iff, !Z.eqb_eq. split; [intros [-> ->]; reflexivity|].
  intros H; injection H as -> ->. now split.
Qed.

Lemma found_filter {A} (p : A -> bool) (l : list A) :
  found (Some (filter p l)) = existsb p l.
Proof.
  induction l as [|x l IH]; simpl; [reflexivity|].
  destruct (p x); simpl; [reflexivity | exact IH].
Qed.

Lemma col_eqb_true (c : option string) (v : string) :
  col_eqb c v = true <-> c = Some v.
Proof.
  destruct c as [s|]; simpl.
  - rewrite string_eqb_eq. split; congruence.
  - split; discriminate.
Qed.

Lemma recorded_In (w : World) (aid nid : Z) :
  recorded w aid nid = true <-> In (aid, nid) (alerts_sent w).
Proof.
  unfold recorded. rewrite existsb_exists. split.
  - intros [p [Hp He]]. apply pair_eqb_eq in He. now subst.
  - intros H. exists (aid, nid). split; [exact H | now apply pair_eqb_eq].
Qed.

Lemma In_insert_sent (E : Env) (aid nid : Z) (w : World) (p : Z * Z) :
  In p (alerts_sent (insert_sent E aid nid w))
  <-> In p (alerts_sent w) \/ p = (aid, nid).
Proof.
  unfold insert_sent.
  destruct (sent_unique E && existsb (pair_eqb (aid, nid)) (alerts_sent w))
    eqn:Hu; simpl.
  - apply andb_true_iff in Hu. destruct Hu as [_ Hu].
    apply (recorded_In w) in Hu. split; [now left|].
    intros [H | ->]; assumption.
  - rewrite in_app_iff. simpl. intuition.
Qed.

Lemma insert_sent_ledger (E : Env) (aid nid : Z) (w : World) :
  alerts_sent (insert_sent E aid nid w) = alerts_sent w
  \/ alerts_sent (insert_sent E aid nid w)
     = (alerts_sent w ++ [(aid, nid)])%list.
Proof.
  unfold insert_sent. destruct (sent_unique E && _); [now left | now right].
Qed.

Lemma insert_sent_same_store (E : Env) (aid nid : Z) (w : World) :
  same_store w (insert_sent E aid nid w)
  /\ outbox (insert_sent E aid nid w) = outbox w
  /\ queries (insert_sent E aid nid w) = queries w.
Proof.
  unfold insert_sent, same_store.
  destruct (sent_unique E && _); simpl; intuition.
Qed.

Lemma same_store_refl (w : World) : same_store w w.
Proof. unfold same_store; intuition. Qed.

Lemma same_store_trans (w1 w2 w3 : World) :
  same_store w1 w2 -> same_store w2 w3 -> same_store w1 w3.
Proof. unfold same_store; intuition congruence. Qed.

Section Backed.
Variable about : Alert -> Z -> string -> Prop.

Lemma ledger_backed_refl (w : World) : ledger_backed about w w.
Proof.
  exists [], []. rewrite !app_nil_r.
  split; [reflexivity|]. split; [reflexivity | contradiction].
Qed.

(** A step that left outbox and ledger alone. *)
Lemma ledger_backed_quiet (w w' : World) :
  outbox w' = outbox w -> alerts_sent w' = alerts_sent w ->
  ledger_backed about w w'.
Proof.
  intros Ho Hl. exists [], []. rewrite !app_nil_r.
  split; [exact Ho|]. split; [exact Hl | contradiction].
Qed.

Lemma ledger_backed_trans (w1 w2 w3 : World) :
  alerts w2 = alerts w1 ->
  ledger_backed about w1 w2 -> ledger_backed about w2 w3 ->
  ledger_backed about w1 w3.
Proof.
  intros Ha [n1 [a1 [H1 [L1 B1]]]] [n2 [a2 [H2 [L2 B2]]]].
  exists (n1 ++ n2)%list, (a1 ++ a2)%list. split; [|split].
  - rewrite H2, H1. now rewrite app_assoc.
  - rewrite L2, L1. now rewrite app_assoc.
  - intros p Hp. apply in_app_iff in Hp. destruct Hp as [Hp | Hp].
    + destruct (B1 p Hp) as [a [d [text [Hal [Hid [Hd Hb]]]]]].
      exists a, d, text. rewrite in_app_iff. intuition.
    + destruct (B2 p Hp) as [a [d [text [Hal [Hid [Hd Hb]]]]]].
      exists a, d, text. rewrite in_app_iff, <- Ha. intuition.
Qed.

(** The step of one alert, seen from the whole ledger. *)
Lemma records_backed (a : Alert) (text : string) (nids : list Z)
    (w w' : World) :
  In a (alerts w) ->
  (forall nid, In nid nids -> about a nid text) ->
  (alerts_sent w' = alerts_sent w -> exists new, outbox w' = (outbox w ++ new)%list) ->
  records_after_send a text nids w w' ->
  ledger_backed about w w'.
Proof.
  intros Ha Hab Hout [Hl | [d [added [Ho [Hb [Hl Hin]]]]]].
  - destruct (Hout Hl) as [new Hn]. exists new, []. rewrite app_nil_r.
    split; [exact Hn|]. split; [exact Hl | contradiction].
  - exists [d], added. split; [exact Ho|]. split; [exact Hl|].
    intros p Hp. destruct (Hin p Hp) as [Hf Hs].
    exists a, d, text. split; [exact Ha|]. split; [now symmetry|].
    split; [now left|]. split; [exact Hb | now apply Hab].
Qed.

End Backed.

(** *** The primitives *)

Lemma already_sent_run (E : Env) (aid nid : Z) (w : World) :
  already_sent E aid nid w
  = (db_up E (queries w) && recorded w aid nid,
     set_queries w (S (queries w))).
Proof.
  unfold already_sent, bind, run_query_fetch, ret.
  destruct (db_up E (queries w)); cbn [fst snd andb]; [|reflexivity].
  unfold recorded, select_sent. now rewrite found_filter.
Qed.

Lemma get_active_alerts_run (E : Env) (w : World) :
  get_active_alerts E w
  = (if db_up E (queries w) then select_active_alerts w else [],
     set_queries w (S (queries w))).
Proof.
  unfold get_active_alerts, bind, run_query_fetch, ret.
  destruct (db_up E (queries w)); reflexivity.
Qed.

Lemma mark_sent_run (E : Env) (aid nid : Z) (w : World) :
  snd (mark_sent E aid nid w)
  = set_queries (if db_up E (queries w) then insert_sent E aid nid w else w)
      (S (queries w)).
Proof.
  unfold mark_sent, run_query. simpl.
  destruct (db_up E (queries w)); [|reflexivity].
  unfold insert_sent. destruct (sent_unique E && _); reflexivity.
Qed.

Lemma for_each_cons {A} (body : A -> M unit) (x : A) (xs : list A) (w : World) :
  snd (for_each body (x :: xs) w) = snd (for_each body xs (snd (body x w))).
Proof. reflexivity. Qed.

(** Goals about worlds that differ by setters only. *)
Ltac framed :=
  unfold same_store, insert_sent; simpl;
  repeat match goal with
         | |- context [if ?b then _ else _] => destruct b
         end;
  simpl; repeat split; reflexivity.

Ltac quiet := simpl; split; [framed | left; split; reflexivity].

(** *** The immediate path, one alert *)

(** What the loop body does, by cases: it leaves ledger and outbox alone,
    or it sends once over a known channel and records the pair when the
    send succeeded and the insert was served. *)
Lemma notify_alert_cases (E : Env) (nid : Z) (source t_title message : string)
    (a : Alert) (w : World) :
  let w' := snd (notify_alert E nid source t_title message a w) in
  same_store w w'
  /\ ((outbox w' = outbox w /\ alerts_sent w' = alerts_sent w)
      \/ (known_channel a
          /\ exists ch,
               a_channel a = Some ch
               /\ outbox w'
                  = (outbox w
                     ++ [mkDelivery ch (a_user_identifier a) message
                           (send_ok E (List.length (outbox w)))])%list
               /\ alerts_sent w'
                  = if send_ok E (List.length (outbox w))
                       && db_up E (S (queries w))
                    then alerts_sent (insert_sent E (a_id a) nid w)
                    else alerts_sent w)).
Proof.
  unfold notify_alert.
  destruct (source_rejects _ _); [quiet|].
  destruct (keyword_rejects _ _ _); [quiet|].
  destruct (negb _); [quiet|].
  unfold bind. rewrite already_sent_run. cbn [fst snd].
  destruct (db_up E (queries w) && recorded w (a_id a) nid); [quiet|].
  destruct (col_eqb (a_channel a) "whatsapp") eqn:Hw;
    [|destruct (col_eqb (a_channel a) "telegram") eqn:Ht; [|quiet]].
  - apply col_eqb_true in Hw.
    unfold send_whatsapp, send. cbn [fst snd outbox set_queries set_outbox].
    split; [|right; split; [now right | exists "whatsapp"; split; [exact Hw|]]];
      destruct (send_ok E (List.length (outbox w)));
      try rewrite mark_sent_run; cbn [queries set_outbox set_queries andb];
      destruct (db_up E (S (queries w))); framed.
  - apply col_eqb_true in Ht.
    unfold send_telegram, send. cbn [fst snd outbox set_queries set_outbox].
    split; [|right; split; [now left | exists "telegram"; split; [exact Ht|]]];
      destruct (send_ok E (List.length (outbox w)));
      try rewrite mark_sent_run; cbn [queries set_outbox set_queries andb];
      destruct (db_up E (S (queries w))); framed.
Qed.

(** The step of one alert in the immediate path writes no record, or it
    made one successful send of the message and wrote the record of the
    alert and the notice. *)
Lemma notify_alert_records (E : Env) (nid : Z) (source t_title message : string)
    (a : Alert) (w : World) :
  records_after_send a message [nid] w
    (snd (notify_alert E nid source t_title message a w)).
Proof.
  destruct (notify_alert_cases E nid source t_title message a w)
    as [_ [[_ Hl] | [Hk [ch [Hc [Ho Hl]]]]]]; [now left|].
  destruct (send_ok E (List.length (outbox w))) eqn:Hok;
    [|left; exact Hl].
  destruct (db_up E (S (queries w))); [|left; exact Hl].
  cbn [andb] in Hl.
  destruct (insert_sent_ledger E (a_id a) nid w) as [Hi | Hi];
    rewrite Hi in Hl; [left; exact Hl|].
  right. eexists _, [(a_id a, nid)]. split; [exact Ho|].
  split; [unfold backs; simpl; now repeat split|].
  split; [exact Hl|]. intros p [<- | []]. simpl. split; [reflexivity | now left].
Qed.

Lemma notify_alert_outbox (E : Env) (nid : Z) (source t_title message : string)
    (a : Alert) (w : World) :
  exists new,
    outbox (snd (notify_alert E nid source t_title message a w))
    = (outbox w ++ new)%list.
Proof.
  destruct (notify_alert_cases E nid source t_title message a w)
    as [_ [[Ho _] | [_ [ch [_ [Ho _]]]]]].
  - exists []. now rewrite app_nil_r.
  - eexists. exact Ho.
Qed.

Lemma notify_alert_backed (E : Env) (about : Alert -> Z -> string -> Prop)
    (nid : Z) (source t_title message : string) (a : Alert) (w : World) :
  about a nid message ->
  In a (alerts w) ->
  same_store w (snd (notify_alert E nid source t_title message a w))
  /\ ledger_backed about w (snd (notify_alert E nid source t_title message a w)).
Proof.
  intros Hab Ha. split.
  - apply (notify_alert_cases E nid source t_title message a w).
  - apply (records_backed about a message [nid]); [exact Ha | | |].
    + intros nid' [<- | []]. exact Hab.
    + intros _. apply notify_alert_outbox.
    + apply notify_alert_records.
Qed.

(** *** Loops *)

Lemma for_each_backed {A} (about : Alert -> Z -> string -> Prop)
    (body : A -> M unit) (al : list Alert) (l : list A) :
  (forall x w, In x l -> alerts w = al ->
     same_store w (snd (body x w)) /\ ledger_backed about w (snd (body x w))) ->
  forall w, alerts w = al ->
    same_store w (snd (for_each body l w))
    /\ ledger_backed about w (snd (for_each body l w)).
Proof.
  induction l as [|x l IH]; intros Hb w Hw.
  - simpl. split; [apply same_store_refl | apply ledger_backed_refl].
  - rewrite for_each_cons.
    destruct (Hb x w (or_introl eq_refl) Hw) as [Hs1 Hl1].
    assert (Hw1 : alerts (snd (body x w)) = al)
      by (destruct Hs1 as [_ [H _]]; congruence).
    destruct (IH (fun y w' Hy => Hb y w' (or_intror Hy)) _ Hw1) as [Hs2 Hl2].
    split; [eapply same_store_trans; eassumption|].
    eapply ledger_backed_trans; [|eassumption|eassumption].
    destruct Hs1 as [_ [H _]]; exact H.
Qed.

(** Advancing the query count changes nothing a delivery fact reads. *)
Lemma backed_from_queries (about : Alert -> Z -> string -> Prop)
    (w w' : World) (q : nat) :
  same_store (set_queries w q) w' /\ ledger_backed about (set_queries w q) w' ->
  same_store w w' /\ ledger_backed about w w'.
Proof. intros H; exact H. Qed.

(** *** The immediate path, one notice *)

Lemma notify_if_matches_backed (E : Env) (n : Notice) (w : World) :
  same_store w (snd (notify_if_matches E n w))
  /\ ledger_backed (announces E n) w (snd (notify_if_matches E n w)).
Proof.
  unfold notify_if_matches, bind. rewrite get_active_alerts_run.
  cbn [fst snd].
  apply (backed_from_queries _ w _ (S (queries w))).
  apply for_each_backed with (al := alerts w); [|reflexivity].
  intros a w' Ha Hw'. apply notify_alert_backed.
  - split; reflexivity.
  - rewrite Hw'.
    destruct (db_up E (queries w)); simpl in Ha; [|contradiction].
    unfold select_active_alerts in Ha. apply filter_In in Ha. tauto.
Qed.

(** *** The daily path, one alert *)

Lemma collect_matched_run (E : Env) (a : Alert) (recent : list Notice) (w : World) :
  (exists q, snd (collect_matched E a recent w) = set_queries w q)
  /\ forall m, In m (fst (collect_matched E a recent w)) ->
       In m recent /\ Scheduler.matches E a m = true.
Proof.
  revert w; induction recent as [|n rest IH]; intros w.
  - simpl. split; [exists (queries w); now destruct w | contradiction].
  - cbn [collect_matched].
    destruct (Scheduler.matches E a n) eqn:Hm; cbn [negb].
    + unfold bind. rewrite already_sent_run. cbn [fst snd].
      destruct (db_up E (queries w) && recorded w (a_id a) (n_id n)).
      * destruct (IH (set_queries w (S (queries w)))) as [[q Hq] Hin].
        split; [exists q; exact Hq|]. intros m Hmm. simpl. firstorder.
      * fold (bind (collect_matched E a rest) (fun matched => ret (n :: matched))).
        unfold bind, ret. cbn [fst snd].
        destruct (IH (set_queries w (S (queries w)))) as [[q Hq] Hin].
        split; [exists q; exact Hq|]. intros m [<- | Hmm].
        -- split; [now left | exact Hm].
        -- simpl. firstorder.
    + destruct (IH w) as [Hq Hin]. split; [exact Hq|].
      intros m Hmm. simpl. firstorder.
Qed.

Lemma collect_matched_up (E : Env) (a : Alert) (recent : list Notice) (w : World) :
  store_up E ->
  fst (collect_matched E a recent w)
  = filter (fun n => Scheduler.matches E a n
                     && negb (recorded w (a_id a) (n_id n))) recent.
Proof.
  intros Hup. revert w; induction recent as [|n rest IH]; intros w.
  - reflexivity.
  - cbn [collect_matched filter].
    destruct (Scheduler.matches E a n); cbn [negb andb]; [|apply IH].
    unfold bind. rewrite already_sent_run, Hup. cbn [fst snd andb].
    destruct (recorded w (a_id a) (n_id n)); cbn [negb].
    + apply (IH (set_queries w (S (queries w)))).
    + unfold ret. cbn [fst]. f_equal. apply (IH (set_queries w (S (queries w)))).
Qed.

(** The loop that records a digest: it adds the pairs of the digest and
    nothing else. *)
Lemma mark_all (E : Env) (aid : Z) (ms : list Notice) (w : World) :
  let w' := snd (for_each (fun m => mark_sent E aid (n_id m)) ms w) in
  same_store w w' /\ outbox w' = outbox w
  /\ (forall p, In p (alerts_sent w') ->
        In p (alerts_sent w) \/ exists m, In m ms /\ p = (aid, n_id m))
  /\ (forall p, In p (alerts_sent w) -> In p (alerts_sent w'))
  /\ (store_up E -> forall m, In m ms -> In (aid, n_id m) (alerts_sent w')).
Proof.
  revert w; induction ms as [|m ms IH]; intros w.
  - simpl. split; [apply same_store_refl|]. repeat split; auto. contradiction.
  - cbv zeta. rewrite for_each_cons, mark_sent_run.
    set (w1 := set_queries _ _).
    assert (H1 : same_store w w1 /\ outbox w1 = outbox w
                 /\ (forall p, In p (alerts_sent w1)
                       <-> In p (alerts_sent w)
                           \/ (db_up E (queries w) = true /\ p = (aid, n_id m)))).
    { subst w1. destruct (db_up E (queries w)).
      - split; [framed|]. split; [framed|]. intros p.
        change (alerts_sent (set_queries ?x _)) with (alerts_sent x).
        rewrite In_insert_sent. intuition.
      - split; [framed|]. split; [reflexivity|].
        intros p. simpl. intuition discriminate. }
    destruct H1 as [Hs1 [Ho1 Hl1]].
    destruct (IH w1) as [Hs2 [Ho2 [Hnew [Hold Hall]]]].
    split; [eapply same_store_trans; eassumption|].
    split; [congruence|]. split; [|split].
    + intros p Hp. destruct (Hnew p Hp) as [H | [m' [Hm' ->]]].
      * apply Hl1 in H. destruct H as [H | [_ ->]]; [now left|].
        right. exists m. split; [now left | reflexivity].
      * right. exists m'. split; [now right | reflexivity].
    + intros p Hp. apply Hold, Hl1. now left.
    + intros Hup m' [<- | Hm'].
      * apply Hold, Hl1. right. split; [apply Hup | reflexivity].
      * now apply Hall.
Qed.

Lemma digest_alert_quiet (E : Env) (recent : list Notice) (a : Alert) (w : World) :
  fst (collect_matched E a recent w) = [] \/ ~ known_channel a ->
  let w' := snd (digest_alert E recent a w) in
  same_store w w' /\ outbox w' = outbox w /\ alerts_sent w' = alerts_sent w.
Proof.
  intros H. unfold digest_alert, bind.
  destruct (collect_matched_run E a recent w) as [[q Hq] _].
  rewrite Hq. clear Hq.
  destruct (fst (collect_matched E a recent w)) as [|m ms]; [framed|].
  destruct H as [H | H]; [discriminate|].
  destruct (col_eqb (a_channel a) "telegram") eqn:Ht;
    [apply col_eqb_true in Ht; exfalso; apply H; now left|].
  destruct (col_eqb (a_channel a) "whatsapp") eqn:Hw;
    [apply col_eqb_true in Hw; exfalso; apply H; now right|].
  framed.
Qed.

Lemma digest_alert_sends (E : Env) (recent : list Notice) (a : Alert) (w : World) :
  fst (collect_matched E a recent w) <> [] -> known_channel a ->
  let w' := snd (digest_alert E recent a w) in
  let matched := fst (collect_matched E a recent w) in
  let ok := send_ok E (List.length (outbox w)) in
  same_store w w'
  /\ (exists ch,
        a_channel a = Some ch
        /\ outbox w'
           = (outbox w
              ++ [mkDelivery ch (a_user_identifier a) (digest_text matched) ok])%list)
  /\ (ok = false -> alerts_sent w' = alerts_sent w)
  /\ (forall p, In p (alerts_sent w') ->
        In p (alerts_sent w)
        \/ (ok = true /\ exists m, In m matched /\ p = (a_id a, n_id m)))
  /\ (forall p, In p (alerts_sent w) -> In p (alerts_sent w'))
  /\ (store_up E -> ok = true ->
      forall m, In m matched -> In (a_id a, n_id m) (alerts_sent w')).
Proof.
  intros Hne Hk. cbv zeta. unfold digest_alert, bind.
  destruct (collect_matched_run E a recent w) as [[q Hq] _].
  rewrite Hq. clear Hq.
  destruct (fst (collect_matched E a recent w)) as [|m0 ms] eqn:Hm;
    [contradiction|].
  set (matched := m0 :: ms).
  assert (Hsend : exists ch,
            a_channel a = Some ch
            /\ (if col_eqb (a_channel a) "telegram"
                then send_telegram E (a_user_identifier a) (digest_text matched)
                else if col_eqb (a_channel a) "whatsapp"
                     then send_whatsapp E (a_user_identifier a) (digest_text matched)
                     else ret false)
               = send E ch (a_user_identifier a) (digest_text matched)).
  { destruct Hk as [Hk | Hk]; rewrite Hk.
    - exists "telegram". split; reflexivity.
    - exists "whatsapp". split; reflexivity. }
  destruct Hsend as [ch [Hch ->]]. unfold send. cbn [fst snd outbox set_queries].
  destruct (send_ok E (List.length (outbox w))) eqn:Hok.
  - match goal with
    | |- context [for_each ?f ?l ?x] =>
        destruct (mark_all E (a_id a) l x) as [Hs [Ho [Hnew [Hold Hall]]]]
    end.
    split; [|split; [|split; [|split; [|split]]]].
    + eapply same_store_trans; [|exact Hs]. framed.
    + exists ch. split; [exact Hch|]. rewrite Ho. reflexivity.
    + discriminate.
    + intros p Hp. destruct (Hnew p Hp) as [H | H]; [now left|].
      right. split; [reflexivity | exact H].
    + intros p Hp. apply Hold. exact Hp.
    + intros Hup _. apply Hall. exact Hup.
  - split; [framed|]. split; [exists ch; split; [exact Hch | reflexivity]|].
    split; [reflexivity|]. split; [intros p Hp; now left|].
    split; [intros p Hp; exact Hp | discriminate].
Qed.

(** The records the loop over a digest appends. *)
Lemma mark_all_appends (E : Env) (aid : Z) (ms : list Notice) (w : World) :
  exists added,
    alerts_sent (snd (for_each (fun m => mark_sent E aid (n_id m)) ms w))
    = (alerts_sent w ++ added)%list
    /\ forall p, In p added -> exists m, In m ms /\ p = (aid, n_id m).
Proof.
  revert w; induction ms as [|m ms IH]; intros w.
  - exists []. simpl. rewrite app_nil_r. split; [reflexivity | contradiction].
  - rewrite for_each_cons, mark_sent_run.
    set (w1 := set_queries _ _).
    assert (H1 : alerts_sent w1 = alerts_sent w
                 \/ alerts_sent w1 = (alerts_sent w ++ [(aid, n_id m)])%list).
    { subst w1. destruct (db_up E (queries w)); [|now left].
      apply (insert_sent_ledger E aid (n_id m) w). }
    destruct (IH w1) as [added [Hl Hin]]. rewrite Hl.
    destruct H1 as [H1 | H1]; rewrite H1.
    + exists added. split; [reflexivity|].
      intros p Hp. destruct (Hin p Hp) as [m' [Hm' ->]].
      exists m'. split; [now right | reflexivity].
    + exists ((aid, n_id m) :: added). split; [now rewrite <- app_assoc|].
      intros p [<- | Hp].
      * exists m. split; [now left | reflexivity].
      * destruct (Hin p Hp) as [m' [Hm' ->]].
        exists m'. split; [now right | reflexivity].
Qed.

(** The step of one alert in the daily path writes no record, or it made
    one successful send of the digest of the matched notices and wrote
    records of the alert for notices of that digest. *)
Lemma digest_alert_records (E : Env) (recent : list Notice) (a : Alert)
    (w : World) :
  let matched := fst (collect_matched E a recent w) in
  records_after_send a (digest_text matched) (map n_id matched) w
    (snd (digest_alert E recent a w)).
Proof.
  cbv zeta.
  destruct (fst (collect_matched E a recent w)) as [|m0 ms] eqn:Hm.
  { left. apply (digest_alert_quiet E recent a w). left. exact Hm. }
  assert (Hne : fst (collect_matched E a recent w) <> [])
    by (rewrite Hm; discriminate).
  assert (Hq : ~ known_channel a ->
               alerts_sent (snd (digest_alert E recent a w)) = alerts_sent w).
  { intros H. apply (digest_alert_quiet E recent a w). now right. }
  destruct (col_eqb (a_channel a) "telegram") eqn:Ht;
    [|destruct (col_eqb (a_channel a) "whatsapp") eqn:Hw];
    [assert (Hk : known_channel a) by (apply col_eqb_true in Ht; now left)
    |assert (Hk : known_channel a) by (apply col_eqb_true in Hw; now right)
    |left; apply Hq; intros [H | H]; apply col_eqb_true in H; congruence].
  all: clear Hq.
  all: destruct (digest_alert_sends E recent a w Hne Hk)
         as [_ [[ch [Hch Ho]] [Hf _]]].
  all: destruct (send_ok E (List.length (outbox w))) eqn:Hok;
         [|left; apply Hf; reflexivity].
  all: clear Hf; revert Ho; unfold digest_alert, bind.
  all: destruct (collect_matched_run E a recent w) as [[q Hq] _].
  all: rewrite Hq, Hm; clear Hq.
  all: rewrite ?Ht, ?Hw; unfold send_telegram, send_whatsapp, send.
  all: cbn [fst snd outbox set_queries]; rewrite Hok.
  all: match goal with
       | |- context [for_each ?f ?l ?x] =>
           destruct (mark_all_appends E (a_id a) l x) as [added [Hl Hin]]
       end.
  all: intros Ho; right; eexists _, added; split; [exact Ho|].
  all: split; [unfold backs; simpl; now repeat split|].
  all: split; [exact Hl|].
  all: intros p Hp; destruct (Hin p Hp) as [m [Hmm ->]]; cbn [fst snd].
  all: split; [reflexivity | apply (in_map n_id); exact Hmm].
Qed.

Lemma digest_alert_outbox (E : Env) (recent : list Notice) (a : Alert)
    (w : World) :
  exists new,
    outbox (snd (digest_alert E recent a w)) = (outbox w ++ new)%list.
Proof.
  destruct (fst (collect_matched E a recent w)) as [|m0 ms] eqn:Hm.
  { exists []. rewrite app_nil_r.
    apply (digest_alert_quiet E recent a w). left. exact Hm. }
  assert (Hne : fst (collect_matched E a recent w) <> [])
    by (rewrite Hm; discriminate).
  destruct (col_eqb (a_channel a) "telegram") eqn:Ht;
    [|destruct (col_eqb (a_channel a) "whatsapp") eqn:Hw].
  1,2: assert (Hk : known_channel a)
    by (first [apply col_eqb_true in Ht; now left
              |apply col_eqb_true in Hw; now right]).
  1,2: destruct (digest_alert_sends E recent a w Hne Hk)
    as [_ [[ch [Hch Ho]] _]]; eexists; exact Ho.
  exists []. rewrite app_nil_r.
  apply (digest_alert_quiet E recent a w). right.
  intros [H | H]; apply col_eqb_true in H; congruence.
Qed.

Lemma digest_alert_same_store (E : Env) (recent : list Notice) (a : Alert)
    (w : World) :
  same_store w (snd (digest_alert E recent a w)).
Proof.
  destruct (fst (collect_matched E a recent w)) as [|m0 ms] eqn:Hm.
  { apply (digest_alert_quiet E recent a w). left. exact Hm. }
  assert (Hne : fst (collect_matched E a recent w) <> [])
    by (rewrite Hm; discriminate).
  destruct (col_eqb (a_channel a) "telegram") eqn:Ht;
    [|destruct (col_eqb (a_channel a) "whatsapp") eqn:Hw].
  1,2: assert (Hk : known_channel a)
    by (first [apply col_eqb_true in Ht; now left
              |apply col_eqb_true in Hw; now right]).
  1,2: apply (digest_alert_sends E recent a w Hne Hk).
  apply (digest_alert_quiet E recent a w). right.
  intros [H | H]; apply col_eqb_true in H; congruence.
Qed.

Lemma digest_alert_backed (E : Env) (w0 : World) (recent : list Notice)
    (a : Alert) (w : World) :
  (forall m, In m recent -> In m (notices w0)) ->
  In a (alerts w) ->
  same_store w (snd (digest_alert E recent a w))
  /\ ledger_backed (digests E w0) w (snd (digest_alert E recent a w)).
Proof.
  intros Hrec Ha. split; [apply digest_alert_same_store|].
  apply (records_backed (digests E w0) a
           (digest_text (fst (collect_matched E a recent w)))
           (map n_id (fst (collect_matched E a recent w))));
    [exact Ha | | |].
  - intros nid Hnid. exists (fst (collect_matched E a recent w)).
    split; [reflexivity|]. split; [exact Hnid|].
    intros m Hm.
    destruct (collect_matched_run E a recent w) as [_ Hin].
    destruct (Hin m Hm) as [Hr Hmt]. split; [now apply Hrec | exact Hmt].
  - intros _. apply digest_alert_outbox.
  - apply digest_alert_records.
Qed.

(** *** The rows the daily job reads *)

Lemma In_insert_desc (x n : Notice) (l : list Notice) :
  In x (insert_desc n l) <-> x = n \/ In x l.
Proof.
  induction l as [|y l IH]; simpl.
  - intuition.
  - destruct (date_after n y); simpl; [intuition|].
    rewrite IH. intuition.
Qed.

Lemma In_fold_insert_desc (x : Notice) (l acc : list Notice) :
  In x (fold_left (fun acc n => insert_desc n acc) l acc)
  <-> In x l \/ In x acc.
Proof.
  revert acc; induction l as [|n l IH]; intros acc; simpl.
  - intuition.
  - rewrite IH, In_insert_desc. intuition.
Qed.

(** Ordering the rows by date keeps the rows. *)
Lemma In_order_by_date_desc (x : Notice) (l : list Notice) :
  In x (order_by_date_desc l) <-> In x l.
Proof.
  unfold order_by_date_desc. rewrite In_fold_insert_desc. simpl. intuition.
Qed.

Lemma In_select_recent (since : date) (w : World) (n : Notice) :
  In n (select_recent since w)
  <-> In n (notices w)
      /\ exists d, n_date n = Some d /\ date_leb since d = true.
Proof.
  unfold select_recent. rewrite In_order_by_date_desc, filter_In.
  unfold dated_since. split.
  - intros [Hn Hd]. split; [exact Hn|].
    destruct (n_date n) as [d|]; [now exists d | discriminate].
  - intros [Hn [d [Hd Hle]]]. split; [exact Hn|]. now rewrite Hd.
Qed.

(** *** The daily job *)

Lemma digest_without_notices (E : Env) (daily : list Alert) (w : World) :
  for_each (digest_alert E []) daily w = (tt, w).
Proof.
  induction daily as [|a daily IH]; [reflexivity|].
  cbn [for_each]. unfold bind at 1. unfold digest_alert at 1.
  unfold bind at 1. cbn [collect_matched ret fst snd]. exact IH.
Qed.

(** The job, once the clock and the two queries are read: the loop over
    the daily alerts that the first query returned, on the notices that the
    second returned. *)
Lemma daily_digest_run (E : Env) (w : World) :
  snd (daily_digest E w)
  = let w1 := set_clock_reads w (S (clock_reads w)) in
    match datetime_sub_days_date (clock E (clock_reads w)) 1 with
    | None => w1
    | Some since =>
        match (if db_up E (queries w) then select_daily_alerts w else []) with
        | [] => set_queries w1 (S (queries w))
        | daily =>
            snd (for_each
                   (digest_alert E
                      (if db_up E (S (queries w)) then select_recent since w
                       else []))
                   daily (set_queries w1 (S (S (queries w)))))
        end
    end.
Proof.
  unfold daily_digest, bind, now. cbn [fst snd].
  destruct (datetime_sub_days_date _ _) as [since|]; [|reflexivity].
  unfold run_query_fetch at 1 2. cbn [queries set_clock_reads].
  change (select_daily_alerts (set_clock_reads w (S (clock_reads w))))
    with (select_daily_alerts w).
  destruct (db_up E (queries w)); cbn [fst snd or_nil]; [|reflexivity].
  destruct (select_daily_alerts w) as [|a0 daily] eqn:Hd; [reflexivity|].
  unfold fetch_recent_notices, bind, run_query_fetch, ret.
  cbn [queries set_clock_reads set_queries fst snd].
  assert (Hsel : forall q,
            select_recent since
              (set_queries (set_clock_reads w (S (clock_reads w))) q)
            = select_recent since w) by reflexivity.
  destruct (db_up E (S (queries w))); cbn [fst snd or_nil].
  - rewrite !Hsel.
    destruct (select_recent since w) as [|n0 recent] eqn:Hr.
    + now rewrite digest_without_notices.
    + reflexivity.
  - now rewrite digest_without_notices.
Qed.

Lemma daily_digest_backed (E : Env) (w : World) :
  ledger_backed (digests E w) w (snd (daily_digest E w)).
Proof.
  rewrite daily_digest_run. cbv zeta.
  destruct (datetime_sub_days_date _ _) as [since|];
    [|apply ledger_backed_quiet; reflexivity].
  destruct (if db_up E (queries w) then select_daily_alerts w else [])
    as [|a0 daily] eqn:Hd;
    [apply ledger_backed_quiet; reflexivity|].
  match goal with
  | |- ledger_backed _ _ (snd (for_each ?b ?l ?x)) =>
      destruct (for_each_backed (digests E w) b (alerts w) l) with (w := x)
        as [_ H]; [|reflexivity|exact H]
  end.
  intros a w' Ha Hw'. apply digest_alert_backed.
  - intros m Hm. destruct (db_up E (S (queries w))); [|contradiction].
    apply In_select_recent in Hm. tauto.
  - rewrite Hw'.
    rewrite <- Hd in Ha. destruct (db_up E (queries w)); [|contradiction].
    unfold select_daily_alerts in Ha. apply filter_In in Ha. tauto.
Qed.

(** C3.  In both delivery paths a ledger record is written only after the
    channel's send reported success, and it is the record of the pair
    that was sent.  For one alert and one notice in the immediate path:
    the ledger is left as it was, or the step made exactly one send, a
    successful one of the notice's message to the alert's recipient over
    its channel, and appended the record of that alert and that notice
    and nothing else.  For one alert in the daily path: the ledger is left
    as it was, or the step made exactly one send, a successful one of the
    digest of the matched notices, and appended records of that alert for
    notices of that digest only.  In both, if the send fails or the
    channel is unknown the ledger is left as it was, so the pair stays
    unrecorded.  For a whole run of either path: every record the run
    appended pairs an alert with a notice for which the run made a
    successful send to that alert, of the announcement of that notice
    (immediate path) or of a digest listing it (daily path). *)
Theorem ledger_written_only_after_successful_send (E : Env) (w : World) :
  (forall nid source t_title message a,
     let w' := snd (notify_alert E nid source t_title message a w) in
     records_after_send a message [nid] w w'
     /\ (send_fails E a w -> alerts_sent w' = alerts_sent w))
  /\ (forall recent a,
        let w' := snd (digest_alert E recent a w) in
        (exists matched,
           (forall m, In m matched ->
              In m recent /\ Scheduler.matches E a m = true)
           /\ records_after_send a (digest_text matched) (map n_id matched)
                w w')
        /\ (send_fails E a w -> alerts_sent w' = alerts_sent w))
  /\ (forall n,
        ledger_backed (announces E n) w (snd (notify_if_matches E n w)))
  /\ ledger_backed (digests E w) w (snd (daily_digest E w)).
Proof.
  split; [|split; [|split]].
  - intros nid source t_title message a. cbv zeta.
    split; [apply notify_alert_records|].
    destruct (notify_alert_cases E nid source t_title message a w)
      as [_ [[_ Hl] | [Hk [ch [Hch [Ho Hl]]]]]]; [intros _; exact Hl|].
    rewrite Hl. intros [Hu | Hf]; [contradiction|]. now rewrite Hf.
  - intros recent a. cbv zeta. split.
    + exists (fst (collect_matched E a recent w)).
      split; [apply (collect_matched_run E a recent w)|].
      apply digest_alert_records.
    + destruct (fst (collect_matched E a recent w)) as [|m0 ms] eqn:Hm.
      * destruct (digest_alert_quiet E recent a w (or_introl Hm)) as [_ [_ Hl]].
        intros _; exact Hl.
      * assert (Hne : fst (collect_matched E a recent w) <> [])
          by (rewrite Hm; discriminate).
        intros [Hu | Hf].
        -- apply (digest_alert_quiet E recent a w). now right.
        -- destruct (col_eqb (a_channel a) "telegram") eqn:Ht;
             [|destruct (col_eqb (a_channel a) "whatsapp") eqn:Hw].
           1,2: assert (Hk : known_channel a)
             by (first [apply col_eqb_true in Ht; now left
                       |apply col_eqb_true in Hw; now right]).
           1,2: destruct (digest_alert_sends E recent a w Hne Hk)
             as [_ [_ [H _]]]; apply H, Hf.
           apply (digest_alert_quiet E recent a w). right.
           intros [H | H]; apply col_eqb_true in H; congruence.
  - intros n. apply notify_if_matches_backed.
  - apply daily_digest_backed.
Qed.

(** The records at work.  The immediate path on the sample store: one
    successful send of the announcement, one record of the alert and the
    notice.  With the channel failing: the send is made and no record is
    written. *)
Example immediate_record_follows_send :
  let n := Sample.notice_exam in
  let w1 := snd (notify_if_matches Sample.env_up n Sample.world_exam) in
  let w2 := snd (notify_if_matches Sample.env_mute n Sample.world_exam) in
  outbox w1
  = [mkDelivery "telegram" (Some "42") (announcement Sample.env_up n) true]
  /\ alerts_sent w1 = [(1, 7)]
  /\ map d_ok (outbox w2) = [false] /\ alerts_sent w2 = [].
Proof. vm_compute. repeat split. Qed.

End DeliveryFacts.

(** ** The daily digest, alert by alert *)

Module DigestFacts.
Import PyStr Calendar Html Database Alerts Scheduler Spec DeliveryFacts.
Local Open Scope Z_scope.

Lemma for_each_app {A} (body : A -> M unit) (pre post : list A) (x : A)
    (w : World) :
  snd (for_each body (pre ++ x :: post) w)
  = snd (for_each body post (snd (body x (snd (for_each body pre w))))).
Proof.
  revert w; induction pre as [|y pre IH]; intros w.
  - reflexivity.
  - rewrite <- app_comm_cons, !for_each_cons. apply IH.
Qed.

(** With the store up, the job is the loop over the daily alerts of the
    store on the recent notices of the store. *)
Lemma daily_digest_up (E : Env) (w : World) (since : date) :
  store_up E ->
  datetime_sub_days_date (clock E (clock_reads w)) 1 = Some since ->
  select_daily_alerts w <> [] ->
  snd (daily_digest E w)
  = snd (for_each (digest_alert E (select_recent since w))
           (select_daily_alerts w) (digest_start w)).
Proof.
  intros Hup Hs Hne. rewrite daily_digest_run, Hs, !Hup. cbv zeta.
  destruct (select_daily_alerts w); [contradiction | reflexivity].
Qed.

(** C4, with the store serving the run.  In a run of the daily digest
    during which the store serves every query, take a daily alert [a] and
    the world [w1] in which the run reaches it.  If the set of recent
    notices that match [a] and are not yet recorded for it is empty, no
    message is sent for [a] and the ledger is left alone.  If the set is
    not empty, exactly one message is sent, to the alert's recipient over
    its channel, with the text that aggregates the whole set; when that
    send succeeds every notice of the set is recorded for [a], and when it
    fails none is.  The channel is one of the two of the data model; an
    alert carrying any other channel gets no message. *)
Theorem digest_sends_one_aggregated_message (E : Env) (w : World)
    (since : date) (pre post : list Alert) (a : Alert) :
  store_up E ->
  datetime_sub_days_date (clock E (clock_reads w)) 1 = Some since ->
  select_daily_alerts w = (pre ++ a :: post)%list ->
  let recent := select_recent since w in
  let w1 := snd (for_each (digest_alert E recent) pre (digest_start w)) in
  let w2 := snd (digest_alert E recent a w1) in
  let pending := pending_for E a recent w1 in
  let d := mkDelivery (or_empty (a_channel a)) (a_user_identifier a)
             (digest_text pending) (send_ok E (List.length (outbox w1))) in
  snd (daily_digest E w) = snd (for_each (digest_alert E recent) post w2)
  /\ (pending = [] \/ ~ known_channel a ->
      outbox w2 = outbox w1 /\ alerts_sent w2 = alerts_sent w1)
  /\ (pending <> [] /\ known_channel a ->
      outbox w2 = (outbox w1 ++ [d])%list
      /\ (d_ok d = true ->
          forall m, In m pending -> In (a_id a, n_id m) (alerts_sent w2))
      /\ (d_ok d = false -> alerts_sent w2 = alerts_sent w1)).
Proof.
  intros Hup Hs Hsplit. cbv zeta.
  assert (Hp : fst (collect_matched E a (select_recent since w)
                      (snd (for_each (digest_alert E (select_recent since w))
                              pre (digest_start w))))
               = pending_for E a (select_recent since w)
                   (snd (for_each (digest_alert E (select_recent since w))
                           pre (digest_start w))))
    by (apply collect_matched_up; exact Hup).
  split; [|split].
  - rewrite (daily_digest_up E w since Hup Hs)
      by (rewrite Hsplit; destruct pre; discriminate).
    rewrite Hsplit. apply for_each_app.
  - intros Hq. rewrite <- Hp in Hq.
    destruct (digest_alert_quiet E _ a _ Hq) as [_ H]. exact H.
  - intros [Hne Hk]. rewrite <- Hp in Hne.
    destruct (digest_alert_sends E _ a _ Hne Hk)
      as [_ [[ch [Hch Ho]] [Hf [_ [_ Hall]]]]].
    rewrite Hp in Ho, Hall. rewrite Hch. cbn [or_empty d_ok].
    split; [exact Ho|]. split; [|exact Hf].
    intros Hok. apply Hall; assumption.
Qed.

(** The theorem at work: one daily alert, two recent notices that match. *)
Lemma digest_sends_one_aggregated_message_witness :
  let E := Sample.env_up in
  let w := Sample.world_daily in
  let a := Sample.alert_daily in
  let recent := select_recent (mkDate 2025 12 27) w in
  let w1 := snd (for_each (digest_alert E recent) [] (digest_start w)) in
  let w2 := snd (digest_alert E recent a w1) in
  let pending := pending_for E a recent w1 in
  let d := mkDelivery (or_empty (a_channel a)) (a_user_identifier a)
             (digest_text pending) (send_ok E (List.length (outbox w1))) in
  (store_up E
   /\ datetime_sub_days_date (clock E (clock_reads w)) 1
      = Some (mkDate 2025 12 27)
   /\ select_daily_alerts w = ([] ++ a :: [])%list)
  /\ (snd (daily_digest E w) = snd (for_each (digest_alert E recent) [] w2)
      /\ (pending = [] \/ ~ known_channel a ->
          outbox w2 = outbox w1 /\ alerts_sent w2 = alerts_sent w1)
      /\ (pending <> [] /\ known_channel a ->
          outbox w2 = (outbox w1 ++ [d])%list
          /\ (d_ok d = true ->
              forall m, In m pending -> In (a_id a, n_id m) (alerts_sent w2))
          /\ (d_ok d = false -> alerts_sent w2 = alerts_sent w1))).
Proof.
  assert (H1 : store_up Sample.env_up) by (intros k; reflexivity).
  assert (H2 : datetime_sub_days_date
                 (clock Sample.env_up (clock_reads Sample.world_daily)) 1
               = Some (mkDate 2025 12 27)) by reflexivity.
  assert (H3 : select_daily_alerts Sample.world_daily
               = ([] ++ Sample.alert_daily :: [])%list) by reflexivity.
  exact (conj (conj H1 (conj H2 H3))
           (digest_sends_one_aggregated_message Sample.env_up
              Sample.world_daily (mkDate 2025 12 27) [] [] Sample.alert_daily
              H1 H2 H3)).
Defined.

(** C4, as stated, fails when the store stops serving queries during the
    run.  Two recent notices are pending for the daily alert.  The store
    serves the two queries that open the run and the two ledger lookups,
    the digest of both notices is sent and the send succeeds; the store
    does not serve the inserts that follow, and neither notice is marked
    sent. *)
Lemma digest_sent_and_not_recorded_when_store_fails :
  ~ digest_rule_as_stated (Sample.env_serving 4)
      (select_recent (mkDate 2025 12 27) Sample.world_daily)
      Sample.alert_daily (digest_start Sample.world_daily).
Proof.
  intros [_ H].
  destruct H as [d [Ho Hm]]; [vm_compute; discriminate|].
  vm_compute in Ho. injection Ho as <-.
  specialize (Hm eq_refl Sample.notice_exam).
  vm_compute in Hm. apply Hm. now left.
Qed.

(** The whole run on that store: one message goes out, nothing is
    recorded. *)
Example digest_run_with_failing_inserts :
  let w := Sample.world_daily in
  let w' := snd (daily_digest (Sample.env_serving 4) w) in
  map d_to (outbox w') = [Some "44"]
  /\ map d_ok (outbox w') = [true]
  /\ alerts_sent w' = [].
Proof. vm_compute. repeat split. Qed.

(** The other queries of the run.  When the ledger lookups are not served
    a lookup reads as "not sent": with both recent notices recorded for
    the alert, so that nothing is pending, the digest of both is sent.
    When the query for the daily alerts is not served the run ends there,
    whatever is pending. *)
Example digest_run_with_failing_reads :
  let w := Sample.world_digested in
  let w' := snd (daily_digest (Sample.env_serving 2) w) in
  pending_for (Sample.env_serving 2) Sample.alert_daily
    (select_recent (mkDate 2025 12 27) w) (digest_start w) = []
  /\ map d_to (outbox w') = [Some "44"]
  /\ alerts_sent w' = alerts_sent w
  /\ outbox (snd (daily_digest (Sample.env_serving 0) Sample.world_daily))
     = [].
Proof. vm_compute. repeat split. Qed.

(** Two matching notices in the window: one send, two ledger records. *)
Example digest_of_two_notices :
  let w' := snd (daily_digest Sample.env_up Sample.world_daily) in
  List.length (outbox w') = 1%nat
  /\ map d_to (outbox w') = [Some "44"]
  /\ alerts_sent w' = [(3, 7); (3, 8)].
Proof. vm_compute. repeat split. Qed.

(** The same run with the channel failing: one send, no ledger record. *)
Example digest_of_two_notices_undelivered :
  let w' := snd (daily_digest Sample.env_mute Sample.world_daily) in
  map d_ok (outbox w') = [false] /\ alerts_sent w' = [].
Proof. vm_compute. repeat split. Qed.

End DigestFacts.

(** ** The scrapers and the notice store *)

Module StoreFacts.
Import PyStr Calendar Html Database Alerts Spec TextFacts DeliveryFacts.
Local Open Scope Z_scope.

Lemma stored_iff_selected (w : World) (title link : string) :
  stored w title link <-> select_by_link_or_title link title w <> [].
Proof.
  unfold stored, select_by_link_or_title. split.
  - intros [n [Hn Hm]] Hnil. apply map_eq_nil in Hnil.
    assert (Hin : In n (filter
                          (fun n => col_eqb (n_link n) link
                                    || col_eqb (n_title n) title) (notices w))).
    { apply filter_In. split; [exact Hn|]. apply orb_true_iff.
      destruct Hm as [Hm | Hm]; [left | right]; now apply col_eqb_true. }
    rewrite Hnil in Hin. contradiction.
  - intros Hne.
    destruct (filter (fun n => col_eqb (n_link n) link
                               || col_eqb (n_title n) title) (notices w))
      as [|n ns] eqn:Hf; [contradiction|].
    assert (Hin : In n (n :: ns)) by now left.
    rewrite <- Hf in Hin. apply filter_In in Hin. destruct Hin as [Hn Hm].
    exists n. split; [exact Hn|]. apply orb_true_iff in Hm.
    destruct Hm as [Hm | Hm]; [left | right]; now apply col_eqb_true.
Qed.

Lemma not_stored_selected (w : World) (title link : string) :
  ~ stored w title link -> select_by_link_or_title link title w = [].
Proof.
  intros H. destruct (select_by_link_or_title link title w) eqn:Hs;
    [reflexivity|].
  exfalso. apply H, stored_iff_selected. rewrite Hs. discriminate.
Qed.

Lemma no_match_no_link (link title : string) (ns : list Notice) :
  map n_id (filter (fun n => col_eqb (n_link n) link
                             || col_eqb (n_title n) title) ns) = [] ->
  filter (fun n => col_eqb (n_link n) link) ns = [].
Proof.
  induction ns as [|n ns IH]; simpl; [reflexivity|].
  destruct (col_eqb (n_link n) link); simpl; [discriminate|].
  destruct (col_eqb (n_title n) title); simpl; [discriminate | exact IH].
Qed.

(** The link query right after the insert of a fresh notice returns the
    key of that notice first. *)
Lemma select_by_link_after_insert (title link source : string) (d : date)
    (w : World) :
  select_by_link_or_title link title w = [] ->
  select_by_link link (insert_notice title link d source w) = [next_id w].
Proof.
  intros H. unfold select_by_link, insert_notice. cbn [notices set_notices].
  rewrite filter_app, (no_match_no_link link title _ H). simpl.
  now rewrite string_eqb_refl.
Qed.

Lemma run_query_fetch_up (E : Env) {A} (stmt : World -> list A) (w : World) :
  db_up E (queries w) = true ->
  run_query_fetch E stmt w = (Some (stmt w), after_query w).
Proof. intros H. unfold run_query_fetch. now rewrite H. Qed.

Lemma run_query_up (E : Env) (stmt : World -> World) (w : World) :
  db_up E (queries w) = true ->
  run_query E stmt w = (tt, set_queries (stmt w) (S (queries (stmt w)))).
Proof. intros H. unfold run_query. now rewrite H. Qed.

(** *** A duplicate *)

Lemma check_and_insert_duplicate (E : Env) (title link : string) (d : date)
    (w : World) :
  db_up E (queries w) = true -> stored w title link ->
  ScraperPtu.check_and_insert E title link d w = (false, after_query w).
Proof.
  intros Hup Hst. apply stored_iff_selected in Hst.
  unfold ScraperPtu.check_and_insert, bind.
  rewrite (run_query_fetch_up E _ w Hup). cbn [fst snd].
  destruct (select_by_link_or_title link title w); [contradiction|].
  reflexivity.
Qed.

Lemma save_item_duplicate (E : Env) (title link : string) (hint : option date)
    (w : World) :
  db_up E (queries w) = true -> stored w title link ->
  ScraperGndec.save_item E (title, link, hint) w = (false, after_query w).
Proof.
  intros Hup Hst. apply stored_iff_selected in Hst.
  unfold ScraperGndec.save_item, bind.
  rewrite (run_query_fetch_up E _ w Hup). cbn [fst snd].
  destruct (select_by_link_or_title link title w); [contradiction|].
  reflexivity.
Qed.

(** *** A fresh notice *)

(** The end of both loop bodies, from the insert on: with the store up the
    notice is appended under the next key and the immediate path runs. *)
Lemma insert_then_notify (E : Env) (title link source : string) (d : date)
    (w : World) :
  store_up E -> select_by_link_or_title link title w = [] ->
  let row := mkNotice (next_id w) (Some title) (Some link) (Some d)
               (Some source) in
  let r :=
    (run_query E (insert_notice title link d source) ;;;
     res <- run_query_fetch E (select_by_link link) ;;
     match res with
     | Some (nid :: _) =>
         notify_if_matches E
           (mkNotice nid (Some title) (Some link) (Some d) (Some source)) ;;;
         ret true
     | _ => ret true
     end) w in
  fst r = true
  /\ notices (snd r) = (notices w ++ [row])%list
  /\ next_id (snd r) = next_id w + 1
  /\ alerts (snd r) = alerts w
  /\ fetches (snd r) = fetches w
  /\ clock_reads (snd r) = clock_reads w.
Proof.
  intros Hup Hsel. cbv zeta.
  unfold bind. rewrite (run_query_up E _ w (Hup _)). cbn [fst snd].
  rewrite (run_query_fetch_up E _ _ (Hup _)). cbn [fst snd].
  change (select_by_link link (set_queries ?x _)) with (select_by_link link x).
  rewrite (select_by_link_after_insert title link source d w Hsel).
  unfold ret. cbn [fst snd].
  split; [reflexivity|].
  match goal with
  | |- context [notify_if_matches E ?n ?x] =>
      destruct (notify_if_matches_backed E n x) as [[Hn [Ha [Hi [Hf Hc]]]] _]
  end.
  rewrite Hn, Ha, Hi, Hf, Hc. repeat split.
Qed.

Lemma check_and_insert_fresh (E : Env) (title link : string) (d : date)
    (w : World) :
  store_up E -> ~ stored w title link ->
  let r := ScraperPtu.check_and_insert E title link d w in
  fst r = true
  /\ notices (snd r)
     = (notices w
        ++ [mkNotice (next_id w) (Some title) (Some link) (Some d)
              (Some "PTU")])%list
  /\ next_id (snd r) = next_id w + 1.
Proof.
  intros Hup Hst. apply not_stored_selected in Hst.
  destruct (insert_then_notify E title link "PTU" d (after_query w) Hup Hst)
    as [H1 [H2 [H3 _]]].
  intros r.
  assert (Hr : r = (run_query E (insert_notice title link d "PTU") ;;;
                    res <- run_query_fetch E (select_by_link link) ;;
                    match res with
                    | Some (nid :: _) =>
                        notify_if_matches E
                          (mkNotice nid (Some title) (Some link) (Some d)
                             (Some "PTU")) ;;;
                        ret true
                    | _ => ret true
                    end) (after_query w)).
  { subst r. unfold ScraperPtu.check_and_insert. unfold bind at 1.
    rewrite (run_query_fetch_up E _ w (Hup _)), Hst. reflexivity. }
  rewrite Hr. split; [exact H1|]. split; [exact H2 | exact H3].
Qed.

Lemma get_notice_date_from_page_run (E : Env) (url : string) (w : World) :
  ScraperGndec.get_notice_date_from_page E url w
  = (match web E (fetches w) url with
     | Some p => ScraperGndec.date_of_page E p
     | None => None
     end,
     set_fetches w (S (fetches w))).
Proof.
  unfold ScraperGndec.get_notice_date_from_page, bind, fetch_notice_page.
  cbn [fst snd]. destruct (web E (fetches w) url); reflexivity.
Qed.

(** The date resolution of [save_notices]: no fetch for a dated item; for
    an undated one the page is fetched, and the clock is read only when
    the page gives no date. *)
Lemma resolve_date_run (E : Env) (href : string) (hint : option date)
    (w : World) :
  let page_date :=
    match web E (fetches w) href with
    | Some p => ScraperGndec.date_of_page E p
    | None => None
    end in
  match hint with
  | Some d => ret d
  | None =>
      page_date <- ScraperGndec.get_notice_date_from_page E href ;;
      match page_date with
      | Some d => ret d
      | None => t <- now E ;; ret (dt_date t)
      end
  end w
  = (match hint, page_date with
     | Some d, _ => d
     | None, Some d => d
     | None, None => dt_date (clock E (clock_reads w))
     end,
     match hint, page_date with
     | Some _, _ => w
     | None, Some _ => set_fetches w (S (fetches w))
     | None, None =>
         set_clock_reads (set_fetches w (S (fetches w))) (S (clock_reads w))
     end).
Proof.
  cbv zeta. destruct hint as [d|]; [reflexivity|].
  unfold bind at 1. rewrite get_notice_date_from_page_run. cbn [fst snd].
  destruct (match web E (fetches w) href with
            | Some p => ScraperGndec.date_of_page E p
            | None => None
            end); reflexivity.
Qed.

(** The date the GNDEC scraper stores for an item saved in world [w]: the
    hint, else the date of the notice's page, else the date of the clock. *)
Lemma save_item_fresh (E : Env) (title link : string) (hint : option date)
    (w : World) :
  store_up E -> ~ stored w title link ->
  let r := ScraperGndec.save_item E (title, link, hint) w in
  let page_date :=
    match web E (fetches w) link with
    | Some p => ScraperGndec.date_of_page E p
    | None => None
    end in
  let date_val :=
    match hint, page_date with
    | Some d, _ => d
    | None, Some d => d
    | None, None => dt_date (clock E (clock_reads w))
    end in
  fst r = true
  /\ notices (snd r)
     = (notices w
        ++ [mkNotice (next_id w) (Some title) (Some link) (Some date_val)
              (Some "GNDEC")])%list
  /\ next_id (snd r) = next_id w + 1
  /\ fetches (snd r)
     = match hint with Some _ => fetches w | None => S (fetches w) end
  /\ clock_reads (snd r)
     = match hint, page_date with
       | None, None => S (clock_reads w)
       | _, _ => clock_reads w
       end.
Proof.
  intros Hup Hst. apply not_stored_selected in Hst.
  intros r page_date date_val.
  assert (Hr : exists w1,
            select_by_link_or_title link title w1 = []
            /\ notices w1 = notices w /\ next_id w1 = next_id w
            /\ fetches w1
               = match hint with Some _ => fetches w | None => S (fetches w) end
            /\ clock_reads w1
               = match hint, page_date with
                 | None, None => S (clock_reads w)
                 | _, _ => clock_reads w
                 end
            /\ r = (run_query E (insert_notice title link date_val "GNDEC") ;;;
                    res <- run_query_fetch E (select_by_link link) ;;
                    match res with
                    | Some (nid :: _) =>
                        notify_if_matches E
                          (mkNotice nid (Some title) (Some link)
                             (Some date_val) (Some "GNDEC")) ;;;
                        ret true
                    | _ => ret true
                    end) w1).
  { subst r. unfold ScraperGndec.save_item.
    unfold bind at 1. rewrite (run_query_fetch_up E _ w (Hup _)), Hst.
    cbn [fst snd found]. unfold bind at 1.
    rewrite (resolve_date_run E link hint (after_query w)).
    cbn [fst snd after_query fetches clock_reads set_queries].
    fold page_date. fold date_val. fold (after_query w).
    eexists. split; [|split; [|split; [|split; [|split; [|reflexivity]]]]].
    - destruct hint as [d|]; [exact Hst|].
      destruct page_date; exact Hst.
    - destruct hint as [d|]; [reflexivity|]. destruct page_date; reflexivity.
    - destruct hint as [d|]; [reflexivity|]. destruct page_date; reflexivity.
    - destruct hint as [d|]; [reflexivity|]. destruct page_date; reflexivity.
    - destruct hint as [d|]; [reflexivity|]. destruct page_date; reflexivity. }
  destruct Hr as [w1 [Hsel [Hn [Hi [Hf [Hc ->]]]]]].
  destruct (insert_then_notify E title link "GNDEC" date_val w1 Hup Hsel)
    as [H1 [H2 [H3 [_ [H5 H6]]]]].
  split; [exact H1|]. split; [rewrite H2, Hn, Hi; reflexivity|].
  split; [rewrite H3, Hi; reflexivity|].
  split; [rewrite H5; exact Hf | rewrite H6; exact Hc].
Qed.

Lemma selected_after_insert (title link : string) (row : Notice) (w w1 : World) :
  ~ stored w title link ->
  notices w1 = (notices w ++ [row])%list ->
  n_link row = Some link ->
  stored w1 title link
  /\ List.length (select_by_link_or_title link title w1) = 1%nat.
Proof.
  intros Hst Hn Hl. split.
  - exists row. rewrite Hn, in_app_iff. split; [right; now left | now left].
  - apply not_stored_selected in Hst. unfold select_by_link_or_title in *.
    rewrite Hn, filter_app, map_app, Hst. simpl.
    rewrite Hl. simpl. now rewrite string_eqb_refl.
Qed.

(** With the store up, an insert attempt for a title and link of which
    one is already stored is a no-op in both scrapers: the existence check
    finds the notice, the attempt reports that nothing was saved, and the
    world afterwards differs from the world before by that one query only.
    Two attempts for one pair starting from a store without it leave
    exactly one stored notice. *)
Lemma duplicate_skipped_when_store_serves (E : Env) (w : World)
    (title link : string) :
  store_up E ->
  (stored w title link ->
   (forall d,
      ScraperPtu.check_and_insert E title link d w = (false, after_query w))
   /\ (forall hint,
         ScraperGndec.save_item E (title, link, hint) w
         = (false, after_query w)))
  /\ (~ stored w title link ->
      (forall d d',
         let w1 := snd (ScraperPtu.check_and_insert E title link d w) in
         let r2 := ScraperPtu.check_and_insert E title link d' w1 in
         List.length (select_by_link_or_title link title (snd r2)) = 1%nat
         /\ r2 = (false, after_query w1))
      /\ (forall hint hint',
            let w1 := snd (ScraperGndec.save_item E (title, link, hint) w) in
            let r2 := ScraperGndec.save_item E (title, link, hint') w1 in
            List.length (select_by_link_or_title link title (snd r2)) = 1%nat
            /\ r2 = (false, after_query w1))).
Proof.
  intros Hup. split.
  - intros Hst. split.
    + intros d. now apply check_and_insert_duplicate.
    + intros hint. now apply save_item_duplicate.
  - intros Hst. split.
    + intros d d'. cbv zeta.
      destruct (check_and_insert_fresh E title link d w Hup Hst) as [_ [Hn _]].
      destruct (selected_after_insert title link _ w _ Hst Hn eq_refl)
        as [Hst1 Hlen].
      rewrite (check_and_insert_duplicate E title link d' _ (Hup _) Hst1).
      split; [exact Hlen | reflexivity].
    + intros hint hint'. cbv zeta.
      destruct (save_item_fresh E title link hint w Hup Hst) as [_ [Hn _]].
      destruct (selected_after_insert title link _ w _ Hst Hn eq_refl)
        as [Hst1 Hlen].
      rewrite (save_item_duplicate E title link hint' _ (Hup _) Hst1).
      split; [exact Hlen | reflexivity].
Qed.

(** C1, at the input where the code departs from it.  The store holds
    notice 7, "Mid-term Exam" with its link, and one immediate alert that
    matches it.  The existence query of an insert attempt for that title
    and link is not served ([run_query] returns [None]); the queries after
    it are.  Both scrapers go on: a second row, 8, is stored for the pair
    and the attempt is counted as saved.  Both then run the notifier (for
    GNDEC it is the fourth query, the one for the active alerts); in the
    PTU scraper, whose source tag the alert asks for, it sends one message
    and records it.  A no-op would have left one row and the outbox
    empty. *)
Theorem duplicate_inserted_when_existence_check_fails :
  let E := Sample.env_late in
  let w := Sample.world_exam in
  let title := "Mid-term Exam" in
  let link := "https://ptu.ac.in/files/a.pdf" in
  let ptu := ScraperPtu.check_and_insert E title link (mkDate 2025 12 28) w in
  let gndec :=
    ScraperGndec.save_item E (title, link, Some (mkDate 2025 12 28)) w in
  stored w title link
  /\ db_up E (queries w) = false
  /\ (fst ptu = true
      /\ map n_id (notices (snd ptu)) = [7; 8]
      /\ map n_title (notices (snd ptu)) = [Some title; Some title]
      /\ map d_ok (outbox (snd ptu)) = [true]
      /\ alerts_sent (snd ptu) = [(1, 7)])
  /\ (fst gndec = true
      /\ map n_id (notices (snd gndec)) = [7; 8]
      /\ map n_title (notices (snd gndec)) = [Some title; Some title]
      /\ queries (snd gndec) = (queries w + 4)%nat).
Proof.
  cbv zeta. split.
  - exists Sample.notice_exam. split; [now left | now left].
  - vm_compute. repeat split.
Qed.

(** The same pair inserted twice into a store with one immediate alert:
    one notice, one notification. *)
Example insert_twice_stores_once :
  let w1 := snd (ScraperPtu.check_and_insert Sample.env_up "Mid-term Exam"
                   "https://ptu.ac.in/files/a.pdf" (mkDate 2025 12 28)
                   Sample.world_immediate) in
  let w2 := snd (ScraperPtu.check_and_insert Sample.env_up "Mid-term Exam"
                   "https://ptu.ac.in/files/a.pdf" (mkDate 2025 12 28) w1) in
  map n_id (notices w2) = [1] /\ List.length (outbox w1) = 1%nat
  /\ outbox w2 = outbox w1 /\ alerts_sent w2 = [(1, 1)].
Proof. vm_compute. repeat split. Qed.

(** *** The filters of the PTU scraper *)








(** A run on 28 December 2025 over a row dated 28 November, a row dated
    27 November and a row without a date stores the first one only. *)
Example run_keeps_the_boundary_row :
  let r := ScraperPtu.run Sample.env_up
             (ScraperPtu.Parsed
                (Some [mkRow [] []; Sample.row_old; Sample.row_boundary;
                       Sample.row_undated]))
             Sample.empty_world in
  fst r = Some 1%nat
  /\ map n_title (notices (snd r)) = [Some "Mid-term Exam"]
  /\ map n_date (notices (snd r)) = [Some (mkDate 2025 11 28)]
  /\ queries (snd r) = 4%nat.
Proof. vm_compute. repeat split. Qed.


(** An undated GNDEC item, with no date on its page either, is stored
    under the date of the clock. *)
Example undated_gndec_item_gets_today :
  let r := ScraperGndec.save_item Sample.env_up
             ("Result notice", "https://erp.gndec.ac.in/notice/12", None)
             Sample.empty_world in
  fst r = true
  /\ map n_date (notices (snd r)) = [Some (mkDate 2025 12 28)]
  /\ fetches (snd r) = 1%nat.
Proof. vm_compute. repeat split. Qed.

End StoreFacts.

(** ** The window of the daily digest *)

Module WindowFacts.
Import PyStr Calendar Html Database Alerts Scheduler Spec DeliveryFacts
  DigestFacts.
Local Open Scope Z_scope.

(** What the code selects.  A run of the daily digest with the store up
    and at least one daily alert matches those alerts against the notices
    selected by date: a stored notice is selected if and only if it has a
    date and that date is on or after the calendar date of the instant 24
    hours before the run.  The selection has no upper bound. *)
Lemma digest_selects_notices_dated_since_yesterday (E : Env) (w : World)
    (since : date) :
  store_up E ->
  datetime_sub_days_date (clock E (clock_reads w)) 1 = Some since ->
  select_daily_alerts w <> [] ->
  snd (daily_digest E w)
  = snd (for_each (digest_alert E (select_recent since w))
           (select_daily_alerts w) (digest_start w))
  /\ forall n,
       In n (select_recent since w)
       <-> In n (notices w)
           /\ exists d, n_date n = Some d /\ date_leb since d = true.
Proof.
  intros Hup Hs Hne. split.
  - now apply daily_digest_up.
  - intros n. apply In_select_recent.
Qed.

(** The lower bound of the selection agrees with the 24 hours before the
    run: a date from the calendar date of the instant 24 hours before the
    run up to the date of the run has an instant within those 24 hours. *)
Example yesterday_and_today_are_within_24h :
  within_prior_24h Sample.evening (mkDate 2025 12 27) = true
  /\ within_prior_24h Sample.evening (mkDate 2025 12 28) = true
  /\ within_prior_24h Sample.evening (mkDate 2025 12 26) = false
  /\ date_leb (mkDate 2025 12 27) (mkDate 2025 12 26) = false.
Proof. vm_compute. repeat split. Qed.

(** C7, at the input where the code departs from it.  The store holds a
    notice dated 15 January 2026 and the digest runs on 28 December 2025
    at 18:00.  The date of the notice is not within the 24 hours before
    the run, and the run selects the notice all the same, because the
    query bounds the date from below only: the digest for the daily alert
    is sent with that notice and the pair is recorded.  So the notices the
    run selects are not those of the prior 24 hours. *)
Theorem future_dated_notice_is_a_candidate :
  let E := Sample.env_up in
  let w := Sample.world_future in
  let w' := snd (daily_digest E w) in
  datetime_sub_days_date (clock E (clock_reads w)) 1
  = Some (mkDate 2025 12 27)
  /\ n_date Sample.notice_future = Some (mkDate 2026 1 15)
  /\ within_prior_24h (clock E (clock_reads w)) (mkDate 2026 1 15) = false
  /\ In Sample.notice_future (select_recent (mkDate 2025 12 27) w)
  /\ ~ candidates_as_stated E w (mkDate 2025 12 27)
  /\ map d_text (outbox w') = [digest_text [Sample.notice_future]]
  /\ alerts_sent w' = [(3, 9)].
Proof.
  cbv zeta. split; [reflexivity|]. split; [reflexivity|].
  split; [reflexivity|]. split; [vm_compute; now left|]. split.
  - intros H. destruct (H Sample.notice_future) as [H1 _].
    destruct H1 as [_ [d [Hd Hw]]]; [vm_compute; now left|].
    injection Hd as <-. vm_compute in Hw. discriminate Hw.
  - vm_compute. repeat split.
Qed.

End WindowFacts.

(** ** Extraction from the GNDEC page *)

Module ExtractFacts.
Import PyStr Html Database ScraperGndec Spec TextFacts.

Section Extraction.
Variable E : Env.
Variable soup : Soup.
Variable base_url : string.








End Extraction.


(** The length of the text is counted in characters: a text of 30
    characters with a dash outside ASCII (32 bytes in UTF-8) is not longer
    than 30, and one more character makes it so. *)
Example text_length_is_counted_in_characters (E : Env) :
  String.length "Time table – B.Tech 5th term A" = 30
  /\ looks_like_notice E "Time table – B.Tech 5th term A" "/page/7" = false
  /\ looks_like_notice E "Time table – B.Tech 5th term AB" "/page/7" = true.
Proof. vm_compute. repeat split. Qed.


(** On a page where no selector finds anything and the only anchor has no
    text, nothing is extracted. *)
Example nothing_extracted_from_image_link :
  extract_notices_from_soup Sample.env_up Sample.soup_bare GNDEC_URL = [].
Proof. reflexivity. Qed.

(** Selectors in order: "div.notice a" comes before "a[href*='notice']",
    its script link is dropped and its other anchor is the whole result. *)
Example first_selector_with_usable_anchor :
  extract_notices_from_soup Sample.env_up Sample.soup_listed GNDEC_URL
  = [("Result notice", "https://erp.gndec.ac.in/notice/12",
      Some (Calendar.mkDate 2025 11 29))].
Proof. vm_compute. reflexivity. Qed.

End ExtractFacts.

(** ** Frequency: which path handles an alert *)

Module FrequencyFacts.
Import PyStr Calendar Html Database Alerts Scheduler Spec TextFacts DeliveryFacts.
Local Open Scope Z_scope.

Lemma or_default_immediate (f : option string) :
  or_default f "immediate" = "immediate"
  <-> (f = None \/ f = Some "" \/ f = Some "immediate").
Proof.
  destruct f as [s|]; simpl.
  - destruct s as [|c s]; simpl.
    + intuition.
    + split; [intros ->; now right; right|].
      intros [H | [H | H]]; congruence.
  - intuition.
Qed.

Lemma In_select_daily_alerts (w : World) (a : Alert) :
  In a (select_daily_alerts w)
  <-> In a (alerts w) /\ a_active a = 1 /\ a_frequency a = Some "daily".
Proof.
  unfold select_daily_alerts.
  rewrite filter_In, andb_true_iff, Z.eqb_eq, col_eqb_true. intuition.
Qed.

Lemma In_select_active_alerts (w : World) (a : Alert) :
  In a (select_active_alerts w) <-> In a (alerts w) /\ a_active a = 1.
Proof.
  unfold select_active_alerts. rewrite filter_In, Z.eqb_eq. reflexivity.
Qed.

(** The loop body of the immediate path reads the frequency only through
    [or_default]. *)
Lemma notify_alert_frequency (E : Env) (nid : Z)
    (source t_title message : string) (a b : Alert) (w : World) :
  a_id b = a_id a -> a_user_identifier b = a_user_identifier a ->
  a_channel b = a_channel a -> a_keyword b = a_keyword a ->
  a_source b = a_source a ->
  or_default (a_frequency b) "immediate" = or_default (a_frequency a) "immediate" ->
  notify_alert E nid source t_title message b w
  = notify_alert E nid source t_title message a w.
Proof.
  intros H1 H2 H3 H4 H5 H6. unfold notify_alert.
  now rewrite H1, H2, H3, H4, H5, H6.
Qed.

Lemma notify_alert_other_frequency (E : Env) (nid : Z)
    (source t_title message : string) (a : Alert) (w : World) :
  or_default (a_frequency a) "immediate" <> "immediate" ->
  notify_alert E nid source t_title message a w = (tt, w).
Proof.
  intros H. unfold notify_alert. apply string_eqb_neq in H. rewrite H.
  destruct (source_rejects _ _); [reflexivity|].
  destruct (keyword_rejects _ _ _); reflexivity.
Qed.

Lemma notify_alert_attempts (E : Env) (n : Notice) (message : string)
    (a : Alert) (w : World) :
  or_default (a_frequency a) "immediate" = "immediate" ->
  Alerts.matches E a n = true -> recorded w (a_id a) (n_id n) = false ->
  known_channel a ->
  outbox (snd (notify_alert E (n_id n) (upper (ucd E) (or_empty (n_source n)))
                 (lower (ucd E) (or_empty (n_title n))) message a w))
  = (outbox w
     ++ [mkDelivery (or_empty (a_channel a)) (a_user_identifier a) message
           (send_ok E (List.length (outbox w)))])%list.
Proof.
  intros Hf Hm Hr Hk. unfold Alerts.matches in Hm.
  apply andb_true_iff in Hm. destruct Hm as [Hs Hkw].
  apply negb_true_iff in Hs, Hkw.
  unfold notify_alert. rewrite Hs, Hkw, Hf.
  change (negb (String.eqb "immediate" "immediate")) with false. cbv iota.
  unfold bind. rewrite already_sent_run, Hr, andb_false_r. cbn [fst snd].
  destruct Hk as [Hk | Hk]; rewrite Hk.
  - change (col_eqb (Some "telegram") "whatsapp") with false.
    change (col_eqb (Some "telegram") "telegram") with true.
    cbv iota. unfold send_telegram, send.
    cbn [fst snd or_empty outbox set_queries].
    destruct (send_ok E (List.length (outbox w)));
      [rewrite mark_sent_run|]; framed.
  - change (col_eqb (Some "whatsapp") "whatsapp") with true.
    cbv iota. unfold send_whatsapp, send.
    cbn [fst snd or_empty outbox set_queries].
    destruct (send_ok E (List.length (outbox w)));
      [rewrite mark_sent_run|]; framed.
Qed.

(** C10.  An alert whose frequency is absent or empty is treated by the
    immediate path exactly as the same alert with frequency "immediate",
    and gets a send when it matches over a known channel and the pair is
    not recorded.  The daily digest selects exactly the active alerts whose
    frequency is the string "daily".  An alert with any frequency other
    than absent, empty or "immediate" is passed over by the immediate path
    with the world untouched, and an alert with any frequency other than
    "daily" is not selected by the digest: so "daily" alerts are left to
    the digest, and an alert with yet another frequency is handled by
    neither path. *)
Theorem frequency_selects_the_path (E : Env) (w : World) (a : Alert) :
  (a_frequency a = None \/ a_frequency a = Some "" ->
   (forall nid source t_title message,
      notify_alert E nid source t_title message a w
      = notify_alert E nid source t_title message
          (mkAlert (a_id a) (a_user_identifier a) (a_channel a) (a_keyword a)
             (a_source a) (Some "immediate") (a_active a)) w)
   /\ (forall n message,
         Alerts.matches E a n = true -> recorded w (a_id a) (n_id n) = false ->
         known_channel a ->
         outbox (snd (notify_alert E (n_id n) (upper (ucd E) (or_empty (n_source n)))
                        (lower (ucd E) (or_empty (n_title n))) message a w))
         = (outbox w
            ++ [mkDelivery (or_empty (a_channel a)) (a_user_identifier a)
                  message (send_ok E (List.length (outbox w)))])%list))
  /\ (In a (select_daily_alerts w)
      <-> In a (alerts w) /\ a_active a = 1 /\ a_frequency a = Some "daily")
  /\ (forall f,
        a_frequency a = Some f -> f <> "" -> f <> "immediate" ->
        forall nid source t_title message,
          notify_alert E nid source t_title message a w = (tt, w))
  /\ (a_frequency a <> Some "daily" -> ~ In a (select_daily_alerts w)).
Proof.
  split; [|split; [|split]].
  - intros Hf.
    assert (Hd : or_default (a_frequency a) "immediate" = "immediate")
      by (apply or_default_immediate; tauto).
    split.
    + intros nid source t_title message. symmetry.
      apply notify_alert_frequency; try reflexivity.
      cbn [a_frequency]. now rewrite Hd.
    + intros n message Hm Hr Hk. now apply notify_alert_attempts.
  - apply In_select_daily_alerts.
  - intros f Hf Hne Hni nid source t_title message.
    apply notify_alert_other_frequency. intros Hd.
    apply or_default_immediate in Hd. rewrite Hf in Hd.
    destruct Hd as [Hd | [Hd | Hd]]; congruence.
  - intros Hf Hin. apply In_select_daily_alerts in Hin. tauto.
Qed.

(** An alert with frequency "weekly": neither path sends anything. *)
Example weekly_alert_is_handled_by_neither_path :
  outbox (snd (notify_if_matches Sample.env_up Sample.notice_exam
                 Sample.world_weekly)) = []
  /\ outbox (snd (daily_digest Sample.env_up Sample.world_weekly)) = [].
Proof. vm_compute. split; reflexivity. Qed.

(** An alert without a frequency: the immediate path delivers to it. *)
Example alert_without_frequency_is_immediate :
  let w' := snd (notify_if_matches Sample.env_up Sample.notice_exam
                   Sample.world_exam) in
  map d_to (outbox w') = [Some "42"] /\ alerts_sent w' = [(1, 7)].
Proof. vm_compute. split; reflexivity. Qed.

End FrequencyFacts.
(** * Further properties of the code *)

(** ** The row heuristic of the PTU scraper *)

Module RowFacts.
Import PyStr Calendar Html Database ScraperPtu Notions TextFacts.

(** The first cell with a date, read off [find_date_td]. *)
Lemma find_date_td_spec (E : Env) (cells : list Cell) (i : nat) :
  match find_date_td E cells i with
  | Some j =>
      exists k td d,
        j = i + k /\ nth_error cells k = Some td
        /\ try_parse_date E (cell_text td) = Some d
        /\ first_date E (map cell_text cells) = Some d
        /\ forall k' td', k' < k -> nth_error cells k' = Some td' ->
             try_parse_date E (cell_text td') = None
  | None =>
      first_date E (map cell_text cells) = None
      /\ forall td, In td cells -> try_parse_date E (cell_text td) = None
  end.
Proof.
  revert i; induction cells as [|td cells IH]; intros i.
  - simpl. split; [reflexivity | contradiction].
  - cbn [find_date_td map first_date]. unfold has_date.
    destruct (try_parse_date E (cell_text td)) as [d|] eqn:Hd.
    + exists 0, td, d. rewrite Nat.add_0_r. repeat split; try assumption.
      intros k' td' Hlt. inversion Hlt.
    + specialize (IH (S i)). cbn [or_else].
      destruct (find_date_td E cells (S i)) as [j|].
      * destruct IH as [k [td0 [d [Hj [Hn [Hp [Hf Hbefore]]]]]]].
        exists (S k), td0, d. rewrite Nat.add_succ_r.
        repeat split; try assumption.
        intros k' td' Hlt Hn'. destruct k' as [|k']; simpl in Hn'.
        -- injection Hn' as <-. exact Hd.
        -- apply (Hbefore k' td'); [apply Nat.succ_lt_mono; exact Hlt | exact Hn'].
      * destruct IH as [Hf Hall]. split; [exact Hf|].
        intros td' [<- | Hin]; [exact Hd | now apply Hall].
Qed.

(** The cell [pick_candidate] ends with: the running candidate, or a later
    cell that is longer than the running maximum, longer than every cell
    before it and at least as long as every cell after it. *)
Lemma pick_candidate_spec (cells : list Cell) (date_td : option nat) :
  forall (i max_len : nat) (cand : option Cell),
    match cand with
    | Some c => text_length c = max_len
    | None => max_len = 0
    end ->
    let r := pick_candidate cells i date_td max_len cand in
    let final := match r with Some c => text_length c | None => 0 end in
    max_len <= final
    /\ (forall k td, nth_error cells k = Some td ->
          is_td (i + k) date_td = false -> text_length td <= final)
    /\ (r = cand
        \/ exists k c,
             nth_error cells k = Some c /\ r = Some c
             /\ is_td (i + k) date_td = false /\ max_len < text_length c
             /\ forall k' td', k' < k -> nth_error cells k' = Some td' ->
                  is_td (i + k') date_td = false ->
                  text_length td' < text_length c).
Proof.
  induction cells as [|td cells IH]; intros i max_len cand Hinv.
  - cbn [pick_candidate]. cbv zeta. split; [|split].
    + destruct cand; [rewrite Hinv|]; lia.
    + intros k td' Hn. destruct k; discriminate.
    + now left.
  - cbn [pick_candidate]. fold (text_length td).
    destruct (is_td i date_td) eqn:Hdate.
    + destruct (IH (S i) max_len cand Hinv) as [HA [HB HC]].
      cbv zeta. split; [exact HA|]. split.
      * intros k td' Hn Hnd. destruct k as [|k]; simpl in Hn.
        -- rewrite Nat.add_0_r in Hnd. congruence.
        -- apply (HB k td' Hn). now rewrite Nat.add_succ_r in Hnd.
      * destruct HC as [HC | [k [c [Hn [Hr [Hnd [Hlt Hbefore]]]]]]];
          [now left|].
        right. exists (S k), c. rewrite Nat.add_succ_r.
        repeat split; try assumption.
        intros k' td' Hk' Hn' Hnd'. destruct k' as [|k']; simpl in Hn'.
        -- rewrite Nat.add_0_r in Hnd'. congruence.
        -- apply (Hbefore k' td'); [lia | exact Hn'|].
           now rewrite Nat.add_succ_r in Hnd'.
    + destruct (max_len <? text_length td)%nat eqn:Hlen.
      * apply Nat.ltb_lt in Hlen.
        destruct (IH (S i) (text_length td) (Some td) eq_refl)
          as [HA [HB HC]].
        cbv zeta. split; [lia|]. split.
        -- intros k td' Hn Hnd. destruct k as [|k]; simpl in Hn.
           ++ injection Hn as <-. exact HA.
           ++ apply (HB k td' Hn). now rewrite Nat.add_succ_r in Hnd.
        -- right.
           destruct HC as [HC | [k [c [Hn [Hr [Hnd [Hlt Hbefore]]]]]]].
           ++ exists 0, td. rewrite Nat.add_0_r.
              repeat split; try assumption. intros k' td' Hk'. lia.
           ++ exists (S k), c. rewrite Nat.add_succ_r.
              repeat split; try assumption; [lia|].
              intros k' td' Hk' Hn' Hnd'. destruct k' as [|k']; simpl in Hn'.
              ** injection Hn' as <-. exact Hlt.
              ** apply (Hbefore k' td'); [lia | exact Hn'|].
                 now rewrite Nat.add_succ_r in Hnd'.
      * apply Nat.ltb_ge in Hlen.
        destruct (IH (S i) max_len cand Hinv) as [HA [HB HC]].
        cbv zeta. split; [exact HA|]. split.
        -- intros k td' Hn Hnd. destruct k as [|k]; simpl in Hn.
           ++ injection Hn as <-. lia.
           ++ apply (HB k td' Hn). now rewrite Nat.add_succ_r in Hnd.
        -- destruct HC as [HC | [k [c [Hn [Hr [Hnd [Hlt Hbefore]]]]]]];
             [now left|].
           right. exists (S k), c. rewrite Nat.add_succ_r.
           repeat split; try assumption.
           intros k' td' Hk' Hn' Hnd'. destruct k' as [|k']; simpl in Hn'.
           ++ injection Hn' as <-. lia.
           ++ apply (Hbefore k' td'); [lia | exact Hn'|].
              now rewrite Nat.add_succ_r in Hnd'.
Qed.

(** The date of a row is the date of its first cell that holds one. *)
Lemma row_date_is_first_date (E : Env) (tr : Row) :
  snd (best_title_and_link_from_row E tr) = first_date E (map cell_text (tds tr)).
Proof.
  unfold best_title_and_link_from_row.
  destruct (tds tr) as [|c cs]; [reflexivity|].
  cbv beta iota zeta. cbn [fst snd].
  pose proof (find_date_td_spec E (c :: cs) 0) as Hs.
  destruct (find_date_td E (c :: cs) 0) as [j|]; [|reflexivity].
  destruct Hs as [k [td [d [Hj [Hn [Hp [Hf _]]]]]]].
  simpl in Hj. subst j.
  rewrite (nth_error_nth (c :: cs) k (mkCell "" []) Hn), Hp.
  now rewrite Hf.
Qed.

(** X2.  What [best_title_and_link_from_row] makes of a table row.  The
    date is the date of the first cell whose text holds one, and there is
    none exactly when no cell holds one.  The title is the text of the
    longest cell, in characters, other than that first date cell: it is
    not empty, no
    other such cell is longer, and the cells before it are strictly
    shorter.  There is no title exactly when every cell other than the date
    cell is empty, which includes the row without cells. *)
Theorem row_title_is_longest_cell_and_date_is_first_date (E : Env) (tr : Row) :
  let date_td := find_date_td E (tds tr) 0 in
  let other i := is_td i date_td = false in
  snd (best_title_and_link_from_row E tr) = first_date E (map cell_text (tds tr))
  /\ match fst (fst (best_title_and_link_from_row E tr)) with
     | Some title =>
         title <> ""
         /\ exists i td,
              nth_error (tds tr) i = Some td /\ other i
              /\ cell_text td = title
              /\ forall j td', nth_error (tds tr) j = Some td' -> other j ->
                   String.length (cell_text td') <= String.length title
                   /\ (j < i ->
                       String.length (cell_text td') < String.length title)
     | None =>
         forall j td', nth_error (tds tr) j = Some td' -> other j ->
           cell_text td' = ""
     end.
Proof.
  cbv zeta. split; [apply row_date_is_first_date|].
  unfold best_title_and_link_from_row.
  destruct (tds tr) as [|c cs] eqn:Htds.
  - cbn [fst snd]. intros j td' Hn. destruct j; discriminate.
  - cbv beta iota zeta. cbn [fst snd].
    destruct (pick_candidate_spec (c :: cs) (find_date_td E (c :: cs) 0)
                0 0 None eq_refl) as [_ [HB HC]].
    cbv zeta in HB, HC. cbn [Nat.add] in HB, HC.
    destruct (pick_candidate (c :: cs) 0 (find_date_td E (c :: cs) 0) 0 None)
      as [r|]; cbn [option_map].
    + destruct HC as [HC | [k [c0 [Hn [Hr [Hnd [Hlt Hbefore]]]]]]];
        [discriminate|].
      injection Hr as <-. split.
      * intros He. unfold text_length in Hlt. rewrite He in Hlt.
         simpl in Hlt. lia.
      * exists k, r. repeat split; try assumption.
         -- apply (HB j td'); assumption.
         -- intros Hjk. apply (Hbefore j td'); assumption.
    + intros j td' Hn Hnd. specialize (HB j td' Hn Hnd).
      unfold text_length in HB. destruct (cell_text td'); [reflexivity|].
      simpl in HB. lia.
Qed.

(** A row with two cells of one length: the first one is the title. *)
Example first_of_equal_cells_is_the_title (E : Env) :
  best_title_and_link_from_row E
    (mkRow [mkCell "01/12/2025" []; mkCell "Datesheet A" ["/a.pdf"];
            mkCell "Datesheet B" ["/b.pdf"]] ["/a.pdf"; "/b.pdf"])
  = (Some "Datesheet A", Some "/a.pdf", Some (mkDate 2025 12 1)).
Proof. vm_compute. reflexivity. Qed.

(** Length is counted in characters: the Punjabi cell has 11 of them (31
    bytes in UTF-8) and loses to the cell of 21 characters. *)
Example longest_cell_is_counted_in_characters :
  String.length "ਦਾਖਲਾ ਸੂਚਨਾ" = 11
  /\ String.length "Admission notice 2025" = 21
  /\ best_title_and_link_from_row Sample.env_wide
       (mkRow [mkCell "01/12/2025" []; mkCell "ਦਾਖਲਾ ਸੂਚਨਾ" ["/a.pdf"];
               mkCell "Admission notice 2025" ["/b.pdf"]]
          ["/a.pdf"; "/b.pdf"])
     = (Some "Admission notice 2025", Some "/b.pdf", Some (mkDate 2025 12 1)).
Proof. vm_compute. repeat split. Qed.

End RowFacts.

(** ** Delivering once *)

Module OnceFacts.
Import PyStr Calendar Html Database Alerts Scheduler Spec Notions TextFacts DeliveryFacts DigestFacts.
Local Open Scope Z_scope.

Lemma existsb_pair_mono (p : Z * Z) (w w' : World) :
  ledger_kept w w' ->
  existsb (pair_eqb p) (alerts_sent w) = true ->
  existsb (pair_eqb p) (alerts_sent w') = true.
Proof.
  intros Hk H. apply existsb_exists in H. destruct H as [q [Hq He]].
  apply existsb_exists. exists q. split; [now apply Hk | exact He].
Qed.

(** *** The immediate path *)

Lemma due_same_ledger (E : Env) (nid : Z) (source t_title : string) (a : Alert)
    (w w' : World) :
  alerts_sent w' = alerts_sent w ->
  due E nid source t_title a w' = due E nid source t_title a w.
Proof. intros H. unfold due. now rewrite H. Qed.

Lemma due_stays_false (E : Env) (nid : Z) (source t_title : string) (a : Alert)
    (w w' : World) :
  ledger_kept w w' ->
  due E nid source t_title a w = false -> due E nid source t_title a w' = false.
Proof.
  intros Hk. unfold due. rewrite !andb_false_iff, !negb_false_iff.
  intros [H | H]; [now left|]. right. now apply (existsb_pair_mono _ w).
Qed.

(** One alert, with the store up: an alert that is not due is passed over
    without a send or a ledger write; an alert that is due gets one send,
    and is recorded when the send succeeded. *)
Lemma notify_alert_by_due (E : Env) (nid : Z) (source t_title message : string)
    (a : Alert) (w : World) :
  store_up E ->
  let w' := snd (notify_alert E nid source t_title message a w) in
  ledger_kept w w'
  /\ (due E nid source t_title a w = false ->
      outbox w' = outbox w /\ alerts_sent w' = alerts_sent w)
  /\ (due E nid source t_title a w = true ->
      send_ok E (List.length (outbox w)) = true ->
      In (a_id a, nid) (alerts_sent w')).
Proof.
  intros Hup. cbv zeta. split.
  - destruct (notify_alert_cases E nid source t_title message a w)
      as [_ [[_ Hl] | [_ [ch [_ [_ Hl]]]]]]; intros p Hp; rewrite Hl;
      [exact Hp|].
    destruct (_ && _); [|exact Hp]. apply In_insert_sent. now left.
  - unfold notify_alert, due.
    destruct (source_rejects _ _); cbn [negb andb];
      [split; [intros _; split; reflexivity | discriminate]|].
    destruct (keyword_rejects _ _ _); cbn [negb andb];
      [split; [intros _; split; reflexivity | discriminate]|].
    destruct (String.eqb (or_default (a_frequency a) "immediate") "immediate");
      cbn [negb andb];
      [|split; [intros _; split; reflexivity | discriminate]].
    unfold bind. rewrite already_sent_run, Hup. cbn [fst snd andb].
    unfold recorded.
    destruct (existsb (pair_eqb (a_id a, nid)) (alerts_sent w)) eqn:Hr;
      cbn [negb]; rewrite ?andb_false_r, ?andb_true_r;
      [split; [intros _; split; reflexivity | discriminate]|].
    destruct (col_eqb (a_channel a) "whatsapp");
      [|destruct (col_eqb (a_channel a) "telegram")]; cbn [orb].
    + split; [discriminate|]. intros _ Hok.
      unfold send_whatsapp, send. cbn [fst snd outbox set_queries].
      rewrite Hok, mark_sent_run, Hup.
      change (alerts_sent (set_queries ?x _)) with (alerts_sent x).
      apply In_insert_sent. now right.
    + split; [discriminate|]. intros _ Hok.
      unfold send_telegram, send. cbn [fst snd outbox set_queries].
      rewrite Hok, mark_sent_run, Hup.
      change (alerts_sent (set_queries ?x _)) with (alerts_sent x).
      apply In_insert_sent. now right.
    + split; [intros _; split; reflexivity | discriminate].
Qed.

Lemma notify_alert_settles (E : Env) (nid : Z) (source t_title message : string)
    (a : Alert) (w : World) :
  store_up E -> channels_up E ->
  due E nid source t_title a
    (snd (notify_alert E nid source t_title message a w)) = false.
Proof.
  intros Hup Hch.
  destruct (notify_alert_by_due E nid source t_title message a w Hup)
    as [_ [Hq Hd]].
  destruct (due E nid source t_title a w) eqn:Hdue.
  - specialize (Hd eq_refl (Hch _)). unfold due.
    apply andb_false_iff. right. apply negb_false_iff.
    apply existsb_exists. exists (a_id a, nid). split; [exact Hd|].
    now apply pair_eqb_eq.
  - destruct (Hq eq_refl) as [_ Hl].
    now rewrite (due_same_ledger _ _ _ _ _ _ _ Hl).
Qed.

Lemma notify_loop_settles (E : Env) (nid : Z) (source t_title message : string)
    (l : list Alert) :
  store_up E -> channels_up E ->
  forall w,
    let w' := snd (for_each (notify_alert E nid source t_title message) l w) in
    ledger_kept w w'
    /\ forall a, In a l -> due E nid source t_title a w' = false.
Proof.
  intros Hup Hch. induction l as [|x l IH]; intros w.
  - simpl. split; [intros p Hp; exact Hp | contradiction].
  - cbv zeta. rewrite for_each_cons.
    destruct (notify_alert_by_due E nid source t_title message x w Hup)
      as [Hk1 _].
    destruct (IH (snd (notify_alert E nid source t_title message x w)))
      as [Hk2 Hall].
    split; [intros p Hp; apply Hk2, Hk1, Hp|].
    intros a [<- | Ha]; [|now apply Hall].
    apply (due_stays_false _ _ _ _ _ _ _ Hk2).
    now apply notify_alert_settles.
Qed.

Lemma notify_loop_quiet (E : Env) (nid : Z) (source t_title message : string)
    (l : list Alert) :
  store_up E ->
  forall w,
    (forall a, In a l -> due E nid source t_title a w = false) ->
    let w' := snd (for_each (notify_alert E nid source t_title message) l w) in
    outbox w' = outbox w /\ alerts_sent w' = alerts_sent w.
Proof.
  intros Hup. induction l as [|x l IH]; intros w Hall.
  - simpl. split; reflexivity.
  - cbv zeta. rewrite for_each_cons.
    destruct (notify_alert_by_due E nid source t_title message x w Hup)
      as [_ [Hq _]].
    destruct (Hq (Hall x (or_introl eq_refl))) as [Ho Hl].
    destruct (IH (snd (notify_alert E nid source t_title message x w)))
      as [Ho2 Hl2].
    + intros a Ha. rewrite (due_same_ledger _ _ _ _ _ _ _ Hl).
      apply Hall. now right.
    + split; congruence.
Qed.

(** X3.  With the store up and the channels up, running the immediate
    notifier a second time for the same notice sends nothing and records
    nothing: every alert that was due a message got it, and was recorded,
    in the first run. *)
Theorem notifying_twice_sends_once (E : Env) (n : Notice) (w : World) :
  store_up E -> channels_up E ->
  let w1 := snd (notify_if_matches E n w) in
  let w2 := snd (notify_if_matches E n w1) in
  outbox w2 = outbox w1 /\ alerts_sent w2 = alerts_sent w1.
Proof.
  intros Hup Hch. cbv zeta.
  destruct (notify_if_matches_backed E n w) as [[_ [Ha _]] _].
  revert Ha. unfold notify_if_matches, bind.
  rewrite !get_active_alerts_run, !Hup. cbn [fst snd].
  set (body := notify_alert E (n_id n) (upper (ucd E) (or_empty (n_source n)))
                 (lower (ucd E) (or_empty (n_title n)))
                 (notice_message (upper (ucd E) (or_empty (n_source n)))
                    (or_empty (n_title n)) (or_empty (n_link n)) (n_date n))).
  set (w1 := snd (for_each body (select_active_alerts w)
                    (set_queries w (S (queries w))))).
  intros Ha.
  assert (Hsel : select_active_alerts w1 = select_active_alerts w)
    by (unfold select_active_alerts; now rewrite Ha).
  rewrite Hsel.
  destruct (notify_loop_settles E (n_id n) (upper (ucd E) (or_empty (n_source n)))
              (lower (ucd E) (or_empty (n_title n)))
              (notice_message (upper (ucd E) (or_empty (n_source n)))
                 (or_empty (n_title n)) (or_empty (n_link n)) (n_date n))
              (select_active_alerts w) Hup Hch
              (set_queries w (S (queries w)))) as [_ Hall].
  fold body in Hall. fold w1 in Hall.
  apply (notify_loop_quiet E _ _ _ _ (select_active_alerts w) Hup
           (set_queries w1 (S (queries w1)))).
  intros a Hin. rewrite <- (Hall a Hin). now apply due_same_ledger.
Qed.

(** The theorem at work. *)
Lemma notifying_twice_sends_once_witness :
  (store_up Sample.env_up /\ channels_up Sample.env_up)
  /\ (let w1 := snd (notify_if_matches Sample.env_up Sample.notice_exam
                       Sample.world_exam) in
      let w2 := snd (notify_if_matches Sample.env_up Sample.notice_exam w1) in
      outbox w2 = outbox w1 /\ alerts_sent w2 = alerts_sent w1).
Proof.
  assert (H1 : store_up Sample.env_up) by (intros k; reflexivity).
  assert (H2 : channels_up Sample.env_up) by (intros k; reflexivity).
  exact (conj (conj H1 H2)
           (notifying_twice_sends_once Sample.env_up Sample.notice_exam
              Sample.world_exam H1 H2)).
Defined.

(** With the channel down the notice stays owed: the second run sends
    again. *)
Example undelivered_notice_is_sent_again :
  let w1 := snd (notify_if_matches Sample.env_mute Sample.notice_exam
                   Sample.world_exam) in
  let w2 := snd (notify_if_matches Sample.env_mute Sample.notice_exam w1) in
  List.length (outbox w1) = 1%nat /\ List.length (outbox w2) = 2%nat
  /\ alerts_sent w2 = [].
Proof. vm_compute. repeat split. Qed.

(** *** The daily path *)

Lemma digest_due_false (E : Env) (recent : list Notice) (a : Alert) (w : World) :
  digest_due E recent a w = false
  <-> ~ known_channel a \/ pending_for E a recent w = [].
Proof.
  unfold digest_due, pending_for, recorded. rewrite andb_false_iff. split.
  - intros [H | H].
    + left. apply orb_false_iff in H. destruct H as [Ht Hw].
      intros [Hk | Hk]; apply col_eqb_true in Hk; congruence.
    + right. induction recent as [|n recent IH]; [reflexivity|].
      simpl in H. apply orb_false_iff in H. destruct H as [Hn H].
      cbn [filter]. rewrite Hn. now apply IH.
  - intros [H | H].
    + left. apply orb_false_iff. split.
      * destruct (col_eqb (a_channel a) "telegram") eqn:Ht; [|reflexivity].
        exfalso. apply H. left. now apply col_eqb_true.
      * destruct (col_eqb (a_channel a) "whatsapp") eqn:Hw; [|reflexivity].
        exfalso. apply H. right. now apply col_eqb_true.
    + right. induction recent as [|n recent IH]; [reflexivity|].
      cbn [filter] in H. simpl.
      destruct (Scheduler.matches E a n
                && negb (existsb (pair_eqb (a_id a, n_id n)) (alerts_sent w)));
        [discriminate|]. now apply IH.
Qed.

Lemma pending_same_ledger (E : Env) (recent : list Notice) (a : Alert) (w w' : World) :
  alerts_sent w' = alerts_sent w ->
  pending_for E a recent w' = pending_for E a recent w.
Proof. intros H. unfold pending_for, recorded. now rewrite H. Qed.

Lemma pending_stays_empty (E : Env) (recent : list Notice) (a : Alert) (w w' : World) :
  ledger_kept w w' ->
  pending_for E a recent w = [] -> pending_for E a recent w' = [].
Proof.
  intros Hk. unfold pending_for, recorded.
  induction recent as [|n recent IH]; [reflexivity|]. cbn [filter].
  destruct (Scheduler.matches E a n); cbn [andb]; [|exact IH].
  destruct (existsb (pair_eqb (a_id a, n_id n)) (alerts_sent w)) eqn:Hr;
    cbn [negb]; [|discriminate].
  rewrite (existsb_pair_mono _ w w' Hk Hr). exact IH.
Qed.

Lemma digest_due_stays_false (E : Env) (recent : list Notice) (a : Alert) (w w' : World) :
  ledger_kept w w' ->
  digest_due E recent a w = false -> digest_due E recent a w' = false.
Proof.
  intros Hk H. apply digest_due_false in H. apply digest_due_false.
  destruct H as [H | H]; [now left | right].
  now apply (pending_stays_empty E recent a w).
Qed.

Lemma pending_cleared (E : Env) (recent : list Notice) (a : Alert) (w w' : World) :
  ledger_kept w w' ->
  (forall m, In m (pending_for E a recent w) ->
     In (a_id a, n_id m) (alerts_sent w')) ->
  pending_for E a recent w' = [].
Proof.
  intros Hk. unfold pending_for, recorded.
  induction recent as [|n recent IH]; intros Hall; [reflexivity|].
  cbn [filter] in *.
  destruct (Scheduler.matches E a n); cbn [andb] in *; [|now apply IH].
  destruct (existsb (pair_eqb (a_id a, n_id n)) (alerts_sent w)) eqn:Hr;
    cbn [negb] in *.
  - rewrite (existsb_pair_mono _ w w' Hk Hr). cbn [negb]. now apply IH.
  - assert (Hin : In (a_id a, n_id n) (alerts_sent w'))
      by (apply Hall; now left).
    assert (He : existsb (pair_eqb (a_id a, n_id n)) (alerts_sent w') = true).
    { apply existsb_exists. exists (a_id a, n_id n).
      split; [exact Hin | now apply pair_eqb_eq]. }
    rewrite He. cbn [negb]. apply IH. intros m Hm. apply Hall. now right.
Qed.

(** One alert of the digest, with the store up. *)
Lemma digest_alert_by_due (E : Env) (recent : list Notice) (a : Alert)
    (w : World) :
  store_up E ->
  let w' := snd (digest_alert E recent a w) in
  same_store w w' /\ ledger_kept w w'
  /\ (digest_due E recent a w = false ->
      outbox w' = outbox w /\ alerts_sent w' = alerts_sent w)
  /\ (send_ok E (List.length (outbox w)) = true ->
      digest_due E recent a w' = false).
Proof.
  intros Hup. cbv zeta.
  pose proof (collect_matched_up E a recent w Hup) as Hp.
  fold (pending_for E a recent w) in Hp.
  destruct (digest_due E recent a w) eqn:Hdue.
  - assert (Hk : known_channel a /\ pending_for E a recent w <> []).
    { split.
      - unfold digest_due in Hdue. apply andb_true_iff in Hdue.
        destruct Hdue as [Hc _]. apply orb_true_iff in Hc.
        destruct Hc as [Hc | Hc]; apply col_eqb_true in Hc;
          [now left | now right].
      - intros Hnil.
        assert (Hf : digest_due E recent a w = false)
          by (apply digest_due_false; now right).
        congruence. }
    destruct Hk as [Hk Hne]. rewrite <- Hp in Hne.
    destruct (digest_alert_sends E recent a w Hne Hk)
      as [Hs [_ [_ [_ [Hold Hall]]]]].
    split; [exact Hs|]. split; [exact Hold|]. split; [discriminate|].
    intros Hok. apply digest_due_false. right.
    apply (pending_cleared E recent a w); [exact Hold|].
    specialize (Hall Hup Hok). rewrite Hp in Hall. exact Hall.
  - apply digest_due_false in Hdue.
    assert (Hq : fst (collect_matched E a recent w) = [] \/ ~ known_channel a)
      by (rewrite Hp; tauto).
    destruct (digest_alert_quiet E recent a w Hq) as [Hs [Ho Hl]].
    split; [exact Hs|]. split; [intros p Hpp; now rewrite Hl|].
    split; [intros _; now split|]. intros _.
    apply digest_due_false. rewrite (pending_same_ledger _ _ _ _ _ Hl). tauto.
Qed.

Lemma digest_loop_settles (E : Env) (recent : list Notice) (l : list Alert) :
  store_up E -> channels_up E ->
  forall w,
    let w' := snd (for_each (digest_alert E recent) l w) in
    same_store w w' /\ ledger_kept w w'
    /\ forall a, In a l -> digest_due E recent a w' = false.
Proof.
  intros Hup Hch. induction l as [|x l IH]; intros w.
  - simpl. split; [apply same_store_refl|].
    split; [intros p Hp; exact Hp | contradiction].
  - cbv zeta. rewrite for_each_cons.
    destruct (digest_alert_by_due E recent x w Hup) as [Hs1 [Hk1 [_ Hd]]].
    destruct (IH (snd (digest_alert E recent x w))) as [Hs2 [Hk2 Hall]].
    split; [eapply same_store_trans; eassumption|].
    split; [intros p Hp; apply Hk2, Hk1, Hp|].
    intros a [<- | Ha]; [|now apply Hall].
    apply (digest_due_stays_false _ _ _ _ _ Hk2). apply Hd, Hch.
Qed.

Lemma digest_loop_quiet (E : Env) (recent : list Notice) (l : list Alert) :
  store_up E ->
  forall w,
    (forall a, In a l -> digest_due E recent a w = false) ->
    let w' := snd (for_each (digest_alert E recent) l w) in
    outbox w' = outbox w /\ alerts_sent w' = alerts_sent w.
Proof.
  intros Hup. induction l as [|x l IH]; intros w Hall.
  - simpl. split; reflexivity.
  - cbv zeta. rewrite for_each_cons.
    destruct (digest_alert_by_due E recent x w Hup) as [_ [_ [Hq _]]].
    destruct (Hq (Hall x (or_introl eq_refl))) as [Ho Hl].
    destruct (IH (snd (digest_alert E recent x w))) as [Ho2 Hl2].
    + intros a Ha. unfold digest_due. rewrite Hl.
      apply (Hall a). now right.
    + split; congruence.
Qed.

(** X4.  With the store up and the channels up, a second run of the daily
    digest that computes the same starting date sends nothing and records
    nothing: the first run recorded every notice it sent. *)
Theorem digest_twice_sends_once (E : Env) (w : World) (since : date) :
  store_up E -> channels_up E ->
  datetime_sub_days_date (clock E (clock_reads w)) 1 = Some since ->
  datetime_sub_days_date (clock E (S (clock_reads w))) 1 = Some since ->
  let w1 := snd (daily_digest E w) in
  let w2 := snd (daily_digest E w1) in
  outbox w2 = outbox w1 /\ alerts_sent w2 = alerts_sent w1.
Proof.
  intros Hup Hch Hs1 Hs2. cbv zeta.
  assert (H1 : exists w0,
            snd (daily_digest E w)
            = snd (for_each (digest_alert E (select_recent since w))
                     (select_daily_alerts w) w0)
            /\ same_store (set_clock_reads w (S (clock_reads w))) w0).
  { rewrite daily_digest_run, Hs1, !Hup. cbv zeta.
    destruct (select_daily_alerts w) as [|a0 daily].
    - eexists. split; [reflexivity | framed].
    - eexists. split; [reflexivity | framed]. }
  destruct H1 as [w0 [Hrun Hs0]].
  destruct (digest_loop_settles E (select_recent since w)
              (select_daily_alerts w) Hup Hch w0) as [Hss [_ Hall]].
  rewrite <- Hrun in Hss, Hall.
  set (w1 := snd (daily_digest E w)) in *.
  assert (Hst : same_store (set_clock_reads w (S (clock_reads w))) w1)
    by (eapply same_store_trans; eassumption).
  destruct Hst as [Hn [Ha [_ [_ Hc]]]]. simpl in Hn, Ha, Hc.
  assert (Hsel : select_daily_alerts w1 = select_daily_alerts w)
    by (unfold select_daily_alerts; now rewrite Ha).
  assert (Hrec : select_recent since w1 = select_recent since w)
    by (unfold select_recent; now rewrite Hn).
  rewrite daily_digest_run, Hc, Hs2, !Hup, Hsel, Hrec. cbv zeta.
  destruct (select_daily_alerts w) as [|a0 daily] eqn:Hd;
    [split; reflexivity|].
  match goal with
  | |- context [for_each ?b ?l ?x] =>
      destruct (digest_loop_quiet E (select_recent since w) l Hup x)
        as [Ho Hl]
  end.
  - intros a Hin. rewrite <- (Hall a Hin). unfold digest_due. reflexivity.
  - split; [exact Ho | exact Hl].
Qed.

(** The theorem at work: two runs on the evening of 28 December 2025. *)
Lemma digest_twice_sends_once_witness :
  (store_up Sample.env_up /\ channels_up Sample.env_up
   /\ datetime_sub_days_date
        (clock Sample.env_up (clock_reads Sample.world_daily)) 1
      = Some (mkDate 2025 12 27)
   /\ datetime_sub_days_date
        (clock Sample.env_up (S (clock_reads Sample.world_daily))) 1
      = Some (mkDate 2025 12 27))
  /\ (let w1 := snd (daily_digest Sample.env_up Sample.world_daily) in
      let w2 := snd (daily_digest Sample.env_up w1) in
      outbox w2 = outbox w1 /\ alerts_sent w2 = alerts_sent w1).
Proof.
  assert (H1 : store_up Sample.env_up) by (intros k; reflexivity).
  assert (H2 : channels_up Sample.env_up) by (intros k; reflexivity).
  assert (H3 : datetime_sub_days_date
                 (clock Sample.env_up (clock_reads Sample.world_daily)) 1
               = Some (mkDate 2025 12 27)) by reflexivity.
  assert (H4 : datetime_sub_days_date
                 (clock Sample.env_up (S (clock_reads Sample.world_daily))) 1
               = Some (mkDate 2025 12 27)) by reflexivity.
  exact (conj (conj H1 (conj H2 (conj H3 H4)))
           (digest_twice_sends_once Sample.env_up Sample.world_daily
              (mkDate 2025 12 27) H1 H2 H3 H4)).
Defined.

End OnceFacts.

(** ** What no job undoes *)

Module GrowFacts.
Import PyStr Calendar Html Database Alerts Scheduler Spec Notions TextFacts DeliveryFacts.
Local Open Scope Z_scope.

Lemma grows_refl (w : World) : grows w w.
Proof.
  unfold grows. split; [exists []; now rewrite app_nil_r|].
  split; [reflexivity|]. split; [auto|]. exists []. now rewrite app_nil_r.
Qed.

Lemma grows_trans (w1 w2 w3 : World) :
  grows w1 w2 -> grows w2 w3 -> grows w1 w3.
Proof.
  intros [[n1 Hn1] [Ha1 [Hl1 [o1 Ho1]]]] [[n2 Hn2] [Ha2 [Hl2 [o2 Ho2]]]].
  unfold grows. split; [exists (n1 ++ n2)%list; now rewrite Hn2, Hn1, app_assoc|].
  split; [congruence|]. split; [auto|].
  exists (o1 ++ o2)%list. now rewrite Ho2, Ho1, app_assoc.
Qed.

(** Worlds with the same tables and outbox grow from each other. *)
Lemma grows_same (w w' : World) :
  notices w' = notices w -> alerts w' = alerts w ->
  alerts_sent w' = alerts_sent w -> outbox w' = outbox w -> grows w w'.
Proof.
  intros Hn Ha Hl Ho. unfold grows. rewrite Hn, Ha, Hl, Ho.
  apply grows_refl.
Qed.

Lemma ret_grows {A} (a : A) : keeps_growing (ret a).
Proof. intros w. apply grows_refl. Qed.

Lemma bind_grows {A B} (c : M A) (k : A -> M B) :
  keeps_growing c -> (forall a, keeps_growing (k a)) ->
  keeps_growing (bind c k).
Proof.
  intros Hc Hk w. unfold bind. cbv zeta.
  eapply grows_trans; [apply Hc | apply Hk].
Qed.

Lemma for_each_grows {A} (body : A -> M unit) (l : list A) :
  (forall x, keeps_growing (body x)) -> keeps_growing (for_each body l).
Proof.
  intros Hb. induction l as [|x l IH]; [apply ret_grows|].
  cbn [for_each]. apply bind_grows; [apply Hb | intros _; exact IH].
Qed.

Lemma run_query_fetch_grows (E : Env) {A} (stmt : World -> list A) :
  keeps_growing (run_query_fetch E stmt).
Proof.
  intros w. unfold run_query_fetch.
  destruct (db_up E (queries w)); now apply grows_same.
Qed.

Lemma insert_notice_grows (E : Env) (title link source : string) (d : date) :
  keeps_growing (run_query E (insert_notice title link d source)).
Proof.
  intros w. unfold run_query. destruct (db_up E (queries w)).
  - unfold grows. cbn. split; [eexists; reflexivity|].
    split; [reflexivity|]. split; [auto|]. exists []. now rewrite app_nil_r.
  - now apply grows_same.
Qed.

Lemma mark_sent_grows (E : Env) (aid nid : Z) :
  keeps_growing (mark_sent E aid nid).
Proof.
  intros w. rewrite mark_sent_run. destruct (db_up E (queries w)).
  - destruct (insert_sent_same_store E aid nid w) as [[Hn [Ha _]] [Ho _]].
    unfold grows. cbn. rewrite Hn, Ha, Ho.
    split; [exists []; now rewrite app_nil_r|]. split; [reflexivity|].
    split; [|exists []; now rewrite app_nil_r].
    intros p Hp. apply In_insert_sent. now left.
  - now apply grows_same.
Qed.

Lemma already_sent_grows (E : Env) (aid nid : Z) :
  keeps_growing (already_sent E aid nid).
Proof. intros w. rewrite already_sent_run. now apply grows_same. Qed.

Lemma send_grows (E : Env) (channel : string) (to : option string)
    (text : string) :
  keeps_growing (send E channel to text).
Proof.
  intros w. unfold send, grows. cbn.
  split; [exists []; now rewrite app_nil_r|]. split; [reflexivity|].
  split; [auto|]. eexists; reflexivity.
Qed.

Lemma now_grows (E : Env) : keeps_growing (now E).
Proof. intros w. now apply grows_same. Qed.

Lemma fetch_notice_page_grows (E : Env) (url : string) :
  keeps_growing (fetch_notice_page E url).
Proof. intros w. now apply grows_same. Qed.

Lemma notify_alert_grows (E : Env) (nid : Z) (source t_title message : string)
    (a : Alert) :
  keeps_growing (notify_alert E nid source t_title message a).
Proof.
  unfold notify_alert, send_whatsapp, send_telegram. cbv zeta.
  destruct (source_rejects _ _); [apply ret_grows|].
  destruct (keyword_rejects _ _ _); [apply ret_grows|].
  destruct (negb _); [apply ret_grows|].
  apply bind_grows; [apply already_sent_grows|]. intros dup.
  destruct dup; [apply ret_grows|].
  apply bind_grows.
  - destruct (col_eqb _ "whatsapp"); [apply send_grows|].
    destruct (col_eqb _ "telegram"); [apply send_grows | apply ret_grows].
  - intros sent. destruct sent; [apply mark_sent_grows | apply ret_grows].
Qed.

Lemma notify_if_matches_grows (E : Env) (n : Notice) :
  keeps_growing (notify_if_matches E n).
Proof.
  unfold notify_if_matches, get_active_alerts. cbv zeta.
  apply bind_grows.
  { apply bind_grows; [apply run_query_fetch_grows|].
    intros rows. apply ret_grows. }
  intros l. apply for_each_grows.
  intros a. apply notify_alert_grows.
Qed.

Lemma check_and_insert_grows (E : Env) (title link : string) (d : date) :
  keeps_growing (ScraperPtu.check_and_insert E title link d).
Proof.
  unfold ScraperPtu.check_and_insert.
  apply bind_grows; [apply run_query_fetch_grows|]. intros existing.
  destruct (found existing); [apply ret_grows|].
  apply bind_grows; [apply insert_notice_grows|]. intros _.
  apply bind_grows; [apply run_query_fetch_grows|]. intros res.
  destruct res as [[|nid ids]|]; try apply ret_grows.
  apply bind_grows; [apply notify_if_matches_grows|].
  intros _. apply ret_grows.
Qed.

Lemma process_row_grows (E : Env) (limit : date) (tr : Row) :
  keeps_growing (ScraperPtu.process_row E limit tr).
Proof.
  unfold ScraperPtu.process_row.
  destruct (ScraperPtu.best_title_and_link_from_row E tr) as [[title link] dv].
  destruct title as [t|]; [|apply ret_grows].
  destruct (_ || _); [apply ret_grows|].
  destruct (negb _); [apply ret_grows|].
  destruct dv as [d|]; [|apply ret_grows].
  destruct (date_ltb d limit); [apply ret_grows|].
  apply check_and_insert_grows.
Qed.

Lemma scan_rows_grows (E : Env) (limit : date) (rows : list Row) :
  forall saved, keeps_growing (ScraperPtu.scan_rows E limit rows saved).
Proof.
  induction rows as [|tr rows IH]; intros saved; [apply ret_grows|].
  cbn [ScraperPtu.scan_rows].
  apply bind_grows; [apply process_row_grows | intros ok; apply IH].
Qed.

Lemma ptu_run_grows (E : Env) (fetched : ScraperPtu.page) :
  keeps_growing (ScraperPtu.run E fetched).
Proof.
  unfold ScraperPtu.run. destruct fetched as [|[rows|]]; try apply ret_grows.
  destruct (_ <=? _)%nat; [apply ret_grows|].
  apply bind_grows; [apply now_grows|]. intros t.
  destruct (sub_days _ _); [|apply ret_grows].
  apply bind_grows; [apply scan_rows_grows | intros; apply ret_grows].
Qed.

Lemma save_item_grows (E : Env) (it : ScraperGndec.item) :
  keeps_growing (ScraperGndec.save_item E it).
Proof.
  destruct it as [[title href] hint]. unfold ScraperGndec.save_item.
  apply bind_grows; [apply run_query_fetch_grows|]. intros existing.
  destruct (found existing); [apply ret_grows|].
  apply bind_grows.
  { destruct hint; [apply ret_grows|].
    unfold ScraperGndec.get_notice_date_from_page.
    apply bind_grows.
    - apply bind_grows; [apply fetch_notice_page_grows|].
      intros html. destruct html; apply ret_grows.
    - intros pd. destruct pd; [apply ret_grows|].
      apply bind_grows; [apply now_grows | intros t; apply ret_grows]. }
  intros dv. apply bind_grows; [apply insert_notice_grows|]. intros _.
  apply bind_grows; [apply run_query_fetch_grows|]. intros res.
  destruct res as [[|nid ids]|]; try apply ret_grows.
  apply bind_grows; [apply notify_if_matches_grows|].
  intros _. apply ret_grows.
Qed.

Lemma save_notices_from_grows (E : Env) (items : list ScraperGndec.item) :
  forall saved, keeps_growing (ScraperGndec.save_notices_from E items saved).
Proof.
  induction items as [|it items IH]; intros saved; [apply ret_grows|].
  cbn [ScraperGndec.save_notices_from].
  apply bind_grows; [apply save_item_grows | intros ok; apply IH].
Qed.

Lemma gndec_run_grows (E : Env) (page : option Soup) :
  keeps_growing (ScraperGndec.run E page).
Proof.
  unfold ScraperGndec.run. destruct page as [soup|]; [|apply ret_grows].
  destruct (ScraperGndec.extract_notices_from_soup E soup _);
    [apply ret_grows|].
  apply bind_grows; [apply save_notices_from_grows | intros; apply ret_grows].
Qed.

Lemma collect_matched_grows (E : Env) (a : Alert) (recent : list Notice) :
  keeps_growing (collect_matched E a recent).
Proof.
  induction recent as [|n recent IH]; [apply ret_grows|].
  cbn [collect_matched]. destruct (negb _); [exact IH|].
  apply bind_grows; [apply already_sent_grows|]. intros dup.
  destruct dup; [exact IH|].
  apply bind_grows; [exact IH | intros; apply ret_grows].
Qed.

Lemma digest_alert_grows (E : Env) (recent : list Notice) (a : Alert) :
  keeps_growing (digest_alert E recent a).
Proof.
  unfold digest_alert, send_telegram, send_whatsapp.
  apply bind_grows; [apply collect_matched_grows|]. intros matched.
  destruct matched as [|m ms]; [apply ret_grows|].
  apply bind_grows.
  { destruct (col_eqb _ "telegram"); [apply send_grows|].
    destruct (col_eqb _ "whatsapp"); [apply send_grows | apply ret_grows]. }
  intros sent. destruct sent; [|apply ret_grows].
  apply for_each_grows. intros x. apply mark_sent_grows.
Qed.

Lemma daily_digest_grows (E : Env) : keeps_growing (daily_digest E).
Proof.
  unfold daily_digest, fetch_recent_notices.
  apply bind_grows; [apply now_grows|]. intros t.
  destruct (datetime_sub_days_date t 1); [|apply ret_grows].
  apply bind_grows; [apply run_query_fetch_grows|]. intros rows.
  destruct (or_nil rows) as [|a0 daily]; [apply ret_grows|].
  apply bind_grows; [apply run_query_fetch_grows|]. intros recent.
  destruct recent; [apply ret_grows|].
  apply for_each_grows. intros a. apply digest_alert_grows.
Qed.

(** X5.  Whatever the store, the channels and the pages do, no job removes
    or changes a stored notice, touches the alerts, removes a ledger
    record or takes back a send: after the immediate notifier, a run of
    either scraper, the scraping job or the daily digest, the notices are
    the old notices followed by new ones, the alerts are the same, the
    ledger holds every old record and the outbox starts with the old
    outbox. *)
Theorem jobs_only_add (E : Env) (w : World) :
  (forall n, grows w (snd (notify_if_matches E n w)))
  /\ (forall fetched, grows w (snd (ScraperPtu.run E fetched w)))
  /\ (forall page, grows w (snd (ScraperGndec.run E page w)))
  /\ (forall ptu gndec, grows w (snd (run_all_scrapers E ptu gndec w)))
  /\ grows w (snd (daily_digest E w)).
Proof.
  split; [intros n; apply notify_if_matches_grows|].
  split; [intros f; apply ptu_run_grows|].
  split; [intros p; apply gndec_run_grows|].
  split; [|apply daily_digest_grows].
  intros ptu gndec. unfold run_all_scrapers.
  apply bind_grows; [apply ptu_run_grows|]. intros _.
  apply bind_grows; [apply gndec_run_grows | intros; apply ret_grows].
Qed.

(** X6.  The ledger lookup.  With the query served, [already_sent] answers
    whether the pair is in the ledger; when the query fails it answers
    that the pair was not sent, whatever the ledger holds.  With the store
    up, a pair is found right after [mark_sent] recorded it, and marking
    one pair does not change the answer for another. *)
Theorem ledger_lookup_after_mark (E : Env) (aid nid : Z) (w : World) :
  fst (already_sent E aid nid w)
  = (db_up E (queries w) && recorded w aid nid)
  /\ (store_up E ->
      fst (already_sent E aid nid (snd (mark_sent E aid nid w))) = true
      /\ forall aid' nid',
           (aid', nid') <> (aid, nid) ->
           fst (already_sent E aid' nid' (snd (mark_sent E aid nid w)))
           = fst (already_sent E aid' nid' w)).
Proof.
  split; [now rewrite already_sent_run|]. intros Hup.
  rewrite !already_sent_run, mark_sent_run, !Hup. cbn [fst andb]. split.
  - apply recorded_In.
    change (alerts_sent (set_queries ?x _)) with (alerts_sent x).
    apply In_insert_sent. now right.
  - intros aid' nid' Hne. rewrite !already_sent_run, !Hup. cbn [fst andb].
    destruct (recorded w aid' nid') eqn:Hr.
    + apply recorded_In.
      change (alerts_sent (set_queries ?x _)) with (alerts_sent x).
      apply In_insert_sent. left. now apply recorded_In.
    + apply Bool.not_true_iff_false. intros Hr'.
      apply recorded_In in Hr'.
      change (alerts_sent (set_queries ?x _)) with (alerts_sent x) in Hr'.
      apply In_insert_sent in Hr'. destruct Hr' as [Hr' | Hr'].
      * apply recorded_In in Hr'. congruence.
      * contradiction.
Qed.

End GrowFacts.

(** ** The keys of the stored notices and the count of a run *)

Module KeyFacts.
Import PyStr Calendar Html Database Alerts Scheduler Spec Notions TextFacts DeliveryFacts StoreFacts.
Local Open Scope Z_scope.

Lemma NoDup_snoc {A} (l : list A) (x : A) :
  NoDup l -> ~ In x l -> NoDup (l ++ [x]).
Proof.
  intros Hl Hx. induction Hl as [|y l Hy Hl IH]; simpl.
  - constructor; [intros [] | constructor].
  - constructor.
    + rewrite in_app_iff. intros [H | [H | []]]; [contradiction|].
      apply Hx. now left.
    + apply IH. intros H. apply Hx. now right.
Qed.

(** A notice under a fresh title and link keeps the keys distinct. *)
Lemma keys_distinct_append (w w' : World) (title link : string) (row : Notice) :
  keys_distinct w -> ~ stored w title link ->
  notices w' = (notices w ++ [row])%list ->
  n_link row = Some link -> n_title row = Some title ->
  keys_distinct w'.
Proof.
  intros [Hl Ht] Hst Hn Hrl Hrt. unfold keys_distinct.
  rewrite Hn, !map_app. cbn [map]. rewrite Hrl, Hrt. split.
  - apply NoDup_snoc; [exact Hl|]. intros Hin. apply in_map_iff in Hin.
    destruct Hin as [n [Hnl Hin]]. apply Hst. exists n. split; [exact Hin|].
    now left.
  - apply NoDup_snoc; [exact Ht|]. intros Hin. apply in_map_iff in Hin.
    destruct Hin as [n [Hnt Hin]]. apply Hst. exists n. split; [exact Hin|].
    now right.
Qed.

Lemma keys_distinct_same (w w' : World) :
  notices w' = notices w -> keys_distinct w -> keys_distinct w'.
Proof. unfold keys_distinct. now intros ->. Qed.

Lemma adds_none (src : string) (w w' : World) :
  notices w' = notices w -> adds src 0 w w'.
Proof.
  intros H. exists []. rewrite H, app_nil_r.
  repeat split; try reflexivity; contradiction.
Qed.

Lemma adds_one (src : string) (w w' : World) (nid : Z) (title link : string)
    (d : date) :
  notices w'
  = (notices w ++ [mkNotice nid (Some title) (Some link) (Some d) (Some src)])%list ->
  adds src 1 w w'.
Proof.
  intros H. eexists. split; [exact H|]. split; [reflexivity|].
  intros n [<- | []]. cbn. repeat split; discriminate.
Qed.

Lemma adds_trans (src : string) (j k : nat) (w1 w2 w3 : World) :
  adds src j w1 w2 -> adds src k w2 w3 -> adds src (j + k) w1 w3.
Proof.
  intros [n1 [H1 [L1 F1]]] [n2 [H2 [L2 F2]]]. exists (n1 ++ n2)%list.
  split; [now rewrite H2, H1, app_assoc|].
  split; [rewrite length_app; lia|].
  intros n Hin. apply in_app_iff in Hin. destruct Hin; auto.
Qed.

(** One attempt of the PTU scraper with the store up. *)
Lemma check_and_insert_step (E : Env) (title link : string) (d : date)
    (w : World) :
  store_up E ->
  let r := ScraperPtu.check_and_insert E title link d w in
  (keys_distinct w -> keys_distinct (snd r))
  /\ adds "PTU" (if fst r then 1 else 0) w (snd r).
Proof.
  intros Hup. cbv zeta.
  destruct (select_by_link_or_title link title w) as [|i ids] eqn:Hsel.
  - assert (Hst : ~ stored w title link).
    { intros H. apply stored_iff_selected in H. contradiction. }
    destruct (check_and_insert_fresh E title link d w Hup Hst)
      as [Hok [Hn _]].
    rewrite Hok. split.
    + intros Hk. now apply (keys_distinct_append w _ title link _ Hk Hst Hn).
    + exact (adds_one _ _ _ _ _ _ _ Hn).
  - assert (Hst : stored w title link).
    { apply stored_iff_selected. rewrite Hsel. discriminate. }
    rewrite (check_and_insert_duplicate E title link d w (Hup _) Hst).
    cbn [fst snd]. split; [now apply keys_distinct_same | now apply adds_none].
Qed.

(** One item of the GNDEC scraper with the store up. *)
Lemma save_item_step (E : Env) (it : ScraperGndec.item) (w : World) :
  store_up E ->
  let r := ScraperGndec.save_item E it w in
  (keys_distinct w -> keys_distinct (snd r))
  /\ adds "GNDEC" (if fst r then 1 else 0) w (snd r).
Proof.
  intros Hup. destruct it as [[title link] hint]. cbv zeta.
  destruct (select_by_link_or_title link title w) as [|i ids] eqn:Hsel.
  - assert (Hst : ~ stored w title link).
    { intros H. apply stored_iff_selected in H. contradiction. }
    destruct (save_item_fresh E title link hint w Hup Hst)
      as [Hok [Hn _]].
    rewrite Hok. split.
    + intros Hk. now apply (keys_distinct_append w _ title link _ Hk Hst Hn).
    + exact (adds_one _ _ _ _ _ _ _ Hn).
  - assert (Hst : stored w title link).
    { apply stored_iff_selected. rewrite Hsel. discriminate. }
    rewrite (save_item_duplicate E title link hint w (Hup _) Hst).
    cbn [fst snd]. split; [now apply keys_distinct_same | now apply adds_none].
Qed.

Lemma process_row_step (E : Env) (limit : date) (tr : Row) (w : World) :
  store_up E ->
  let r := ScraperPtu.process_row E limit tr w in
  (keys_distinct w -> keys_distinct (snd r))
  /\ adds "PTU" (if fst r then 1 else 0) w (snd r).
Proof.
  intros Hup. cbv zeta. unfold ScraperPtu.process_row.
  assert (Hskip : (keys_distinct w -> keys_distinct (snd (ret false w)))
                  /\ adds "PTU" (if fst (ret false w) then 1 else 0) w
                       (snd (ret false w))).
  { cbn. split; [auto | now apply adds_none]. }
  destruct (ScraperPtu.best_title_and_link_from_row E tr) as [[title link] dv].
  destruct title as [t|]; [|exact Hskip].
  destruct (_ || _); [exact Hskip|].
  destruct (negb _); [exact Hskip|].
  destruct dv as [d|]; [|exact Hskip].
  destruct (date_ltb d limit); [exact Hskip|].
  now apply check_and_insert_step.
Qed.

Lemma scan_rows_steps (E : Env) (limit : date) (rows : list Row) :
  store_up E ->
  forall saved w,
    let r := ScraperPtu.scan_rows E limit rows saved w in
    (keys_distinct w -> keys_distinct (snd r))
    /\ exists k, fst r = (saved + k)%nat /\ adds "PTU" k w (snd r).
Proof.
  intros Hup. induction rows as [|tr rows IH]; intros saved w; cbv zeta.
  - cbn. split; [auto|]. exists 0%nat. split; [lia | now apply adds_none].
  - cbn [ScraperPtu.scan_rows]. unfold bind. cbv zeta.
    destruct (process_row_step E limit tr w Hup) as [Hk Ha].
    destruct (ScraperPtu.process_row E limit tr w) as [ok w1].
    cbn [fst snd] in *.
    destruct (IH (if ok then S saved else saved) w1) as [Hk' [k [Hf Ha']]].
    split; [auto|].
    exists ((if ok then 1 else 0) + k)%nat. split.
    + rewrite Hf. destruct ok; lia.
    + exact (adds_trans _ _ _ _ _ _ Ha Ha').
Qed.

Lemma save_notices_steps (E : Env) (items : list ScraperGndec.item) :
  store_up E ->
  forall saved w,
    let r := ScraperGndec.save_notices_from E items saved w in
    (keys_distinct w -> keys_distinct (snd r))
    /\ exists k, fst r = (saved + k)%nat /\ adds "GNDEC" k w (snd r).
Proof.
  intros Hup. induction items as [|it items IH]; intros saved w; cbv zeta.
  - cbn. split; [auto|]. exists 0%nat. split; [lia | now apply adds_none].
  - cbn [ScraperGndec.save_notices_from]. unfold bind. cbv zeta.
    destruct (save_item_step E it w Hup) as [Hk Ha].
    destruct (ScraperGndec.save_item E it w) as [ok w1].
    cbn [fst snd] in *.
    destruct (IH (if ok then S saved else saved) w1) as [Hk' [k [Hf Ha']]].
    split; [auto|].
    exists ((if ok then 1 else 0) + k)%nat. split.
    + rewrite Hf. destruct ok; lia.
    + exact (adds_trans _ _ _ _ _ _ Ha Ha').
Qed.

Lemma ptu_run_steps (E : Env) (fetched : ScraperPtu.page) (w : World) :
  store_up E ->
  let r := ScraperPtu.run E fetched w in
  (keys_distinct w -> keys_distinct (snd r))
  /\ adds "PTU" (saved_count (fst r)) w (snd r).
Proof.
  intros Hup. cbv zeta. unfold ScraperPtu.run.
  assert (Hskip : (keys_distinct w -> keys_distinct (snd (ret (@None nat) w)))
                  /\ adds "PTU" (saved_count (fst (ret (@None nat) w))) w
                       (snd (ret (@None nat) w))).
  { cbn. split; [auto | now apply adds_none]. }
  destruct fetched as [|[rows|]]; try exact Hskip.
  destruct (_ <=? _)%nat; [exact Hskip|].
  unfold bind, now. cbv zeta. cbn [fst snd].
  destruct (sub_days _ _) as [limit|].
  - destruct (scan_rows_steps E limit
                (firstn ScraperPtu.MAX_ROWS (skipn 1 rows)) Hup 0%nat
                (set_clock_reads w (S (clock_reads w))))
      as [Hk [k [Hf Ha]]].
    destruct (ScraperPtu.scan_rows E limit _ 0%nat _) as [n w1].
    cbn [ret fst snd saved_count] in *. subst n.
    split; [intros H; apply Hk; exact H | exact Ha].
  - cbn. split; [auto | now apply adds_none].
Qed.

Lemma gndec_run_steps (E : Env) (page : option Soup) (w : World) :
  store_up E ->
  let r := ScraperGndec.run E page w in
  (keys_distinct w -> keys_distinct (snd r))
  /\ adds "GNDEC" (saved_count (fst r)) w (snd r).
Proof.
  intros Hup. cbv zeta. unfold ScraperGndec.run.
  assert (Hskip : (keys_distinct w -> keys_distinct (snd (ret (@None nat) w)))
                  /\ adds "GNDEC" (saved_count (fst (ret (@None nat) w))) w
                       (snd (ret (@None nat) w))).
  { cbn. split; [auto | now apply adds_none]. }
  destruct page as [soup|]; [|exact Hskip].
  destruct (ScraperGndec.extract_notices_from_soup E soup _) as [|it items];
    [exact Hskip|].
  destruct (save_notices_steps E (it :: items) Hup 0%nat w)
    as [Hk [k [Hf Ha]]].
  unfold bind, ScraperGndec.save_notices. cbv zeta.
  destruct (ScraperGndec.save_notices_from E (it :: items) 0%nat w)
    as [n w1].
  cbn [ret fst snd saved_count] in *. subst n.
  split; [exact Hk | exact Ha].
Qed.

(** X7.  With the store up, the scrapers never store a second notice under
    a link or a title that is already there: if no two stored notices share
    a link and no two share a title, this still holds after a run of the
    PTU scraper, after a run of the GNDEC scraper and after the scraping
    job, whatever the pages hold. *)
Theorem scrapers_keep_keys_distinct (E : Env) (w : World) :
  store_up E -> keys_distinct w ->
  (forall fetched, keys_distinct (snd (ScraperPtu.run E fetched w)))
  /\ (forall page, keys_distinct (snd (ScraperGndec.run E page w)))
  /\ (forall ptu gndec,
        keys_distinct (snd (run_all_scrapers E ptu gndec w))).
Proof.
  intros Hup Hk.
  split; [intros f; now apply (ptu_run_steps E f w Hup)|].
  split; [intros p; now apply (gndec_run_steps E p w Hup)|].
  intros ptu gndec. unfold run_all_scrapers, bind. cbv zeta. cbn [ret snd].
  apply (gndec_run_steps E gndec _ Hup).
  now apply (ptu_run_steps E ptu w Hup).
Qed.

(** The page of two rows under one title: one of them is stored. *)
Lemma scrapers_keep_keys_distinct_witness :
  keys_distinct
    (snd (ScraperPtu.run Sample.env_up
            (ScraperPtu.Parsed
               (Some [Sample.row_boundary; Sample.row_boundary;
                      Sample.row_boundary]))
            Sample.empty_world)).
Proof.
  refine (proj1 (scrapers_keep_keys_distinct Sample.env_up Sample.empty_world
                   _ _) _).
  - intros k. reflexivity.
  - split; constructor.
Defined.



End KeyFacts.

(** ** The jobs while the store cannot be reached *)

Module DownFacts.
Import PyStr Calendar Html Database Alerts Scheduler Spec Notions TextFacts DeliveryFacts.
Local Open Scope Z_scope.

Lemma untouched_refl (w : World) : untouched w w.
Proof. unfold untouched. repeat split; reflexivity. Qed.

(** Worlds that differ by the counters only. *)
Ltac still := unfold untouched; cbn; repeat split; reflexivity.

Lemma untouched_trans (w1 w2 w3 : World) :
  untouched w1 w2 -> untouched w2 w3 -> untouched w1 w3.
Proof. unfold untouched. intuition congruence. Qed.

Lemma bind_run {A B} (c : M A) (k : A -> M B) (w w1 : World) (a : A) :
  c w = (a, w1) -> bind c k w = k a w1.
Proof. unfold bind. now intros ->. Qed.

Lemma run_query_fetch_down (E : Env) {A} (stmt : World -> list A) (w : World) :
  store_down E -> run_query_fetch E stmt w = (None, after_query w).
Proof. intros Hd. unfold run_query_fetch. now rewrite Hd. Qed.

Lemma run_query_down (E : Env) (stmt : World -> World) (w : World) :
  store_down E -> run_query E stmt w = (tt, after_query w).
Proof. intros Hd. unfold run_query. now rewrite Hd. Qed.

(** The end of both loop bodies, from the insert on. *)
Lemma insert_then_select_down (E : Env) (title link source : string) (d : date)
    (k : Notice -> M unit) (w : World) :
  store_down E ->
  let r :=
    (run_query E (insert_notice title link d source) ;;;
     res <- run_query_fetch E (select_by_link link) ;;
     match res with
     | Some (nid :: _) =>
         k (mkNotice nid (Some title) (Some link) (Some d) (Some source)) ;;;
         ret true
     | _ => ret true
     end) w in
  fst r = true /\ untouched w (snd r).
Proof.
  intros Hd. cbv zeta. unfold bind.
  rewrite (run_query_down E _ w Hd). cbn [fst snd].
  rewrite (run_query_fetch_down E _ _ Hd). cbn [fst snd].
  split; [reflexivity | still].
Qed.

Lemma notify_if_matches_down (E : Env) (n : Notice) (w : World) :
  store_down E -> untouched w (snd (notify_if_matches E n w)).
Proof.
  intros Hd. unfold notify_if_matches, bind. cbv zeta.
  rewrite get_active_alerts_run, Hd. still.
Qed.

Lemma check_and_insert_down (E : Env) (title link : string) (d : date)
    (w : World) :
  store_down E ->
  let r := ScraperPtu.check_and_insert E title link d w in
  fst r = true /\ untouched w (snd r).
Proof.
  intros Hd. cbv zeta. unfold ScraperPtu.check_and_insert.
  rewrite (bind_run _ _ _ _ _ (run_query_fetch_down E _ w Hd)).
  cbn [found].
  destruct (insert_then_select_down E title link "PTU" d
              (notify_if_matches E) (after_query w) Hd) as [Hf Hu].
  split; [exact Hf|].
  apply (untouched_trans w (after_query w) _); [still | exact Hu].
Qed.

Lemma save_item_down (E : Env) (it : ScraperGndec.item) (w : World) :
  store_down E ->
  let r := ScraperGndec.save_item E it w in
  fst r = true /\ untouched w (snd r).
Proof.
  intros Hd. destruct it as [[title link] hint]. cbv zeta.
  unfold ScraperGndec.save_item.
  rewrite (bind_run _ _ _ _ _ (run_query_fetch_down E _ w Hd)).
  cbn [found].
  match goal with
  | |- context [bind ?c ?k (after_query w)] =>
      set (rd := c (after_query w));
      change (bind c k (after_query w)) with (k (fst rd) (snd rd))
  end.
  assert (Hrd : untouched w (snd rd)).
  { subst rd. destruct hint as [h|]; [still|].
    unfold ScraperGndec.get_notice_date_from_page, bind, fetch_notice_page,
      now. cbn [fst snd].
    destruct (web E _ link) as [p|]; cbn [fst snd ret];
      [destruct (ScraperGndec.date_of_page E p)|]; still. }
  destruct (insert_then_select_down E title link "GNDEC" (fst rd)
              (notify_if_matches E) (snd rd) Hd) as [Hf Hu].
  split; [exact Hf|]. exact (untouched_trans _ _ _ Hrd Hu).
Qed.

Lemma save_notices_from_down (E : Env) (items : list ScraperGndec.item) :
  store_down E ->
  forall saved w,
    let r := ScraperGndec.save_notices_from E items saved w in
    fst r = (saved + List.length items)%nat /\ untouched w (snd r).
Proof.
  intros Hd. induction items as [|it items IH]; intros saved w; cbv zeta.
  - cbn. split; [lia | apply untouched_refl].
  - cbn [ScraperGndec.save_notices_from]. unfold bind. cbv zeta.
    destruct (save_item_down E it w Hd) as [Hok Hu]. rewrite Hok.
    destruct (IH (S saved) (snd (ScraperGndec.save_item E it w)))
      as [Hf Hu'].
    split; [rewrite Hf; cbn [List.length]; lia|].
    exact (untouched_trans _ _ _ Hu Hu').
Qed.

Lemma process_row_down (E : Env) (limit : date) (tr : Row) (w : World) :
  store_down E -> untouched w (snd (ScraperPtu.process_row E limit tr w)).
Proof.
  intros Hd. unfold ScraperPtu.process_row.
  destruct (ScraperPtu.best_title_and_link_from_row E tr) as [[title link] dv].
  destruct title as [t|]; [|apply untouched_refl].
  destruct (_ || _); [apply untouched_refl|].
  destruct (negb _); [apply untouched_refl|].
  destruct dv as [d|]; [|apply untouched_refl].
  destruct (date_ltb d limit); [apply untouched_refl|].
  now apply check_and_insert_down.
Qed.

Lemma scan_rows_down (E : Env) (limit : date) (rows : list Row) :
  store_down E ->
  forall saved w, untouched w (snd (ScraperPtu.scan_rows E limit rows saved w)).
Proof.
  intros Hd. induction rows as [|tr rows IH]; intros saved w.
  - apply untouched_refl.
  - cbn [ScraperPtu.scan_rows]. unfold bind. cbv zeta.
    eapply untouched_trans; [now apply process_row_down | apply IH].
Qed.

(** X9.  While no query is served, nothing reaches the store and no one is
    notified, yet the scrapers count what they tried as saved: an insert
    attempt of the PTU scraper reports success, the GNDEC scraper reports
    every item it was given as saved, and after either scraper's run, the
    immediate notifier or the daily digest the notices, the alerts, the
    ledger and the outbox are what they were. *)
Theorem unreachable_store_counts_saves_but_keeps_nothing (E : Env) (w : World) :
  store_down E ->
  (forall title link d,
     let r := ScraperPtu.check_and_insert E title link d w in
     fst r = true /\ untouched w (snd r))
  /\ (forall items,
        let r := ScraperGndec.save_notices E items w in
        fst r = List.length items /\ untouched w (snd r))
  /\ (forall fetched, untouched w (snd (ScraperPtu.run E fetched w)))
  /\ (forall page, untouched w (snd (ScraperGndec.run E page w)))
  /\ (forall n, untouched w (snd (notify_if_matches E n w)))
  /\ untouched w (snd (daily_digest E w)).
Proof.
  intros Hd.
  split; [intros title link d; now apply check_and_insert_down|].
  split; [intros items; apply (save_notices_from_down E items Hd 0%nat w)|].
  split; [|split; [|split]].
  - intros fetched. unfold ScraperPtu.run.
    destruct fetched as [|[rows|]]; try apply untouched_refl.
    destruct (_ <=? _)%nat; [apply untouched_refl|].
    unfold bind, now. cbv zeta. cbn [fst snd].
    destruct (sub_days _ _) as [limit|]; [|still].
    cbn [ret snd].
    apply (scan_rows_down E limit _ Hd 0%nat
             (set_clock_reads w (S (clock_reads w)))).
  - intros page. unfold ScraperGndec.run.
    destruct page as [soup|]; [|apply untouched_refl].
    destruct (ScraperGndec.extract_notices_from_soup E soup _) as [|it items];
      [apply untouched_refl|].
    unfold bind, ScraperGndec.save_notices. cbv zeta. cbn [ret snd].
    apply (save_notices_from_down E (it :: items) Hd 0%nat w).
  - intros n. now apply notify_if_matches_down.
  - rewrite daily_digest_run, Hd. cbv zeta.
    destruct (datetime_sub_days_date _ _); still.
Qed.

Lemma unreachable_store_counts_saves_but_keeps_nothing_witness :
  let r := ScraperGndec.save_notices env_down
             [("Exam notice", "https://gndec.ac.in/exam.pdf", None)]
             Sample.world_exam in
  fst r = 1%nat /\ untouched Sample.world_exam (snd r).
Proof.
  refine (proj1 (proj2 (unreachable_store_counts_saves_but_keeps_nothing
                          env_down Sample.world_exam _)) _).
  intros k. reflexivity.
Defined.

End DownFacts.

(** ** Nobody is left owed a message *)

Module ServedFacts.
Import PyStr Calendar Html Database Alerts Scheduler Spec Notions TextFacts DeliveryFacts DigestFacts OnceFacts.
Local Open Scope Z_scope.

Lemma known_channel_cols (a : Alert) :
  known_channel a ->
  (col_eqb (a_channel a) "whatsapp" || col_eqb (a_channel a) "telegram") = true.
Proof. intros [H | H]; rewrite H; reflexivity. Qed.

(** After the immediate notifier, an alert that was owed the notice has the
    pair in the ledger. *)
Lemma notify_serves (E : Env) (n : Notice) (a : Alert) (w : World) :
  store_up E -> channels_up E ->
  In a (select_active_alerts w) -> Alerts.matches E a n = true ->
  or_default (a_frequency a) "immediate" = "immediate" ->
  known_channel a ->
  recorded (snd (notify_if_matches E n w)) (a_id a) (n_id n) = true.
Proof.
  intros Hup Hch Hin Hm Hf Hk. unfold notify_if_matches, bind.
  rewrite get_active_alerts_run, Hup. cbn [fst snd].
  destruct (notify_loop_settles E (n_id n) (upper (ucd E) (or_empty (n_source n)))
              (lower (ucd E) (or_empty (n_title n)))
              (notice_message (upper (ucd E) (or_empty (n_source n)))
                 (or_empty (n_title n)) (or_empty (n_link n)) (n_date n))
              (select_active_alerts w) Hup Hch
              (set_queries w (S (queries w)))) as [_ Hall].
  specialize (Hall a Hin). unfold due in Hall.
  unfold Alerts.matches in Hm. rewrite Hm, Hf in Hall.
  rewrite (known_channel_cols a Hk), string_eqb_refl in Hall.
  cbn [andb] in Hall.
  apply negb_false_iff in Hall. exact Hall.
Qed.

(** X10.  With the store up and the channels up, a job leaves nobody owed:
    after the immediate notifier ran for a notice, every active alert of
    immediate frequency on a known channel that matches the notice has the
    pair in the ledger; after the daily digest, no daily alert on a known
    channel has a matching notice of the window that is not in the
    ledger. *)
Theorem jobs_leave_nothing_owed (E : Env) (w : World) :
  store_up E -> channels_up E ->
  (forall n a,
     In a (select_active_alerts w) -> Alerts.matches E a n = true ->
     or_default (a_frequency a) "immediate" = "immediate" ->
     known_channel a ->
     recorded (snd (notify_if_matches E n w)) (a_id a) (n_id n) = true)
  /\ (forall since a,
        datetime_sub_days_date (clock E (clock_reads w)) 1 = Some since ->
        In a (select_daily_alerts w) -> known_channel a ->
        pending_for E a (select_recent since w) (snd (daily_digest E w)) = []).
Proof.
  intros Hup Hch. split.
  - intros n a Hin Hm Hf Hk. now apply notify_serves.
  - intros since a Hs Hin Hk.
    assert (H1 : exists w0,
              snd (daily_digest E w)
              = snd (for_each (digest_alert E (select_recent since w))
                       (select_daily_alerts w) w0)).
    { rewrite daily_digest_run, Hs, !Hup. cbv zeta.
      destruct (select_daily_alerts w) as [|a0 daily];
        [contradiction | eexists; reflexivity]. }
    destruct H1 as [w0 Hrun].
    destruct (digest_loop_settles E (select_recent since w)
                (select_daily_alerts w) Hup Hch w0) as [_ [_ Hall]].
    rewrite <- Hrun in Hall. specialize (Hall a Hin).
    apply digest_due_false in Hall. destruct Hall as [Hall | Hall];
      [contradiction | exact Hall].
Qed.

Lemma jobs_leave_nothing_owed_witness :
  recorded (snd (notify_if_matches Sample.env_up Sample.notice_exam
                   Sample.world_exam))
    (a_id Sample.alert_exam) (n_id Sample.notice_exam) = true.
Proof.
  refine (proj1 (jobs_leave_nothing_owed Sample.env_up Sample.world_exam _ _)
            Sample.notice_exam Sample.alert_exam _ _ _ _).
  - intros k. reflexivity.
  - intros k. reflexivity.
  - left. reflexivity.
  - reflexivity.
  - reflexivity.
  - left. reflexivity.
Defined.

(** The end of both loop bodies, from the insert of a fresh notice on: the
    world is the one the immediate notifier leaves for the new row, run on
    a world with the alerts and the ledger of the start. *)
Lemma insert_then_notify_world (E : Env) (title link source : string)
    (d : date) (w : World) :
  store_up E -> select_by_link_or_title link title w = [] ->
  exists w0,
    alerts w0 = alerts w /\ alerts_sent w0 = alerts_sent w
    /\ snd ((run_query E (insert_notice title link d source) ;;;
             res <- run_query_fetch E (select_by_link link) ;;
             match res with
             | Some (nid :: _) =>
                 notify_if_matches E
                   (mkNotice nid (Some title) (Some link) (Some d)
                      (Some source)) ;;;
                 ret true
             | _ => ret true
             end) w)
       = snd (notify_if_matches E
                (mkNotice (next_id w) (Some title) (Some link) (Some d)
                   (Some source)) w0).
Proof.
  intros Hup Hsel. unfold bind.
  rewrite (StoreFacts.run_query_up E _ w (Hup _)). cbn [fst snd].
  rewrite (StoreFacts.run_query_fetch_up E _ _ (Hup _)). cbn [fst snd].
  change (select_by_link link (set_queries ?x _)) with (select_by_link link x).
  rewrite (StoreFacts.select_by_link_after_insert title link source d w Hsel).
  unfold ret. cbn [fst snd].
  eexists. split; [|split; [|reflexivity]]; reflexivity.
Qed.

(** X11.  With the store up and the channels up, a notice a scraper stores
    is announced in the same step: when the title and the link are new,
    every active alert of immediate frequency on a known channel whose
    filters accept the new notice has the pair of the alert and the new
    notice in the ledger after the PTU insert attempt, and after the GNDEC
    one. *)
Theorem fresh_notice_is_announced (E : Env) (w : World) (title link : string)
    (a : Alert) :
  store_up E -> channels_up E -> ~ stored w title link ->
  In a (select_active_alerts w) ->
  or_default (a_frequency a) "immediate" = "immediate" ->
  known_channel a ->
  (forall d,
     Alerts.matches E a
       (mkNotice (next_id w) (Some title) (Some link) (Some d) (Some "PTU"))
     = true ->
     recorded (snd (ScraperPtu.check_and_insert E title link d w))
       (a_id a) (next_id w) = true)
  /\ (forall hint d,
        Alerts.matches E a
          (mkNotice (next_id w) (Some title) (Some link) d (Some "GNDEC"))
        = true ->
        recorded (snd (ScraperGndec.save_item E (title, link, hint) w))
          (a_id a) (next_id w) = true).
Proof.
  intros Hup Hch Hst Hin Hf Hk.
  apply StoreFacts.not_stored_selected in Hst. split.
  - intros d Hm.
    destruct (insert_then_notify_world E title link "PTU" d (after_query w)
                Hup Hst) as [w0 [Ha [Hl Hw]]].
    change (next_id (after_query w)) with (next_id w) in Hw.
    assert (Hr : snd (ScraperPtu.check_and_insert E title link d w)
                 = snd (notify_if_matches E
                          (mkNotice (next_id w) (Some title) (Some link)
                             (Some d) (Some "PTU")) w0)).
    { rewrite <- Hw. unfold ScraperPtu.check_and_insert. unfold bind at 1.
      rewrite (StoreFacts.run_query_fetch_up E _ w (Hup _)), Hst.
      reflexivity. }
    rewrite Hr.
    apply (notify_serves E
             (mkNotice (next_id w) (Some title) (Some link) (Some d)
                (Some "PTU")) a w0 Hup Hch); try assumption.
    unfold select_active_alerts. rewrite Ha. exact Hin.
  - intros hint d Hm.
    set (page_date := match web E (fetches (after_query w)) link with
                      | Some p => ScraperGndec.date_of_page E p
                      | None => None
                      end).
    set (date_val := match hint, page_date with
                     | Some d, _ => d
                     | None, Some d => d
                     | None, None =>
                         dt_date (clock E (clock_reads (after_query w)))
                     end).
    assert (Hr : exists w1,
              select_by_link_or_title link title w1 = []
              /\ alerts w1 = alerts w /\ next_id w1 = next_id w
              /\ ScraperGndec.save_item E (title, link, hint) w
                 = (run_query E (insert_notice title link date_val "GNDEC") ;;;
                    res <- run_query_fetch E (select_by_link link) ;;
                    match res with
                    | Some (nid :: _) =>
                        notify_if_matches E
                          (mkNotice nid (Some title) (Some link)
                             (Some date_val) (Some "GNDEC")) ;;;
                        ret true
                    | _ => ret true
                    end) w1).
    { unfold ScraperGndec.save_item.
      unfold bind at 1.
      rewrite (StoreFacts.run_query_fetch_up E _ w (Hup _)), Hst.
      cbn [fst snd found]. unfold bind at 1.
      rewrite (StoreFacts.resolve_date_run E link hint (after_query w)).
      cbn [fst snd]. fold page_date. fold date_val.
      eexists. split; [|split; [|split; [|reflexivity]]].
      - destruct hint as [h|]; [exact Hst|].
        destruct page_date; exact Hst.
      - destruct hint as [h|]; [reflexivity|]. destruct page_date; reflexivity.
      - destruct hint as [h|]; [reflexivity|]. destruct page_date; reflexivity. }
    destruct Hr as [w1 [Hsel [Ha1 [Hi1 ->]]]].
    destruct (insert_then_notify_world E title link "GNDEC" date_val w1
                Hup Hsel) as [w0 [Ha [Hl Hw]]].
    rewrite Hw, Hi1.
    apply (notify_serves E
             (mkNotice (next_id w) (Some title) (Some link) (Some date_val)
                (Some "GNDEC")) a w0 Hup Hch); try assumption.
    unfold select_active_alerts. rewrite Ha, Ha1. exact Hin.
Qed.

Lemma fresh_notice_is_announced_witness :
  recorded
    (snd (ScraperPtu.check_and_insert Sample.env_up "Exam datesheet"
            "https://ptu.ac.in/files/d.pdf" (mkDate 2025 12 28)
            Sample.world_exam))
    (a_id Sample.alert_exam) (next_id Sample.world_exam) = true.
Proof.
  refine (proj1 (fresh_notice_is_announced Sample.env_up Sample.world_exam
                   "Exam datesheet" "https://ptu.ac.in/files/d.pdf"
                   Sample.alert_exam _ _ _ _ _ _) (mkDate 2025 12 28) _).
  - intros k. reflexivity.
  - intros k. reflexivity.
  - intros [n [[<- | []] [H | H]]]; discriminate.
  - left. reflexivity.
  - reflexivity.
  - left. reflexivity.
  - reflexivity.
Defined.

End ServedFacts.

(** ** Where the items of the GNDEC scraper come from *)

Module ItemFacts.
Import PyStr Calendar Html Database ScraperGndec Notions TextFacts.

Section Items.
Variable E : Env.
Variable soup : Soup.
Variable base_url : string.

(** An item taken from anchor [a]: the anchor's text as the title and its
    joined target as the link. *)
Lemma from_selected_item (a : Anchor) (title link : string)
    (hint : option date) :
  In (title, link, hint) (from_selected E base_url a) ->
  title = anchor_text a /\ title <> ""
  /\ hint = nearby_date E a
  /\ exists href,
       anchor_href a = Some href /\ href <> ""
       /\ non_navigable E href = false /\ link = urljoin E base_url href.
Proof.
  unfold from_selected. destruct (anchor_href a) as [href|]; [|intros []].
  destruct (nonempty (anchor_text a)) eqn:Ht; cbn [negb orb]; [|intros []].
  destruct (nonempty href) eqn:Hh; cbn [negb]; [|intros []].
  destruct (non_navigable E href) eqn:Hn; [intros []|].
  intros [H | []]. injection H as <- <- <-.
  split; [reflexivity|]. split; [now apply nonempty_true|].
  split; [reflexivity|]. exists href.
  split; [reflexivity|]. split; [now apply nonempty_true|].
  split; [exact Hn | reflexivity].
Qed.

Lemma from_fallback_item (a : Anchor) (title link : string)
    (hint : option date) :
  In (title, link, hint) (from_fallback E base_url a) ->
  title = anchor_text a /\ title <> ""
  /\ hint = None
  /\ exists href,
       anchor_href a = Some href /\ looks_like_notice E title href = true
       /\ non_navigable E href = false /\ link = urljoin E base_url href.
Proof.
  unfold from_fallback. destruct (anchor_href a) as [href|]; [|intros []].
  destruct (nonempty (anchor_text a)) eqn:Ht; cbn [negb]; [|intros []].
  destruct (looks_like_notice E (anchor_text a) href) eqn:Hl; [|intros []].
  destruct (non_navigable E href) eqn:Hn; [intros []|].
  intros [H | []]. injection H as <- <- <-.
  split; [reflexivity|]. split; [now apply nonempty_true|].
  split; [reflexivity|]. exists href.
  split; [reflexivity|]. split; [exact Hl|].
  split; [exact Hn | reflexivity].
Qed.

(** The loop over the selectors adds nothing but what [from_selected] makes
    of an anchor some selector found. *)
Lemma scan_selectors_sound (sels : list string) :
  forall acc l,
    (scan_selectors E soup base_url sels acc = inl l
     \/ scan_selectors E soup base_url sels acc = inr l) ->
    forall it, In it l ->
      In it acc
      \/ exists sel a,
           In sel sels /\ In a (select soup sel)
           /\ In it (from_selected E base_url a).
Proof.
  induction sels as [|sel sels IH]; intros acc l Hs it Hin.
  - cbn [scan_selectors] in Hs. destruct Hs as [Hs | Hs]; [discriminate|].
    injection Hs as <-. now left.
  - cbn [scan_selectors] in Hs.
    assert (Hrest : forall acc',
              (scan_selectors E soup base_url sels acc' = inl l
               \/ scan_selectors E soup base_url sels acc' = inr l) ->
              (forall x, In x acc' ->
                 In x acc
                 \/ exists sel' a,
                      In sel' (sel :: sels) /\ In a (select soup sel')
                      /\ In x (from_selected E base_url a)) ->
              In it acc
              \/ exists sel' a,
                   In sel' (sel :: sels) /\ In a (select soup sel')
                   /\ In it (from_selected E base_url a)).
    { intros acc' Hs' Hacc. destruct (IH acc' l Hs' it Hin) as [H | H].
      - now apply Hacc.
      - destruct H as [s [a [Hsel [Ha Hit]]]]. right. exists s, a.
        split; [now right | split; assumption]. }
    assert (Hnew : forall x,
              In x (acc ++ flat_map (from_selected E base_url)
                             (select soup sel))%list ->
              In x acc
              \/ exists sel' a,
                   In sel' (sel :: sels) /\ In a (select soup sel')
                   /\ In x (from_selected E base_url a)).
    { intros x Hx. apply in_app_iff in Hx. destruct Hx as [Hx | Hx];
        [now left|]. apply in_flat_map in Hx. destruct Hx as [a [Ha Hx]].
      right. exists sel, a. split; [now left | split; assumption]. }
    destruct (select soup sel) as [|a0 found] eqn:Hsel.
    + apply (Hrest acc Hs). intros x Hx. now left.
    + cbv zeta in Hs.
      destruct (acc ++ flat_map (from_selected E base_url) (a0 :: found))%list
        as [|y ys] eqn:Hacc.
      * apply (Hrest [] Hs). intros x [].
      * destruct Hs as [Hs | Hs]; [|discriminate].
        injection Hs as <-. now apply Hnew.
Qed.

End Items.

(** X12.  Every item the GNDEC extractor returns comes from a link of the
    page: its title is the visible text of an anchor, which is not empty,
    and its link is the anchor's target joined to the base address, the
    target being there and navigable.  The anchor was found by one of the
    selectors, with a non-empty target, the item carrying the date found
    next to the anchor; or it is an anchor of the fallback pass that looks
    like a notice, the item carrying no date. *)
Theorem extracted_items_come_from_page_links (E : Env) (soup : Soup)
    (base_url title link : string) (hint : option date) :
  In (title, link, hint) (extract_notices_from_soup E soup base_url) ->
  title <> ""
  /\ exists a href,
       anchor_text a = title /\ anchor_href a = Some href
       /\ non_navigable E href = false /\ link = urljoin E base_url href
       /\ ((exists sel, In sel selectors /\ In a (select soup sel))
           /\ href <> "" /\ hint = nearby_date E a
           \/ In a (find_all_a_href soup)
              /\ looks_like_notice E title href = true /\ hint = None).
Proof.
  unfold extract_notices_from_soup. intros Hin.
  assert (Hsel : forall l,
            (scan_selectors E soup base_url selectors [] = inl l
             \/ scan_selectors E soup base_url selectors [] = inr l) ->
            In (title, link, hint) l ->
            title <> ""
            /\ exists a href,
                 anchor_text a = title /\ anchor_href a = Some href
                 /\ non_navigable E href = false
                 /\ link = urljoin E base_url href
                 /\ ((exists sel, In sel selectors /\ In a (select soup sel))
                     /\ href <> "" /\ hint = nearby_date E a
                     \/ In a (find_all_a_href soup)
                        /\ looks_like_notice E title href = true
                        /\ hint = None)).
  { intros l Hs Hl.
    destruct (scan_selectors_sound E soup base_url selectors [] l Hs _ Hl)
      as [[] | [sel [a [Hs1 [Ha Hit]]]]].
    apply from_selected_item in Hit.
    destruct Hit as [Ht [Hne [Hh [href [Hr [Hre [Hn Hlk]]]]]]].
    split; [exact Hne|]. exists a, href.
    repeat split; try assumption; [now symmetry|].
    left. split; [exists sel; now split | now split]. }
  destruct (scan_selectors E soup base_url selectors []) as [l | l] eqn:Hs.
  - apply (Hsel l); [now left | exact Hin].
  - apply in_app_iff in Hin. destruct Hin as [Hin | Hin].
    + apply (Hsel l); [now right | exact Hin].
    + apply in_flat_map in Hin. destruct Hin as [a [Ha Hit]].
      apply from_fallback_item in Hit.
      destruct Hit as [Ht [Hne [Hh [href [Hr [Hl [Hn Hlk]]]]]]].
      split; [exact Hne|]. exists a, href.
      repeat split; try assumption; [now symmetry|].
      right. now repeat split.
Qed.

(** The theorem at work on the sample listing. *)
Lemma extracted_items_come_from_page_links_witness :
  In ("Result notice", "https://erp.gndec.ac.in/notice/12",
      Some (mkDate 2025 11 29))
    (extract_notices_from_soup Sample.env_up Sample.soup_listed GNDEC_URL)
  /\ exists a href,
       anchor_text a = "Result notice" /\ anchor_href a = Some href
       /\ non_navigable Sample.env_up href = false
       /\ "https://erp.gndec.ac.in/notice/12"
          = urljoin Sample.env_up GNDEC_URL href.
Proof.
  assert (Hin : In ("Result notice", "https://erp.gndec.ac.in/notice/12",
                    Some (mkDate 2025 11 29))
                  (extract_notices_from_soup Sample.env_up Sample.soup_listed
                     GNDEC_URL))
    by (vm_compute; left; reflexivity).
  split; [exact Hin|].
  destruct (extracted_items_come_from_page_links Sample.env_up
              Sample.soup_listed GNDEC_URL _ _ _ Hin)
    as [_ [a [href [Ht [Hr [Hn [Hl _]]]]]]].
  exists a, href. repeat split; assumption.
Defined.

End ItemFacts.

(** ** What the messages say *)

Module MessageFacts.
Import PyStr Calendar Html Database Alerts Scheduler TextFacts.

Lemma append_assoc (s t u : string) : ((s ++ t) ++ u = s ++ t ++ u)%string.
Proof. induction s as [|c s IH]; simpl; [reflexivity | now rewrite IH]. Qed.

Lemma contains_inside (pre p post : string) :
  contains (pre ++ p ++ post) p = true.
Proof. apply contains_spec. now exists pre, post. Qed.

Lemma contains_head (p t : string) : contains (p ++ t) p = true.
Proof. apply contains_spec. now exists ""%string, t. Qed.

Lemma contains_skip (a t p : string) :
  contains t p = true -> contains (a ++ t) p = true.
Proof.
  intros H. apply contains_spec in H. destruct H as [pre [post ->]].
  apply contains_spec. exists (a ++ pre)%string, post.
  now rewrite append_assoc.
Qed.

(** The part sits in a text built by appending. *)
Ltac inside := repeat first [apply contains_head | apply contains_skip].

(** The loop that builds the digest only appends to the text it has. *)
Lemma digest_fold_extends (ms : list Notice) :
  forall text,
    exists post,
      fold_left (fun text m => text ++ digest_line m)%string ms text
      = (text ++ post)%string.
Proof.
  induction ms as [|m ms IH]; intros text; cbn [fold_left].
  - exists ""%string. induction text; simpl; congruence.
  - destruct (IH (text ++ digest_line m)%string) as [post Hp].
    exists (digest_line m ++ post)%string. now rewrite Hp, append_assoc.
Qed.

Lemma digest_text_app (l1 l2 : list Notice) :
  digest_text (l1 ++ l2)
  = fold_left (fun text m => text ++ digest_line m)%string l2 (digest_text l1).
Proof. unfold digest_text. now rewrite fold_left_app. Qed.

(** X13.  The digest lists every notice it is given, in the order of the
    list: the text for a list is the text for the notices before a notice,
    then the entry of that notice, then the rest, so the text starts with the
    header and holds the title and the link of every notice.  The message
    of the immediate path holds the title and the link of its notice. *)
Theorem messages_carry_title_and_link :
  (forall l1 m l2,
     exists post,
       digest_text (l1 ++ m :: l2)
       = (digest_text l1 ++ digest_line m ++ post)%string)
  /\ (forall matched,
        startswith (digest_text matched) digest_header = true)
  /\ (forall matched m,
        In m matched ->
        contains (digest_text matched) (str_opt (n_title m)) = true
        /\ contains (digest_text matched) (str_opt (n_link m)) = true)
  /\ (forall source title link d,
        contains (notice_message source title link d) title = true
        /\ contains (notice_message source title link d) link = true).
Proof.
  assert (Hsplit : forall l1 m l2,
            exists post,
              digest_text (l1 ++ m :: l2)
              = (digest_text l1 ++ digest_line m ++ post)%string).
  { intros l1 m l2. rewrite digest_text_app. cbn [fold_left].
    destruct (digest_fold_extends l2 (digest_text l1 ++ digest_line m)%string)
      as [post Hp].
    exists post. now rewrite Hp, append_assoc. }
  split; [exact Hsplit|]. split; [|split].
  - intros matched. apply startswith_spec. unfold digest_text.
    apply digest_fold_extends.
  - intros matched m Hin. apply in_split in Hin.
    destruct Hin as [l1 [l2 ->]]. destruct (Hsplit l1 m l2) as [post ->].
    unfold digest_line. rewrite !append_assoc.
    generalize (str_opt (n_title m)) (str_opt (n_link m)) (digest_text l1).
    intros title link text. split; inside.
  - intros source title link d. unfold notice_message. split; inside.
Qed.

End MessageFacts.

(** ** How much of the PTU table a run reads *)

Module BoundFacts.
Import PyStr Calendar Html Database ScraperPtu TextFacts.

(** X14.  A run of the PTU scraper reads the first hundred rows after the
    first row of the table and nothing else: the run on a table is the run
    on the table with any other first row and with the rows after the
    hundred-and-first cut off.  A table of one row or none ends the run
    before the clock is read. *)
Theorem run_reads_hundred_rows_after_the_header (E : Env) (w : World) :
  (forall header header' rows,
     run E (Parsed (Some (header :: rows))) w
     = run E (Parsed (Some (header' :: firstn 100 rows))) w)
  /\ (forall header, run E (Parsed (Some [header])) w = (None, w))
  /\ run E (Parsed (Some [])) w = (None, w).
Proof.
  split; [|split; reflexivity].
  intros header header' rows. unfold run.
  destruct rows as [|r rows]; [reflexivity|].
  change (List.length (header :: r :: rows) <=? 1)%nat with false.
  change (List.length (header' :: firstn 100 (r :: rows)) <=? 1)%nat
    with false.
  change (skipn 1 (header :: r :: rows)) with (r :: rows).
  change (skipn 1 (header' :: firstn 100 (r :: rows)))
    with (firstn 100 (r :: rows)).
  unfold MAX_ROWS. rewrite firstn_firstn. reflexivity.
Qed.

End BoundFacts.

(** ** Text without digits holds no date *)

Module DigitFacts.
Import PyStr Re Calendar Strptime Html Database Notions TextFacts.

Section Tables.
Variable U : Unicode.





Section Engine.
Context {R : Type}.




End Engine.




Lemma digits_needs_digit (lo hi : nat) :
  (1 <= lo)%nat -> needs_digit U (digits U lo hi).
Proof. intros H. split; [exact H | auto]. Qed.



End Tables.

Section Scrapers.
Variable E : Env.







End Scrapers.


(** The scrapers on a text that carries no date. *)
Example notice_title_is_no_date (E : Env) :
  ScraperPtu.try_parse_date E "Admission notice" = None
  /\ ScraperGndec.try_extract_date_from_text E "Admission notice" = None.
Proof. split; vm_compute; reflexivity. Qed.

End DigitFacts.
